(** * TWCManager: KNX control listener and MQTT status publisher

    A shallow embedding of
      - lib/TWCManager/Control/KNXControl.py  (validators, constructor,
        telegram handler, reconnect loop), and
      - lib/TWCManager/Status/MQTTStatus.py   (rate-limited bounded queue,
        connection state, drain callback),
    together with the properties their specification states about them. *)

From Stdlib Require Import ZArith List String Ascii Bool QArith Lia Lqa.
From stdpp Require Import base option list gmap strings.
Import ListNotations.

Local Open Scope string_scope.
Local Open Scope list_scope.
Local Open Scope Z_scope.

(** ** Python values and exceptions *)

(** The values a configuration entry (or a function argument) can hold.
    [self.configKnx.get(key, None)] yields [PNone] for an absent key. *)
Inductive pyval : Type :=
| PNone
| PBool (b : bool)
| PInt (z : Z)
| PStr (s : string).

(** The exception classes that occur in the two modules. *)
Inductive exn : Type :=
| ValueError
| TypeError
| RuntimeError
| NameError
| AttributeError
| OverflowError
| OSError
| ConnectionRefusedError
| OtherError.

(** [isinstance(e, OSError)]: ConnectionRefusedError derives from OSError. *)
Definition is_OSError (e : exn) : bool :=
  match e with
  | OSError | ConnectionRefusedError => true
  | _ => false
  end.

(** A call either returns a value or raises. *)
Inductive result (A : Type) : Type :=
| Returns (a : A)
| Raises (e : exn).
Arguments Returns {A} a.
Arguments Raises {A} e.

Definition raised {A} (r : result A) : bool :=
  match r with Returns _ => false | Raises _ => true end.

Definition bind {A B} (r : result A) (k : A -> result B) : result B :=
  match r with
  | Returns a => k a
  | Raises e => Raises e
  end.

Notation "'do' x <- r ; k" := (bind r (fun x => k))
  (at level 10, x name, r at level 100, k at level 200).

(** Truth value of an object ([if not val]). *)
Definition truthy (v : pyval) : bool :=
  match v with
  | PNone => false
  | PBool b => b
  | PInt z => negb (z =? 0)
  | PStr s => negb (String.eqb s "")
  end.

(** [d.get(key, default)] on a configuration dict. *)
Definition dict_get (d : gmap string pyval) (key : string) (default : pyval) : pyval :=
  match d !! key with
  | Some v => v
  | None => default
  end.

(** *** [int(...)] *)

Definition is_digit (c : ascii) : bool :=
  let n := nat_of_ascii c in Nat.leb 48 n && Nat.leb n 57.

Definition digit_value (c : ascii) : Z := Z.of_nat (nat_of_ascii c) - 48.

(** A string is a sequence of code points below 256.  White space as
    [int] skips it around a literal: tab to carriage return and the
    space, and of the code points from 128 on, NEL (0x85) and the
    no-break space (0xA0).  The separators 0x1C to 0x1F are not
    skipped. *)
Definition is_space (c : ascii) : bool :=
  let n := nat_of_ascii c in
  (Nat.leb 9 n && Nat.leb n 13) || Nat.eqb n 32 || Nat.eqb n 133 || Nat.eqb n 160.

Fixpoint lstrip (l : list ascii) : list ascii :=
  match l with
  | c :: l' => if is_space c then lstrip l' else l
  | [] => []
  end.

Definition strip (l : list ascii) : list ascii :=
  rev (lstrip (rev (lstrip l))).

(** Decimal digits, single underscores allowed between two digits. *)
Fixpoint digits_value (acc : Z) (after_digit : bool) (l : list ascii) : option Z :=
  match l with
  | [] => if after_digit then Some acc else None
  | c :: l' =>
      if is_digit c then digits_value (10 * acc + digit_value c) true l'
      else if Ascii.eqb c "_"%char && after_digit then digits_value acc false l'
      else None
  end.

(** The longest literal [int] converts: 4300 digits (the default of
    [sys.get_int_max_str_digits]); underscores do not count. *)
Definition max_str_digits : nat := 4300.

(** The digits of a literal, after the sign. *)
Definition unsigned_literal (l : list ascii) : option Z :=
  if Nat.ltb max_str_digits (length (List.filter is_digit l)) then None
  else digits_value 0 false l.

Definition int_of_chars (l : list ascii) : option Z :=
  match strip l with
  | "+"%char :: l' => unsigned_literal l'
  | "-"%char :: l' => option_map Z.opp (unsigned_literal l')
  | l' => unsigned_literal l'
  end.

(** [int(v)]: identity on integers, 0/1 on booleans, a decimal parse on
    strings (ValueError when the text is no integer literal). *)
Definition py_int (v : pyval) : result Z :=
  match v with
  | PNone => Raises TypeError
  | PBool b => Returns (if b then 1 else 0)
  | PInt z => Returns z
  | PStr s =>
      match int_of_chars (list_ascii_of_string s) with
      | Some z => Returns z
      | None => Raises ValueError
      end
  end.

(** ** Validators (KNXControl.py, module level) *)

(** [type(val) == int]: exact type, so [bool] is excluded. *)
Definition type_is_int (v : pyval) : bool :=
  match v with PInt _ => true | _ => false end.

Definition int_payload (v : pyval) : Z :=
  match v with PInt z => z | _ => 0 end.

Definition is_valid_port (val : pyval) : result bool :=
  if negb (truthy val) then Returns false
  else if type_is_int val && (0 <? int_payload val) && (int_payload val <? 2 ^ 16)
  then Returns true
  else do n <- py_int val; Returns ((0 <? n) && (n <? 2 ^ 16)).

(** *** Regular expressions, as far as [re.match] is used here *)

Inductive regex : Type :=
| RDigit                                 (* \d *)
| RChar (a : ascii)                      (* a literal character *)
| RSeq (r1 r2 : regex)                   (* r1 r2 *)
| RRepeat (lo hi : nat) (r : regex).     (* r{lo,hi} *)

(** [repeat_at m lo hi s]: every remainder of [s] after between [lo] and
    [hi] successive matches of [m], the longest runs first (greedy). *)
Fixpoint repeat_at (m : list ascii -> list (list ascii)) (lo hi : nat)
    (s : list ascii) : list (list ascii) :=
  match hi with
  | O => if Nat.eqb lo 0 then [s] else []
  | S hi' =>
      flat_map (repeat_at m (Nat.pred lo) hi') (m s)
      ++ (if Nat.eqb lo 0 then [s] else [])
  end.

(** [match_at r s]: the remainders of [s] after each way [r] matches a
    prefix of [s], in the order a backtracking matcher tries them. *)
Fixpoint match_at (r : regex) (s : list ascii) : list (list ascii) :=
  match r with
  | RDigit =>
      match s with
      | c :: s' => if is_digit c then [s'] else []
      | [] => []
      end
  | RChar a =>
      match s with
      | c :: s' => if Ascii.eqb c a then [s'] else []
      | [] => []
      end
  | RSeq r1 r2 => flat_map (match_at r2) (match_at r1 s)
  | RRepeat lo hi r' => repeat_at (match_at r') lo hi s
  end.

(** [re.match(r, s)]: anchored at the start, not at the end; [None] when
    no prefix matches, otherwise the first match (here: what follows it). *)
Definition re_match (r : regex) (s : string) : option (list ascii) :=
  head (match_at r (list_ascii_of_string s)).

(** r"\d{1,3}/\d{1,3}/\d{1,3}" *)
Definition knx_pattern : regex :=
  RSeq (RRepeat 1 3 RDigit)
    (RSeq (RChar "/")
       (RSeq (RRepeat 1 3 RDigit)
          (RSeq (RChar "/") (RRepeat 1 3 RDigit)))).

Definition is_knx_address (val : pyval) : result bool :=
  if negb (truthy val) then Returns false
  else
    match val with
    | PStr s =>
        Returns (match re_match knx_pattern s with Some _ => true | None => false end)
    | _ => Raises TypeError   (* re.match: expected string or bytes-like object *)
    end.

(** The pattern in the words of the specification: one to three digits,
    a slash, one to three digits, a slash, one to three digits, at the
    start of the text, followed by anything. *)
Definition digit_run (d : list ascii) : Prop :=
  (1 <= length d <= 3)%nat /\ Forall (fun c => is_digit c = true) d.

Definition starts_with_knx_triple (s : string) : Prop :=
  exists a b c rest,
    list_ascii_of_string s = a ++ "/"%char :: b ++ "/"%char :: c ++ rest /\
    digit_run a /\ digit_run b /\ digit_run c.

(** ** KNXControl.py: class KNXControl *)

Module KNXControl.

(** *** What the class uses of knxdclient *)

(** [knxdclient.GroupAddress]: a named tuple (main, middle, sub); two
    addresses are equal when their components are. *)
Record GroupAddress : Type := { main : Z; middle : Z; sub : Z }.

Definition GroupAddress_eqb (a b : GroupAddress) : bool :=
  (main a =? main b) && (middle a =? middle b) && (sub a =? sub b).

Inductive KNXDAPDUType : Type := READ | WRITE | RESPONSE.

Definition KNXDAPDUType_eqb (a b : KNXDAPDUType) : bool :=
  match a, b with
  | READ, READ | WRITE, WRITE | RESPONSE, RESPONSE => true
  | _, _ => false
  end.

(** The encoded value of a telegram: raw bytes, or a small integer for
    the types shorter than a byte. *)
Inductive EncodedData : Type :=
| EInt (n : Z)
| EBytes (bs : list Byte.byte).

(** [packet.payload]: a [KNXGroupAPDU] (type, value) or an object of
    another class. *)
Inductive payload_obj : Type :=
| KNXGroupAPDU (type : KNXDAPDUType) (value : EncodedData)
| OtherPayload.

(** [knxdclient.ReceivedGroupAPDU]; the source address is never read. *)
Record ReceivedGroupAPDU : Type := { dst : GroupAddress; payload : payload_obj }.

(** A Python float: a finite value is a rational. *)
Inductive pyfloat : Type :=
| FFinite (q : Q)
| FInf (negative : bool)
| FNaN.

(** [int(x)] for a float [x]: truncation towards zero. *)
Definition int_of_float (x : pyfloat) : result Z :=
  match x with
  | FFinite q => Returns (Z.quot (Qnum q) (Z.pos (Qden q)))
  | FInf _ => Raises OverflowError
  | FNaN => Raises ValueError
  end.

(** *** The host controller as the class sees it *)

(** Calls made on [self.master], in the order they are made.  A log line
    keeps its level and the fixed part of its text. *)
Inductive master_call : Type :=
| debugLog (level : Z) (message : string)
| releaseModule (namespace name : string)
| resetChargeNowAmps
| setChargeNowTimeEnd (duration : pyval)
| setChargeNowAmps (amps : Z).

Definition is_session_call (c : master_call) : bool :=
  match c with
  | resetChargeNowAmps | setChargeNowTimeEnd _ | setChargeNowAmps _ => true
  | debugLog _ _ | releaseModule _ _ => false
  end.

(** The session calls of a trace: everything but logging. *)
Definition session_calls (t : list master_call) : list master_call :=
  List.filter is_session_call t.

(** *** The object *)

(** A configured address: the text of the configuration, or the
    [GroupAddress] it was converted to in [__init__]. *)
Inductive address : Type :=
| Unconverted (v : pyval)
| Converted (g : GroupAddress).

(** The attributes as [__init__] reads them from the configuration. *)
Record settings : Type := {
  cfg_gatewayIP : pyval;
  cfg_gatewayPort : pyval;
  cfg_chargeNowDurationAddress : pyval;
  cfg_chargeNowRateAddress : pyval;
  cfg_chargeNowDuration : pyval;
  cfg_status : pyval
}.

(** The attributes once [__init__] has converted the addresses. *)
Record listener : Type := {
  gatewayIP : pyval;
  gatewayPort : pyval;
  chargeNowDurationAddress : address;
  chargeNowRateAddress : address;
  chargeNowDuration : pyval
}.

Definition set_chargeNowDuration (self : listener) (d : pyval) : listener :=
  {| gatewayIP := gatewayIP self;
     gatewayPort := gatewayPort self;
     chargeNowDurationAddress := chargeNowDurationAddress self;
     chargeNowRateAddress := chargeNowRateAddress self;
     chargeNowDuration := d |}.

(** [s.split(sep)] *)
Fixpoint split_on (sep : ascii) (s : list ascii) : list (list ascii) :=
  match s with
  | [] => [[]]
  | c :: s' =>
      if Ascii.eqb c sep then [] :: split_on sep s'
      else
        match split_on sep s' with
        | w :: ws => (c :: w) :: ws
        | [] => [[c]]
        end
  end.

(** [int(n) for n in parts], stopping at the first segment that is no
    integer. *)
Fixpoint ints_of (parts : list (list ascii)) : result (list Z) :=
  match parts with
  | [] => Returns []
  | p :: ps =>
      match int_of_chars p with
      | None => Raises ValueError
      | Some n => do ns <- ints_of ps; Returns (n :: ns)
      end
  end.

(** [group_address_from_string]: the three integers of "main/middle/sub".
    The constructor of [GroupAddress], called with the unpacked integers,
    takes exactly three arguments. *)
Definition group_address_from_string (s : string) : result GroupAddress :=
  do adr_tuple <- ints_of (split_on "/" (list_ascii_of_string s));
  match adr_tuple with
  | [a; b; c] => Returns {| main := a; middle := b; sub := c |}
  | _ => Raises TypeError
  end.

Section Startup.

(** [ipaddress.ip_address(v)] of the standard library: [true] when it
    returns an address, [false] when it raises ValueError. *)
Variable ip_address : pyval -> bool.

(** The property [is_properly_configured], with the log lines it writes. *)
Definition is_properly_configured (self : settings)
  : list master_call * result bool :=
  if negb (ip_address (cfg_gatewayIP self)) then
    ([debugLog 1 "gatewayIP is not a correct IP address."], Returns false)
  else
    match is_valid_port (cfg_gatewayPort self) with
    | Raises e => ([], Raises e)
    | Returns false =>
        ([debugLog 1 "gatewayPort is not a correct port."], Returns false)
    | Returns true =>
        match is_knx_address (cfg_chargeNowRateAddress self) with
        | Raises e => ([], Raises e)
        | Returns false =>
            ([debugLog 1 "chargeNowRateAddress is not a correct KNX address."],
             Returns false)
        | Returns true => ([], Returns true)
        end
    end.

(** What a finished constructor leaves behind. *)
Inductive constructed : Type :=
| Unloaded                      (* module released, no thread *)
| Started (self : listener).    (* thread running [start_server] *)

(** The conversion of one configured address in [__init__]:
    [if is_knx_address(a): a = self.group_address_from_string(a)]. *)
Definition convert_if_knx_address (a : pyval) : result address :=
  do ok <- is_knx_address a;
  if ok then
    match a with
    | PStr s => do g <- group_address_from_string s; Returns (Converted g)
    | _ => Raises AttributeError
    end
  else Returns (Unconverted a).

(** [__init__(self, master)].  [configKnx] is
    the KNX entry of the control section of [master.config], or the
    empty dict on KeyError. *)
Definition init (configKnx : gmap string pyval)
  : list master_call * result constructed :=
  let self :=
    {| cfg_gatewayIP := dict_get configKnx "gatewayIP" PNone;
       cfg_gatewayPort := dict_get configKnx "gatewayPort" PNone;
       cfg_chargeNowDurationAddress := dict_get configKnx "chargeNowDurationAddress" PNone;
       cfg_chargeNowRateAddress := dict_get configKnx "chargeNowRateAddress" PNone;
       cfg_chargeNowDuration := dict_get configKnx "chargeNowDurationDefault" PNone;
       cfg_status := dict_get configKnx "enabled" (PBool false) |} in
  if negb (truthy (cfg_status self)) then
    ([releaseModule "lib.TWCManager.Control" "KNXControl"], Returns Unloaded)
  else
    match is_properly_configured self with
    | (log, Raises e) => (log, Raises e)
    | (log, Returns false) => (log, Raises RuntimeError)
    | (log, Returns true) =>
        (log,
         do rate <- convert_if_knx_address (cfg_chargeNowRateAddress self);
         do duration <- convert_if_knx_address (cfg_chargeNowDurationAddress self);
         Returns (Started
           {| gatewayIP := cfg_gatewayIP self;
              gatewayPort := cfg_gatewayPort self;
              chargeNowDurationAddress := duration;
              chargeNowRateAddress := rate;
              chargeNowDuration := cfg_chargeNowDuration self |}))
    end.

End Startup.

(** *** Telegram handling *)

(** [is_valid_chargenow_cmd(packet, dst)].  An address that was left
    unconverted (text or None) never equals the tuple [packet.dst]. *)
Definition is_valid_chargenow_cmd (packet : ReceivedGroupAPDU) (dst' : address) : bool :=
  match dst' with
  | Converted g => GroupAddress_eqb (dst packet) g
  | Unconverted _ => false
  end
  && match payload packet with
     | KNXGroupAPDU type _ => KNXDAPDUType_eqb type WRITE
     | OtherPayload => false
     end.

(** [packet.payload.value] *)
Definition payload_value (packet : ReceivedGroupAPDU) : result EncodedData :=
  match payload packet with
  | KNXGroupAPDU _ value => Returns value
  | OtherPayload => Raises AttributeError
  end.

Section Handler.

(** [knxdclient.decode_value(v, KNXDPT.FLOAT32)] and
    [knxdclient.decode_value(v, KNXDPT.UINT16)]: library functions. *)
Variable decode_FLOAT32 : EncodedData -> result pyfloat.
Variable decode_UINT16 : EncodedData -> result Z.

Definition handler_prologue : list master_call :=
  [debugLog 11 "Received group telegram"; debugLog 11 "Comparing with"].

(** [knx_packet_handler(self, packet)]: the calls made on the master
    and the object afterwards (or the exception that ended the call). *)
Definition knx_packet_handler (self : listener) (packet : ReceivedGroupAPDU)
  : list master_call * result listener :=
  if is_valid_chargenow_cmd packet (chargeNowRateAddress self) then
    match (do v <- payload_value packet;
           do x <- decode_FLOAT32 v;
           int_of_float x) with
    | Raises e => (handler_prologue, Raises e)
    | Returns amps =>
        if amps =? 0 then
          (handler_prologue ++
             [debugLog 1 "Got chargeNowRate of 0. canceling charge.";
              resetChargeNowAmps],
           Returns self)
        else
          (handler_prologue ++
             [debugLog 1 "Got chargeNowRate. Setting amps and duration";
              setChargeNowTimeEnd (chargeNowDuration self);
              setChargeNowAmps amps],
           Returns self)
    end
  else if is_valid_chargenow_cmd packet (chargeNowDurationAddress self) then
    match (do v <- payload_value packet; decode_UINT16 v) with
    | Raises e => (handler_prologue, Raises e)
    | Returns duration =>
        if duration <=? 0 then
          (handler_prologue ++
             [debugLog 1 "Got chargeNowDuration <0. canceling charge.";
              resetChargeNowAmps],
           Returns self)
        else
          (handler_prologue ++
             [debugLog 8 "Got chargeNowDuration. Setting duration for next charge"],
           Returns (set_chargeNowDuration self (PInt duration)))
    end
  else
    (handler_prologue ++ [debugLog 8 "not a chargeNowRate"], Returns self).

End Handler.

(** Decoders with the wire formats of the two datapoint types, used to
    run the handler on concrete telegrams: a big-endian IEEE 754
    binary32 value and a big-endian unsigned 16-bit integer. *)
Definition be_uint (bs : list Byte.byte) : Z :=
  fold_left (fun acc b => acc * 256 + Z.of_N (Byte.to_N b)) bs 0.

Definition binary32_value (w : Z) : pyfloat :=
  let negative := Z.testbit w 31 in
  let e := Z.land (Z.shiftr w 23) 255 in
  let f := Z.land w (2 ^ 23 - 1) in
  if e =? 255 then (if f =? 0 then FInf negative else FNaN)
  else
    let m := if e =? 0 then f else f + 2 ^ 23 in
    let ex := (if e =? 0 then 1 else e) - 150 in
    let q := if 0 <=? ex then inject_Z (m * 2 ^ ex)
             else Qmake m (Z.to_pos (2 ^ (- ex))) in
    FFinite (if negative then Qopp q else q).

Definition unpack_FLOAT32 (v : EncodedData) : result pyfloat :=
  match v with
  | EBytes bs =>
      if Nat.eqb (length bs) 4 then Returns (binary32_value (be_uint bs))
      else Raises OtherError
  | EInt _ => Raises TypeError
  end.

Definition unpack_UINT16 (v : EncodedData) : result Z :=
  match v with
  | EBytes bs =>
      if Nat.eqb (length bs) 2 then Returns (be_uint bs) else Raises OtherError
  | EInt _ => Raises TypeError
  end.

(** *** The reconnect loop *)

(** What [knx_server_loop] does that is visible from outside, in order. *)
Inductive loop_action : Type :=
| Log (level : Z) (message : string)
| NewConnection                      (* knxdclient.KNXDConnection() *)
| RegisterHandler                    (* connection.register_telegram_handler *)
| Connect (host port : pyval)        (* await connection.connect(...) *)
| CreateRunTask                      (* asyncio.create_task(connection.run()) *)
| OpenGroupSocket                    (* await connection.open_group_socket() *)
| AwaitRunTask                       (* await run_task *)
| Sleep (seconds : Z).               (* await asyncio.sleep(seconds) *)

(** Where the coroutine is suspended. *)
Inductive loop_point : Type :=
| AtConnect
| AtOpenGroupSocket
| AtRunTask
| AtSleep (seconds : Z)
| Exited (e : option exn).   (* left the loop: returned, or raised [e] *)

Section ServerLoop.

Variable self : listener.

(** From the call of the coroutine to its first suspension. *)
Definition loop_entry : list loop_action :=
  [Log 8 "creating client"; NewConnection;
   Log 8 "created client"; RegisterHandler;
   Log 8 "registerd handler"].

(** The head of the [while True] body, up to the first await. *)
Definition next_iteration : list loop_action * loop_point :=
  ([Log 8 "trying to connect";
    Connect (gatewayIP self) (gatewayPort self)], AtConnect).

(** The two handlers of the [try]: [except OSError] and the bare
    [except], which takes every other exception. *)
Definition on_exception (e : exn) : list loop_action * loop_point :=
  if is_OSError e then
    ([Log 2 "connect failed. waiting before next try..."; Sleep 30], AtSleep 30)
  else
    ([Log 2 "catched unexpected exception. try to reconnect..."; Sleep 1],
     AtSleep 1).

(** One resumption: the awaited operation has returned or raised; run
    to the next suspension. *)
Definition resume (pt : loop_point) (r : result unit)
  : list loop_action * loop_point :=
  match pt, r with
  | AtConnect, Returns _ =>
      ([Log 8 "connected"; CreateRunTask;
        Log 8 "creating receiver socket"; OpenGroupSocket], AtOpenGroupSocket)
  | AtOpenGroupSocket, Returns _ =>
      ([Log 8 "entering loop"; AwaitRunTask], AtRunTask)
  | AtRunTask, Returns _ => next_iteration
  | AtConnect, Raises e
  | AtOpenGroupSocket, Raises e
  | AtRunTask, Raises e => on_exception e
  | AtSleep _, Returns _ => next_iteration
  | AtSleep _, Raises e => ([], Exited (Some e))   (* raised inside a handler *)
  | Exited e, _ => ([], Exited e)
  end.

(** The coroutine driven by the outcomes of its awaits, one by one. *)
Fixpoint run_from (pt : loop_point) (outcomes : list (result unit))
  : list loop_action * loop_point :=
  match outcomes with
  | [] => ([], pt)
  | r :: rest =>
      let '(acts, pt') := resume pt r in
      let '(acts', pt'') := run_from pt' rest in
      (acts ++ acts', pt'')
  end.

Definition knx_server_loop (outcomes : list (result unit))
  : list loop_action * loop_point :=
  let '(acts, pt) := next_iteration in
  let '(acts', pt') := run_from pt outcomes in
  (loop_entry ++ acts ++ acts', pt').

(** The coroutine is still inside the loop. *)
Definition running (pt : loop_point) : Prop := forall e, pt <> Exited e.

Definition is_sleep (pt : loop_point) : bool :=
  match pt with AtSleep _ => true | _ => false end.

(** No sleep of the run is interrupted: every [asyncio.sleep] returns. *)
Fixpoint sleeps_return (pt : loop_point) (outcomes : list (result unit)) : Prop :=
  match outcomes with
  | [] => True
  | r :: rest =>
      (is_sleep pt = true -> raised r = false)
      /\ sleeps_return (snd (resume pt r)) rest
  end.

End ServerLoop.

End KNXControl.

(** ** MQTTStatus.py: class MQTTStatus *)

Module MQTTStatus.

(** A queued message: the dict with the keys topic and payload. *)
Record message : Type := { topic : string; payload : pyval }.

(** Calls on the paho client (and its constructor). *)
Inductive client_call : Type :=
| Client
| username_pw_set (username password : pyval)
| set_on_connect                      (* client.on_connect = self.mqttConnected *)
| connect_async (host : pyval) (port keepalive : Z)
| loop_start
| publish (topic : string) (payload : pyval)
| loop_stop
| disconnect.

(** What a method does that is visible from outside, in order. *)
Inductive output : Type :=
| Print (level : Z) (message : string)
| Call (c : client_call).

(** The attributes of the object.  Time stamps are rationals.  The queue
    and the rate table are class attributes changed in place; there is
    one publisher object. *)
Record publisher : Type := {
  brokerIP : pyval;
  brokerPort : Z;
  connectionState : Z;
  debugLevel : Z;
  msgQueue : list message;
  msgQueueBuffer : list message;
  msgQueueMax : nat;
  msgRate : gmap string Q;
  msgRatePerTopic : Q;
  password : pyval;
  status : pyval;
  topicPrefix : pyval;
  username : pyval
}.

Definition set_connectionState (v : Z) (s : publisher) : publisher :=
  {| brokerIP := brokerIP s; brokerPort := brokerPort s; connectionState := v;
     debugLevel := debugLevel s; msgQueue := msgQueue s;
     msgQueueBuffer := msgQueueBuffer s; msgQueueMax := msgQueueMax s;
     msgRate := msgRate s; msgRatePerTopic := msgRatePerTopic s;
     password := password s; status := status s;
     topicPrefix := topicPrefix s; username := username s |}.

Definition set_msgQueue (v : list message) (s : publisher) : publisher :=
  {| brokerIP := brokerIP s; brokerPort := brokerPort s;
     connectionState := connectionState s;
     debugLevel := debugLevel s; msgQueue := v;
     msgQueueBuffer := msgQueueBuffer s; msgQueueMax := msgQueueMax s;
     msgRate := msgRate s; msgRatePerTopic := msgRatePerTopic s;
     password := password s; status := status s;
     topicPrefix := topicPrefix s; username := username s |}.

Definition set_msgQueueBuffer (v : list message) (s : publisher) : publisher :=
  {| brokerIP := brokerIP s; brokerPort := brokerPort s;
     connectionState := connectionState s;
     debugLevel := debugLevel s; msgQueue := msgQueue s;
     msgQueueBuffer := v; msgQueueMax := msgQueueMax s;
     msgRate := msgRate s; msgRatePerTopic := msgRatePerTopic s;
     password := password s; status := status s;
     topicPrefix := topicPrefix s; username := username s |}.

Definition set_msgRate (v : gmap string Q) (s : publisher) : publisher :=
  {| brokerIP := brokerIP s; brokerPort := brokerPort s;
     connectionState := connectionState s;
     debugLevel := debugLevel s; msgQueue := msgQueue s;
     msgQueueBuffer := msgQueueBuffer s; msgQueueMax := msgQueueMax s;
     msgRate := v; msgRatePerTopic := msgRatePerTopic s;
     password := password s; status := status s;
     topicPrefix := topicPrefix s; username := username s |}.

(** [__init__(self, debugLevel, config)] over the class attributes. *)
Definition init (debugLevel' : Z) (config : gmap string pyval) : publisher :=
  {| brokerIP := dict_get config "brokerIP" PNone;
     brokerPort := 1883;
     connectionState := 0;
     debugLevel := debugLevel';
     msgQueue := [];
     msgQueueBuffer := [];
     msgQueueMax := 16;
     msgRate := ∅;
     msgRatePerTopic := 60%Q;
     password := dict_get config "password" PNone;
     status := dict_get config "enabled" (PBool false);
     topicPrefix := dict_get config "topicPrefix" PNone;
     username := dict_get config "username" PNone |}.

(** *** Methods as state transformers that may raise *)

(** The object and everything written or called so far. *)
Record world : Type := { self : publisher; out : list output }.

(** The transport: which client calls raise, and what. *)
Definition transport : Type := client_call -> option exn.

Definition M (A : Type) : Type := transport -> world -> result A * world.

Definition ret {A} (a : A) : M A := fun _ w => (Returns a, w).

Definition raise {A} (e : exn) : M A := fun _ w => (Raises e, w).

Definition mbind {A B} (m : M A) (k : A -> M B) : M B :=
  fun tr w =>
    match m tr w with
    | (Returns a, w') => k a tr w'
    | (Raises e, w') => (Raises e, w')
    end.

Notation "'bind' x <- m ; k" := (mbind m (fun x => k))
  (at level 10, x name, m at level 100, k at level 200).
Notation "'exec' m ; k" := (mbind m (fun _ => k))
  (at level 10, m at level 100, k at level 200).

Definition get : M publisher := fun _ w => (Returns (self w), w).

Definition modify (f : publisher -> publisher) : M unit :=
  fun _ w => (Returns tt, {| self := f (self w); out := out w |}).

Definition emit (o : output) : M unit :=
  fun _ w => (Returns tt, {| self := self w; out := out w ++ [o] |}).

(** A call on the client: raises when the transport says so. *)
Definition call (c : client_call) : M unit :=
  fun tr w =>
    match tr c with
    | Some e => (Raises e, w)
    | None => (Returns tt, {| self := self w; out := out w ++ [Call c] |})
    end.

(** [try: m  except <h>]: [h e] is the handler that takes [e], if any. *)
Definition try_except {A} (m : M A) (h : exn -> option (M A)) : M A :=
  fun tr w =>
    match m tr w with
    | (Returns a, w') => (Returns a, w')
    | (Raises e, w') =>
        match h e with
        | Some handler => handler tr w'
        | None => (Raises e, w')
        end
    end.

Fixpoint for_each {A} (l : list A) (body : A -> M unit) : M unit :=
  match l with
  | [] => ret tt
  | x :: l' => exec body x; for_each l' body
  end.

(** [debugLog(self, minlevel, message)] *)
Definition debugLog (minlevel : Z) (message : string) : M unit :=
  bind s <- get;
  if minlevel <=? debugLevel s then emit (Print minlevel message) else ret tt.

(** [prefix + "/"]: string concatenation, TypeError on anything else. *)
Definition str_add (v : pyval) (s : string) : M string :=
  match v with
  | PStr p => ret (p ++ s)%string
  | _ => raise TypeError
  end.

Definition Qltb (x y : Q) : bool := negb (Qle_bool y x).

(** The handlers of the [try] in [setStatus]: ConnectionRefusedError and
    OSError, with the same body. *)
Definition connect_handlers (e : exn) : option (M pyval) :=
  if is_OSError e then
    Some (exec debugLog 4 "Error connecting to MQTT Broker to publish topic values";
          exec debugLog 10 "str(e)";
          ret (PBool false))
  else None.

(** The body of the [try] in [setStatus]. *)
Definition connect_body (s : publisher) : M pyval :=
  exec call Client;
  exec (if truthy (username s) && truthy (password s) then
          call (username_pw_set (username s) (password s))
        else ret tt);
  exec call set_on_connect;
  exec call (connect_async (brokerIP s) (brokerPort s) 30);
  exec modify (set_connectionState 1);
  exec call loop_start;
  ret PNone.

(** "Now, we attempt to establish a connection to the MQTT broker": the
    last statement of [setStatus]. *)
Definition establish_connection : M pyval :=
  bind s <- get;
  if connectionState s =? 0 then
    exec debugLog 10 "MQTT Status: Attempting to Connect";
    try_except (connect_body s) connect_handlers
  else ret PNone.

(** "If msgQueue size exceeds msgQueueMax, trim the list size". *)
Definition trim_queue : M unit :=
  bind s <- get;
  if Nat.ltb (msgQueueMax s + 8) (length (msgQueue s)) then
    modify (set_msgQueue (drop (msgQueueMax s) (msgQueue s)))
  else ret tt.

(** [setStatus] from the comment "Now, we push the message" to its end. *)
Definition push_and_connect (topic' : string) (value : pyval) : M pyval :=
  let msg := {| topic := topic'; payload := value |} in
  exec modify (fun s => set_msgQueue (msgQueue s ++ [msg]) s);
  exec trim_queue;
  establish_connection.

(** [setStatus(self, twcid, key, value)].  [twcid] is the device id
    already decoded from UTF-8; [now] is the reading of the first call of
    [time.time()], [now'] that of the second one, which is made only for
    a known topic whose interval has elapsed.  A call that reaches the
    end of the body without [return] yields None. *)
Definition setStatus (twcid key : string) (value : pyval) (now now' : Q) : M pyval :=
  bind s <- get;
  if truthy (status s) then
    bind topic' <- str_add (topicPrefix s) "/";
    let topic' := (topic' ++ twcid)%string in
    let topic' := ((topic' ++ "/") ++ key)%string in
    match msgRate s !! topic' with
    | Some last =>
        if Qltb (now - last) (msgRatePerTopic s) then ret (PBool true)
        else
          exec modify (fun s => set_msgRate (<[topic' := now']> (msgRate s)) s);
          push_and_connect topic' value
    | None =>
        exec modify (fun s => set_msgRate (<[topic' := now]> (msgRate s)) s);
        push_and_connect topic' value
    end
  else ret PNone.

(** The clause [except e:] of [mqttConnected].  To find out whether the
    exception in flight matches, the name [e] is evaluated; neither the
    method nor the module binds it, so the evaluation raises NameError,
    whatever the exception was. *)
Definition except_e (_ : exn) : option (M unit) := Some (raise NameError).

(** The body of the loop [for msg in self.msgQueueBuffer]. *)
Definition publish_message (msg : message) : M unit :=
  exec debugLog 8 "Publishing MQTT Topic ";
  try_except (call (publish (topic msg) (payload msg))) except_e.

(** [mqttConnected(self, client, userdata, flags, rc)] *)
Definition mqttConnected (rc : Z) : M unit :=
  exec debugLog 10 "Connected to MQTT Broker with RC: ";
  exec debugLog 11 "Copy Message Buffer";
  exec modify (fun s => set_msgQueueBuffer (msgQueue s) s);
  exec debugLog 11 "Clear Message Buffer";
  exec modify (set_msgQueue []);
  bind s <- get;
  exec for_each (msgQueueBuffer s) publish_message;
  exec call loop_stop;
  exec modify (set_msgQueueBuffer []);
  exec modify (set_connectionState 0);
  call disconnect.

(** What the network thread of the client can report. *)
Inductive transport_event : Type :=
| connack (rc : Z)           (* the broker answered the connection request *)
| connect_failed (e : exn).  (* the attempt failed on the network *)

(** The code of the class an event runs.  [setStatus] registers one
    callback, [on_connect]; for a failed attempt none is registered. *)
Definition on_event (ev : transport_event) : M unit :=
  match ev with
  | connack rc => mqttConnected rc
  | connect_failed _ => ret tt
  end.

End MQTTStatus.

(** ** Auxiliary notions and sample inputs for the properties below *)

(** Strictly between 0 and 65536. *)
Definition in_port_range (n : Z) : bool := (0 <? n) && (n <? 2 ^ 16).

Module Samples.

Import KNXControl.

(** The configuration of the module docstring. *)
Definition docstring_config : gmap string pyval :=
  <["enabled" := PBool true]>
  (<["gatewayIP" := PStr "172.16.0.1"]>
  (<["gatewayPort" := PStr "6720"]>
  (<["chargeNowDurationAddress" := PStr "1/1/10"]>
  (<["chargeNowDurationDefault" := PStr "3600"]>
  (<["chargeNowRateAddress" := PStr "1/1/11"]> ∅))))).

(** The object that configuration leads to. *)
Definition docstring_listener : listener :=
  {| gatewayIP := PStr "172.16.0.1";
     gatewayPort := PStr "6720";
     chargeNowDurationAddress := Converted {| main := 1; middle := 1; sub := 10 |};
     chargeNowRateAddress := Converted {| main := 1; middle := 1; sub := 11 |};
     chargeNowDuration := PStr "3600" |}.

(** A stand-in for [ipaddress.ip_address]: accepts the dotted quads of
    IPv4 (four decimal numbers up to 255 without a leading zero). *)
Definition octet (p : list ascii) : bool :=
  match p with
  | [] => false
  | c :: p' =>
      forallb is_digit p && Nat.leb (length p) 3
      && (negb (Ascii.eqb c "0"%char) || Nat.eqb (length p') 0)
      && match digits_value 0 false p with
         | Some n => n <=? 255
         | None => false
         end
  end.

Definition ipv4_address (v : pyval) : bool :=
  match v with
  | PStr s =>
      match split_on "." (list_ascii_of_string s) with
      | [a; b; c; d] => octet a && octet b && octet c && octet d
      | _ => false
      end
  | _ => false
  end.

(** The docstring configuration with a duration address that is no KNX
    address (dots for slashes). *)
Definition dotted_duration_config : gmap string pyval :=
  <["chargeNowDurationAddress" := PStr "1.1.10"]> docstring_config.


(** A write of 7.0 (binary32 0x40E00000) to the rate address 1/1/11. *)
Definition rate_telegram_7 : ReceivedGroupAPDU :=
  {| dst := {| main := 1; middle := 1; sub := 11 |};
     payload := KNXGroupAPDU WRITE
                  (EBytes [Byte.x40; Byte.xe0; Byte.x00; Byte.x00]) |}.

(** A write of 120 (0x0078) to the duration address 1/1/10. *)
Definition duration_telegram_120 : ReceivedGroupAPDU :=
  {| dst := {| main := 1; middle := 1; sub := 10 |};
     payload := KNXGroupAPDU WRITE (EBytes [Byte.x00; Byte.x78]) |}.

End Samples.




(** The topic [setStatus] builds, and the queue after the trimming step
    of [setStatus]: beyond capacity + 8 entries, the first (oldest)
    [capacity] entries are deleted. *)
Definition status_topic (prefix twcid key : string) : string :=
  ((((prefix ++ "/") ++ twcid) ++ "/") ++ key)%string.

Definition trimmed (capacity : nat) (queue : list MQTTStatus.message)
  : list MQTTStatus.message :=
  if Nat.ltb (capacity + 8) (length queue) then drop capacity queue else queue.

(** The object after the push and the trimming step. *)
Definition pushed (s : MQTTStatus.publisher) (topic' : string) (value : pyval)
  : MQTTStatus.publisher :=
  MQTTStatus.set_msgQueue
    (trimmed (MQTTStatus.msgQueueMax s)
       (MQTTStatus.msgQueue s
          ++ [{| MQTTStatus.topic := topic'; MQTTStatus.payload := value |}])) s.

(** What happens to a publisher over time: calls of [setStatus] and
    events of the network thread, each under the transport of the
    moment. *)
Inductive action : Type :=
| StatusUpdate (twcid key : string) (value : pyval) (now now' : Q)
| TransportEvent (ev : MQTTStatus.transport_event).

Definition act (a : action) (tr : MQTTStatus.transport) (w : MQTTStatus.world)
  : MQTTStatus.world :=
  match a with
  | StatusUpdate twcid key value now now' =>
      snd (MQTTStatus.setStatus twcid key value now now' tr w)
  | TransportEvent ev => snd (MQTTStatus.on_event ev tr w)
  end.

Definition run_history (h : list (action * MQTTStatus.transport))
    (w : MQTTStatus.world) : MQTTStatus.world :=
  fold_left (fun w step => act (fst step) (snd step) w) h w.

(** The queue is within its bound: at most capacity + 8 entries, for a
    capacity of at least one. *)
Definition within_bound (w : MQTTStatus.world) : Prop :=
  (1 <= MQTTStatus.msgQueueMax (MQTTStatus.self w))%nat /\
  (length (MQTTStatus.msgQueue (MQTTStatus.self w))
   <= MQTTStatus.msgQueueMax (MQTTStatus.self w) + 8)%nat.

Module PublisherSamples.

Import MQTTStatus.

(** A publisher as constructed for an enabled module with the topic
    prefix TWC, before any call. *)
Definition config : gmap string pyval :=
  <["enabled" := PBool true]>
  (<["brokerIP" := PStr "192.168.1.2"]>
  (<["topicPrefix" := PStr "TWC"]> ∅)).

Definition fresh : world := {| self := init 0 config; out := [] |}.

(** A transport on which no call raises. *)
Definition quiet : transport := fun _ => None.

(** The world after a method call. *)
Definition after {A} (m : M A) (tr : transport) (w : world) : world :=
  snd (m tr w).

(** The world after the first status update: a message is queued and
    a connection attempt is under way. *)
Definition connecting : world :=
  after (setStatus "id" "power" (PInt 1) 0 0) quiet fresh.

(** The same world after the network thread has given up the attempt
    with an OSError. *)
Definition attempt_failed : world :=
  after (on_event (connect_failed OSError)) quiet connecting.

(** A transport whose [connect_async] raises OSError. *)
Definition no_route : transport :=
  fun c =>
    match c with
    | connect_async _ _ _ => Some OSError
    | _ => None
    end.

(** The world after a first status update whose connect call raised
    OSError: the message is queued, the time of the topic recorded, and
    no connection attempt is under way. *)
Definition refused : world :=
  after (setStatus "id" "power" (PInt 1) 0 0) no_route fresh.

(** Thirty keys that differ from each other: A, B, C, ... *)
Definition key_of (i : nat) : string :=
  String (ascii_of_nat (65 + i)) EmptyString.

Definition message_of (i : nat) : message :=
  {| topic := status_topic "TWC" "id" (key_of i); payload := PInt (Z.of_nat i) |}.

(** [setStatus] for the keys numbered [first, first + count), in
    sequence, all at time 0. *)
Definition publish_keys (first count : nat) (w : world) : world :=
  fold_left
    (fun w i => after (setStatus "id" (key_of i) (PInt (Z.of_nat i)) 0 0) quiet w)
    (seq first count) w.

(** The check of the paho client on a topic to publish: wildcard
    characters are refused with ValueError. *)
Definition has_wildcard (t : string) : bool :=
  existsb (fun c => Ascii.eqb c "#"%char || Ascii.eqb c "+"%char)
    (list_ascii_of_string t).

Definition refuses_wildcards : transport :=
  fun c =>
    match c with
    | publish t _ => if has_wildcard t then Some ValueError else None
    | _ => None
    end.

(** Two queued messages while connecting; the device id of the first
    one contains the character #. *)
Definition two_queued : world :=
  {| self :=
       set_connectionState 1
         (set_msgQueue
            [ {| topic := status_topic "TWC" "#A" "power"; payload := PInt 1 |};
              {| topic := status_topic "TWC" "BC" "power"; payload := PInt 2 |} ]
            (init 0 config));
     out := [] |}.

End PublisherSamples.

(** ** Further notions for the properties of the remaining code *)

(** The number a run of decimal digits denotes. *)
Definition decimal_value (d : list ascii) : Z :=
  fold_left (fun acc c => 10 * acc + digit_value c) d 0.

(** [sep.join(parts)] *)
Fixpoint join (sep : ascii) (parts : list (list ascii)) : list ascii :=
  match parts with
  | [] => []
  | [p] => p
  | p :: ps => p ++ sep :: join sep ps
  end.

Definition all_digits (d : list ascii) : Prop :=
  Forall (fun c => is_digit c = true) d.

Definition all_spaces (d : list ascii) : Prop :=
  Forall (fun c => is_space c = true) d.

(** Samples of text. *)
Module TextSamples.

Definition port_8080_padded : list ascii :=
  list_ascii_of_string " 8080 ".

Definition address_text : string := "1/1/11".

(** Texts with code points around the white space [int] skips.  The
    unit separator (0x1F) and the file separator (0x1C) are not skipped;
    NEL (0x85) and the no-break space (0xA0) are. *)
Definition separator_then_80 : string := String (ascii_of_nat 28) "80".

Definition eleven_then_separator : string :=
  String.append "11" (String (ascii_of_nat 31) EmptyString).

Definition nbsp_then_80 : string := String (ascii_of_nat 160) "80".

Definition nel_11_nbsp : string :=
  String (ascii_of_nat 133)
    (String.append "11" (String (ascii_of_nat 160) EmptyString)).

(** The port 8080 written behind [n] zeros. *)
Definition zeros_then_8080 (n : nat) : string :=
  String.append (string_of_list_ascii (repeat "0"%char n)) "8080".

End TextSamples.

Module StartupSamples.

(** The docstring configuration with the module switched off and an
    address that is no address. *)
Definition disabled_config : gmap string pyval :=
  <["enabled" := PBool false]>
  (<["chargeNowRateAddress" := PStr "nonsense"]> Samples.docstring_config).

(** The docstring configuration with text behind the rate address. *)
Definition trailing_text_config : gmap string pyval :=
  <["chargeNowRateAddress" := PStr "1/1/11x"]> Samples.docstring_config.

(** The docstring configuration with no gateway address and a port that
    is no number. *)
Definition no_gateway_config : gmap string pyval :=
  <["gatewayPort" := PStr "knx"]> (delete "gatewayIP" Samples.docstring_config).

End StartupSamples.

Module HandlerSamples.

Import KNXControl.

(** A write of +infinity (binary32 0x7F800000) to the rate address. *)
Definition rate_telegram_inf : ReceivedGroupAPDU :=
  {| dst := {| main := 1; middle := 1; sub := 11 |};
     payload := KNXGroupAPDU WRITE
                  (EBytes [Byte.x7f; Byte.x80; Byte.x00; Byte.x00]) |}.

(** A write of 0.5 (binary32 0x3F000000) to the rate address. *)
Definition rate_telegram_half : ReceivedGroupAPDU :=
  {| dst := {| main := 1; middle := 1; sub := 11 |};
     payload := KNXGroupAPDU WRITE
                  (EBytes [Byte.x3f; Byte.x00; Byte.x00; Byte.x00]) |}.

(** A read request on the rate address. *)
Definition rate_read : ReceivedGroupAPDU :=
  {| dst := {| main := 1; middle := 1; sub := 11 |};
     payload := KNXGroupAPDU READ (EBytes []) |}.

(** The listener of the docstring with the duration address left as
    the text 1.1.10. *)
Definition dotted_duration_listener : listener :=
  {| gatewayIP := PStr "172.16.0.1";
     gatewayPort := PStr "6720";
     chargeNowDurationAddress := Unconverted (PStr "1.1.10");
     chargeNowRateAddress := Converted {| main := 1; middle := 1; sub := 11 |};
     chargeNowDuration := PStr "3600" |}.

End HandlerSamples.

(** Counting in a run of the reconnect loop. *)
Definition is_Sleep (a : KNXControl.loop_action) : bool :=
  match a with KNXControl.Sleep _ => true | _ => false end.

Definition count_sleeps (acts : list KNXControl.loop_action) : nat :=
  length (List.filter is_Sleep acts).

Definition count_raises (outcomes : list (result unit)) : nat :=
  length (List.filter raised outcomes).

(** An action of the loop of [self]: a connect goes to the configured
    gateway, a sleep lasts 30 seconds or 1 second. *)
Definition expected_action (self : KNXControl.listener) (a : KNXControl.loop_action)
  : Prop :=
  match a with
  | KNXControl.Connect host port =>
      host = KNXControl.gatewayIP self /\ port = KNXControl.gatewayPort self
  | KNXControl.Sleep seconds => seconds = 30 \/ seconds = 1
  | _ => True
  end.

(** The calls on the client among the outputs, in order. *)
Definition client_calls (o : list MQTTStatus.output) : list MQTTStatus.client_call :=
  flat_map (fun x => match x with
                     | MQTTStatus.Call c => [c]
                     | MQTTStatus.Print _ _ => []
                     end) o.

(** The call that publishes a queued message. *)
Definition publish_of (m : MQTTStatus.message) : MQTTStatus.client_call :=
  MQTTStatus.publish (MQTTStatus.topic m) (MQTTStatus.payload m).

Definition is_status_update (a : action) : bool :=
  match a with StatusUpdate _ _ _ _ _ => true | TransportEvent _ => false end.

(** The calls of one connection attempt that succeeds. *)
Definition attempt_calls (s : MQTTStatus.publisher) : list MQTTStatus.client_call :=
  [MQTTStatus.Client]
  ++ (if truthy (MQTTStatus.username s) && truthy (MQTTStatus.password s)
      then [MQTTStatus.username_pw_set (MQTTStatus.username s) (MQTTStatus.password s)]
      else [])
  ++ [MQTTStatus.set_on_connect;
      MQTTStatus.connect_async (MQTTStatus.brokerIP s) (MQTTStatus.brokerPort s) 30;
      MQTTStatus.loop_start].


Module PublisherSamples2.

Import MQTTStatus.

(** A publisher built from a configuration without an enabled entry,
    and one that is enabled but has no topic prefix. *)
Definition unconfigured : world := {| self := init 0 ∅; out := [] |}.

Definition no_prefix : world :=
  {| self := init 0 (<["enabled" := PBool true]> ∅); out := [] |}.



(** Three queued messages while connecting; the topic of the second one
    contains the character #. *)
Definition three_queued : world :=
  {| self :=
       set_connectionState 1
         (set_msgQueue
            [ {| topic := status_topic "TWC" "AB" "power"; payload := PInt 1 |};
              {| topic := status_topic "TWC" "#A" "power"; payload := PInt 2 |};
              {| topic := status_topic "TWC" "BC" "power"; payload := PInt 3 |} ]
            (init 0 PublisherSamples.config));
     out := [] |}.

End PublisherSamples2.

(** * Properties *)

(** ** Validators *)

Example is_valid_port_tests :
  is_valid_port (PInt 1) = Returns true /\
  is_valid_port (PInt 65000) = Returns true /\
  is_valid_port (PInt 65536) = Returns false /\
  is_valid_port (PStr "1") = Returns true /\
  is_valid_port (PStr "65000") = Returns true /\
  is_valid_port (PStr "65536") = Returns false /\
  is_valid_port (PInt 0) = Returns false /\
  is_valid_port (PStr "") = Returns false /\
  is_valid_port PNone = Returns false.
Proof. repeat split; vm_compute; reflexivity. Qed.

Example is_knx_address_tests :
  is_knx_address (PStr "1/1/123") = Returns true /\
  is_knx_address (PStr "111/222/123") = Returns true /\
  is_knx_address (PStr "1/1111/123") = Returns false /\
  is_knx_address (PStr "1.1.123") = Returns false.
Proof. repeat split; vm_compute; reflexivity. Qed.

(** *** The pattern matcher against the pattern in words *)

Section RepeatAt.

Variable P : ascii -> bool.
Variable m : list ascii -> list (list ascii).
Hypothesis m_one : forall s rest, In rest (m s) <-> exists c, s = c :: rest /\ P c = true.

Lemma repeat_at_spec hi : forall lo s rest,
  In rest (repeat_at m lo hi s) <->
  exists d, s = d ++ rest /\ (lo <= length d <= hi)%nat /\
            Forall (fun c => P c = true) d.
Proof.
  induction hi as [|hi' IH]; intros lo s rest; simpl.
  - split.
    + destruct (Nat.eqb_spec lo 0) as [->|]; simpl; [|tauto].
      intros [<-|[]]. exists []. repeat split; auto.
    + intros (d & -> & [Hlo Hhi] & _).
      destruct d; simpl in *; [|lia].
      assert (lo = 0%nat) as -> by lia. simpl. auto.
  - rewrite in_app_iff, in_flat_map. split.
    + intros [(mid & Hmid & Hrest)|Hnil].
      * apply m_one in Hmid as (c & -> & Hc).
        apply IH in Hrest as (d & -> & Hlen & Hall).
        exists (c :: d). simpl. repeat split; auto; lia.
      * destruct (Nat.eqb_spec lo 0) as [->|]; simpl in Hnil; [|tauto].
        destruct Hnil as [<-|[]]. exists []. simpl. repeat split; auto; lia.
    + intros (d & -> & [Hlo Hhi] & Hall). destruct d as [|c d]; simpl in *.
      * right. assert (lo = 0%nat) as -> by lia. simpl. auto.
      * left. exists (d ++ rest). inversion Hall; subst. split.
        -- apply m_one. eauto.
        -- apply IH. exists d. repeat split; auto; lia.
Qed.

End RepeatAt.

Lemma match_at_digit s rest :
  In rest (match_at RDigit s) <-> exists c, s = c :: rest /\ is_digit c = true.
Proof.
  destruct s as [|c s]; simpl.
  - split; [tauto|]. intros (c & H & _). discriminate.
  - destruct (is_digit c) eqn:Hc; simpl; split.
    + intros [<-|[]]. eauto.
    + intros (c' & H & _). inversion H. auto.
    + tauto.
    + intros (c' & H & Hc'). inversion H; subst. congruence.
Qed.

Lemma match_at_char a s rest :
  In rest (match_at (RChar a) s) <-> s = a :: rest.
Proof.
  destruct s as [|c s]; simpl.
  - split; [tauto|discriminate].
  - destruct (Ascii.eqb_spec c a) as [->|Hne]; simpl; split.
    + intros [<-|[]]. reflexivity.
    + intros H. inversion H. auto.
    + tauto.
    + intros H. inversion H. congruence.
Qed.

Lemma match_at_seq r1 r2 s rest :
  In rest (match_at (RSeq r1 r2) s) <->
  exists mid, In mid (match_at r1 s) /\ In rest (match_at r2 mid).
Proof. simpl. apply in_flat_map. Qed.

Lemma match_at_digit_run s rest :
  In rest (match_at (RRepeat 1 3 RDigit) s) <->
  exists d, s = d ++ rest /\ digit_run d.
Proof.
  change (match_at (RRepeat 1 3 RDigit) s)
    with (repeat_at (match_at RDigit) 1 3 s).
  rewrite (repeat_at_spec is_digit (match_at RDigit) match_at_digit).
  unfold digit_run. split; intros (d & ? & ? & ?); exists d; auto.
Qed.

Lemma match_at_knx_pattern s rest :
  In rest (match_at knx_pattern s) <->
  exists a b c, s = a ++ "/"%char :: b ++ "/"%char :: c ++ rest /\
                digit_run a /\ digit_run b /\ digit_run c.
Proof.
  unfold knx_pattern. split.
  - intros H.
    apply match_at_seq in H as (s1 & Ha & H).
    apply match_at_seq in H as (s2 & Hs1 & H).
    apply match_at_seq in H as (s3 & Hb & H).
    apply match_at_seq in H as (s4 & Hs3 & Hc).
    apply match_at_digit_run in Ha as (a & -> & Ha).
    apply match_at_char in Hs1 as ->.
    apply match_at_digit_run in Hb as (b & -> & Hb).
    apply match_at_char in Hs3 as ->.
    apply match_at_digit_run in Hc as (c & -> & Hc).
    exists a, b, c. auto.
  - intros (a & b & c & -> & Ha & Hb & Hc).
    apply match_at_seq. exists ("/"%char :: b ++ "/"%char :: c ++ rest). split.
    { apply match_at_digit_run. eauto. }
    apply match_at_seq. exists (b ++ "/"%char :: c ++ rest). split.
    { apply match_at_char. reflexivity. }
    apply match_at_seq. exists ("/"%char :: c ++ rest). split.
    { apply match_at_digit_run. eauto. }
    apply match_at_seq. exists (c ++ rest). split.
    { apply match_at_char. reflexivity. }
    apply match_at_digit_run. eauto.
Qed.

Lemma re_match_knx_pattern s :
  (exists rest, re_match knx_pattern s = Some rest) <-> starts_with_knx_triple s.
Proof.
  unfold re_match, starts_with_knx_triple. split.
  - intros (rest & H).
    destruct (match_at knx_pattern (list_ascii_of_string s)) as [|r l] eqn:E;
      [discriminate|].
    assert (In r (match_at knx_pattern (list_ascii_of_string s)))
      as Hin by (rewrite E; left; reflexivity).
    apply match_at_knx_pattern in Hin as (a & b & c & ? & ? & ? & ?).
    exists a, b, c, r. auto.
  - intros (a & b & c & rest & Hs & Ha & Hb & Hc).
    assert (In rest (match_at knx_pattern (list_ascii_of_string s))) as Hin.
    { apply match_at_knx_pattern. exists a, b, c. auto. }
    destruct (match_at knx_pattern (list_ascii_of_string s)) as [|r l];
      [destruct Hin|]. exists r. reflexivity.
Qed.

Lemma is_knx_address_str s :
  is_knx_address (PStr s) =
  Returns (match re_match knx_pattern s with Some _ => true | None => false end).
Proof.
  unfold is_knx_address. simpl.
  destruct s as [|c s]; simpl; [vm_compute|]; reflexivity.
Qed.

(** C10. On a string, [is_knx_address] returns true exactly when the
    string starts with one to three digits, a slash, one to three digits,
    a slash and one to three digits (whatever follows), and false
    otherwise; it returns false for the empty string, None and the other
    falsy values; the examples of the specification hold. *)
Theorem is_knx_address_prefix_pattern :
  (forall s, is_knx_address (PStr s) = Returns true <-> starts_with_knx_triple s) /\
  (forall s, is_knx_address (PStr s) = Returns false <-> ~ starts_with_knx_triple s) /\
  is_knx_address (PStr "") = Returns false /\
  is_knx_address PNone = Returns false /\
  is_knx_address (PInt 0) = Returns false /\
  is_knx_address (PBool false) = Returns false /\
  is_knx_address (PStr "1/1/123") = Returns true /\
  is_knx_address (PStr "111/222/123") = Returns true /\
  is_knx_address (PStr "1/1111/123") = Returns false /\
  is_knx_address (PStr "1.1.123") = Returns false /\
  is_knx_address (PStr "1/1/123garbage") = Returns true.
Proof.
  assert (Htrue : forall s,
    is_knx_address (PStr s) = Returns true <-> starts_with_knx_triple s).
  { intros s. rewrite is_knx_address_str, <- re_match_knx_pattern.
    destruct (re_match knx_pattern s) as [r|]; split.
    - eauto.
    - reflexivity.
    - discriminate.
    - intros (r & H). discriminate. }
  split; [exact Htrue|]. split.
  { intros s. rewrite <- Htrue, is_knx_address_str.
    destruct (re_match knx_pattern s); split; congruence. }
  repeat split; vm_compute; reflexivity.
Qed.

(** *** [is_valid_port] *)

Lemma is_valid_port_int z : is_valid_port (PInt z) = Returns (in_port_range z).
Proof.
  unfold is_valid_port, in_port_range. simpl.
  destruct (Z.eqb_spec z 0) as [->|Hz]; simpl; [reflexivity|].
  destruct ((0 <? z) && (z <? 2 ^ 16)); reflexivity.
Qed.

Lemma is_valid_port_str s :
  s <> "" ->
  is_valid_port (PStr s) =
  match int_of_chars (list_ascii_of_string s) with
  | Some n => Returns (in_port_range n)
  | None => Raises ValueError
  end.
Proof.
  intros Hs. unfold is_valid_port. simpl.
  destruct (String.eqb_spec s "") as [->|_]; [congruence|]. simpl.
  destruct (int_of_chars (list_ascii_of_string s)); reflexivity.
Qed.

(** The calls of [is_valid_port] that raise: a text that is not empty and
    is no integer literal. *)
Lemma is_valid_port_raises_iff v :
  raised (is_valid_port v) = true <->
  exists s, v = PStr s /\ s <> "" /\ int_of_chars (list_ascii_of_string s) = None.
Proof.
  split.
  - destruct v as [|b|z|s].
    + discriminate.
    + destruct b; discriminate.
    + rewrite is_valid_port_int. discriminate.
    + destruct (String.eqb_spec s "") as [->|Hs]; [discriminate|].
      rewrite (is_valid_port_str s Hs).
      destruct (int_of_chars (list_ascii_of_string s)) eqn:E; [discriminate|].
      intros _. exists s. auto.
  - intros (s & -> & Hs & E). rewrite (is_valid_port_str s Hs), E. reflexivity.
Qed.

(** C9. [is_valid_port] raises on a text that is no number: for "abc"
    the conversion [int(val)] ends the call with ValueError, where the
    docstring of the function promises False. *)
Theorem is_valid_port_raises_on_text :
  is_valid_port (PStr "abc") = Raises ValueError /\
  raised (is_valid_port (PStr "abc")) = true.
Proof. split; vm_compute; reflexivity. Qed.

(** ** The telegram handler *)

Lemma GroupAddress_eqb_eq a b : KNXControl.GroupAddress_eqb a b = true <-> a = b.
Proof.
  unfold KNXControl.GroupAddress_eqb. destruct a as [a1 a2 a3], b as [b1 b2 b3]; simpl.
  rewrite !andb_true_iff, !Z.eqb_eq. split.
  - intros [[-> ->] ->]. reflexivity.
  - intros H. inversion H. auto.
Qed.

Lemma is_valid_chargenow_cmd_write packet v a :
  KNXControl.payload packet = KNXControl.KNXGroupAPDU KNXControl.WRITE v ->
  KNXControl.is_valid_chargenow_cmd packet a = true <->
  a = KNXControl.Converted (KNXControl.dst packet).
Proof.
  intros Hp. unfold KNXControl.is_valid_chargenow_cmd. rewrite Hp. simpl.
  rewrite andb_true_r. destruct a as [raw|g].
  - split; discriminate.
  - rewrite GroupAddress_eqb_eq. split; [intros ->; reflexivity|].
    intros H. inversion H. reflexivity.
Qed.

Lemma is_valid_chargenow_cmd_not_write packet a :
  (forall v, KNXControl.payload packet <> KNXControl.KNXGroupAPDU KNXControl.WRITE v) ->
  KNXControl.is_valid_chargenow_cmd packet a = false.
Proof.
  intros Hp. unfold KNXControl.is_valid_chargenow_cmd.
  destruct (KNXControl.payload packet) as [[] v|]; simpl;
    try apply andb_false_r.
  destruct (Hp v eq_refl).
Qed.

Section HandlerProperties.

Import KNXControl.

Variable decode_FLOAT32 : EncodedData -> result pyfloat.
Variable decode_UINT16 : EncodedData -> result Z.

Local Abbreviation handler := (knx_packet_handler decode_FLOAT32 decode_UINT16).

(** C1. For a telegram whose payload is a write-type group command:
    the rate address is tried first, then the duration address.  On the
    rate address the payload is decoded as a float and truncated to
    [amps]; zero resets the session, any other value makes exactly the
    calls setChargeNowTimeEnd (stored duration) and then
    setChargeNowAmps (amps).  On the duration address the payload is
    decoded as an unsigned 16-bit integer; a value <= 0 resets the
    session, a larger one makes no session call and only replaces the
    stored duration: afterwards [chargeNowDuration] is the decoded value
    and every other attribute is what it was.  A telegram for neither
    address makes no session call and leaves the object as it was. *)
Theorem knx_packet_handler_dispatch (self : listener) (packet : ReceivedGroupAPDU)
    (v : EncodedData) :
  payload packet = KNXGroupAPDU WRITE v ->
  (chargeNowRateAddress self = Converted (dst packet) ->
   forall x amps,
     decode_FLOAT32 v = Returns x -> int_of_float x = Returns amps ->
     snd (handler self packet) = Returns self /\
     (amps = 0 ->
      session_calls (fst (handler self packet)) = [resetChargeNowAmps]) /\
     (amps <> 0 ->
      session_calls (fst (handler self packet)) =
        [setChargeNowTimeEnd (chargeNowDuration self); setChargeNowAmps amps]))
  /\
  (chargeNowRateAddress self <> Converted (dst packet) ->
   chargeNowDurationAddress self = Converted (dst packet) ->
   forall duration,
     decode_UINT16 v = Returns duration ->
     (duration <= 0 ->
      session_calls (fst (handler self packet)) = [resetChargeNowAmps] /\
      snd (handler self packet) = Returns self) /\
     (0 < duration ->
      session_calls (fst (handler self packet)) = [] /\
      snd (handler self packet) =
        Returns (set_chargeNowDuration self (PInt duration)) /\
      exists self',
        snd (handler self packet) = Returns self' /\
        chargeNowDuration self' = PInt duration /\
        gatewayIP self' = gatewayIP self /\
        gatewayPort self' = gatewayPort self /\
        chargeNowDurationAddress self' = chargeNowDurationAddress self /\
        chargeNowRateAddress self' = chargeNowRateAddress self))
  /\
  (chargeNowRateAddress self <> Converted (dst packet) ->
   chargeNowDurationAddress self <> Converted (dst packet) ->
   session_calls (fst (handler self packet)) = [] /\
   snd (handler self packet) = Returns self).
Proof.
  intros Hp.
  pose proof (is_valid_chargenow_cmd_write packet v (chargeNowRateAddress self) Hp)
    as Hrate.
  pose proof (is_valid_chargenow_cmd_write packet v (chargeNowDurationAddress self) Hp)
    as Hdur.
  unfold knx_packet_handler, payload_value. rewrite Hp. simpl.
  split; [|split].
  - intros Hr x amps Hx Hamps. apply Hrate in Hr. rewrite Hr, Hx. simpl.
    rewrite Hamps. destruct (Z.eqb_spec amps 0) as [->|Hne]; simpl.
    + repeat split; auto. congruence.
    + repeat split; auto. congruence.
  - intros Hr Hd duration Hdec.
    destruct (is_valid_chargenow_cmd packet (chargeNowRateAddress self)) eqn:E1.
    { destruct Hr. apply Hrate. reflexivity. }
    apply Hdur in Hd. rewrite Hd, Hdec.
    destruct (Z.leb_spec duration 0); simpl; split; intros; try lia; auto.
    split; [reflexivity|]. split; [reflexivity|].
    eexists. split; [reflexivity|]. repeat split.
  - intros Hr Hd.
    destruct (is_valid_chargenow_cmd packet (chargeNowRateAddress self)) eqn:E1.
    { destruct Hr. apply Hrate. reflexivity. }
    destruct (is_valid_chargenow_cmd packet (chargeNowDurationAddress self)) eqn:E2.
    { destruct Hd. apply Hdur. reflexivity. }
    simpl. auto.
Qed.

(** A telegram that is no write-type group command is taken for
    neither address. *)
Lemma knx_packet_handler_not_write (self : listener) (packet : ReceivedGroupAPDU) :
  (forall v, payload packet <> KNXGroupAPDU WRITE v) ->
  handler self packet =
    (handler_prologue ++ [debugLog 8 "not a chargeNowRate"], Returns self).
Proof.
  intros Hp. unfold knx_packet_handler.
  rewrite !(is_valid_chargenow_cmd_not_write packet _ Hp). reflexivity.
Qed.

End HandlerProperties.

(** The two telegrams of the specification: 7 A on the rate address
    makes the calls setChargeNowTimeEnd and setChargeNowAmps 7, in that
    order; 120 s on the duration address makes the stored duration 120. *)
Lemma knx_packet_handler_dispatch_witness :
  KNXControl.session_calls
    (fst (KNXControl.knx_packet_handler
            KNXControl.unpack_FLOAT32 KNXControl.unpack_UINT16
            Samples.docstring_listener Samples.rate_telegram_7)) =
  [KNXControl.setChargeNowTimeEnd (PStr "3600"); KNXControl.setChargeNowAmps 7]
  /\
  exists self',
    snd (KNXControl.knx_packet_handler
           KNXControl.unpack_FLOAT32 KNXControl.unpack_UINT16
           Samples.docstring_listener Samples.duration_telegram_120) = Returns self' /\
    KNXControl.chargeNowDuration self' = PInt 120 /\
    KNXControl.session_calls
      (fst (KNXControl.knx_packet_handler
              KNXControl.unpack_FLOAT32 KNXControl.unpack_UINT16
              Samples.docstring_listener Samples.duration_telegram_120)) = [].
Proof.
  split.
  - destruct (knx_packet_handler_dispatch
                KNXControl.unpack_FLOAT32 KNXControl.unpack_UINT16
                Samples.docstring_listener Samples.rate_telegram_7 _ eq_refl)
      as [H _].
    destruct (H eq_refl _ 7 eq_refl eq_refl) as (_ & _ & H7).
    apply H7. discriminate.
  - destruct (knx_packet_handler_dispatch
                KNXControl.unpack_FLOAT32 KNXControl.unpack_UINT16
                Samples.docstring_listener Samples.duration_telegram_120 _ eq_refl)
      as (_ & H & _).
    assert (Hne : KNXControl.chargeNowRateAddress Samples.docstring_listener <>
                  KNXControl.Converted (KNXControl.dst Samples.duration_telegram_120))
      by discriminate.
    destruct (H Hne eq_refl 120 eq_refl) as [_ H120].
    destruct (H120 eq_refl) as (Hcalls & _ & self' & Hs & Hd & _).
    exists self'. auto.
Defined.

Example duration_telegram_sets_default :
  KNXControl.knx_packet_handler
    KNXControl.unpack_FLOAT32 KNXControl.unpack_UINT16
    Samples.docstring_listener Samples.duration_telegram_120 =
  (KNXControl.handler_prologue ++
     [KNXControl.debugLog 8 "Got chargeNowDuration. Setting duration for next charge"],
   Returns (KNXControl.set_chargeNowDuration Samples.docstring_listener (PInt 120))).
Proof. vm_compute. reflexivity. Qed.

(** ** Startup of the listener *)

Example init_docstring_config :
  KNXControl.init Samples.ipv4_address Samples.docstring_config =
  ([], Returns (KNXControl.Started Samples.docstring_listener)).
Proof. vm_compute. reflexivity. Qed.

Section StartupProperties.

Import KNXControl.

Variable ip_address : pyval -> bool.

Lemma is_properly_configured_true (s : settings) :
  snd (is_properly_configured ip_address s) = Returns true <->
  ip_address (cfg_gatewayIP s) = true /\
  is_valid_port (cfg_gatewayPort s) = Returns true /\
  is_knx_address (cfg_chargeNowRateAddress s) = Returns true.
Proof.
  unfold is_properly_configured.
  destruct (ip_address (cfg_gatewayIP s)); simpl.
  2: { split; [discriminate|]. intros (H & _). discriminate. }
  destruct (is_valid_port (cfg_gatewayPort s)) as [[|]|e]; simpl.
  2,3: split; [discriminate|]; intros (_ & H & _); discriminate.
  destruct (is_knx_address (cfg_chargeNowRateAddress s)) as [[|]|e]; simpl.
  1: tauto.
  all: split; [discriminate|]; intros (_ & _ & H); discriminate.
Qed.


End StartupProperties.



(** ** The reconnect loop *)

Section ServerLoopProperties.

Import KNXControl.

Variable self : listener.

Lemma resume_running pt r :
  running pt -> (is_sleep pt = true -> raised r = false) ->
  running (snd (resume self pt r)).
Proof.
  intros Hpt Hsleep e.
  destruct pt as [| | |secs|e0]; destruct r as [[]|e1]; simpl;
    unfold on_exception; try destruct (is_OSError e1); simpl; try discriminate.
  all: try (specialize (Hsleep eq_refl); discriminate).
  all: intros _; eapply Hpt; reflexivity.
Qed.

Lemma run_from_running outcomes : forall pt,
  running pt -> sleeps_return self pt outcomes ->
  running (snd (run_from self pt outcomes)).
Proof.
  induction outcomes as [|r rest IH]; intros pt Hpt Hs; simpl; [exact Hpt|].
  destruct Hs as [Hr Hrest].
  pose proof (resume_running pt r Hpt Hr) as Hnext.
  destruct (resume self pt r) as [acts pt'] eqn:E. simpl in *.
  specialize (IH pt' Hnext Hrest).
  destruct (run_from self pt' rest) as [acts' pt'']. exact IH.
Qed.

Lemma run_from_app xs : forall pt ys,
  run_from self pt (xs ++ ys) =
  (fst (run_from self pt xs) ++ fst (run_from self (snd (run_from self pt xs)) ys),
   snd (run_from self (snd (run_from self pt xs)) ys)).
Proof.
  induction xs as [|r xs IH]; intros pt ys; simpl.
  - destruct (run_from self pt ys); reflexivity.
  - destruct (resume self pt r) as [acts pt']. rewrite IH.
    destruct (run_from self pt' xs) as [a1 p1]. simpl.
    destruct (run_from self p1 ys) as [a2 p2]. simpl.
    rewrite app_assoc. reflexivity.
Qed.




End ServerLoopProperties.


(** ** The status publisher *)

Section PublisherProperties.

Import MQTTStatus.

Lemma debugLog_run l msg tr w :
  exists o', debugLog l msg tr w = (Returns tt, {| self := self w; out := o' |}).
Proof.
  unfold debugLog, mbind, get, emit, ret.
  destruct (l <=? debugLevel (self w)); eauto.
  destruct w; eauto.
Qed.

Lemma debugLog_silent l msg tr w :
  debugLevel (self w) < l -> debugLog l msg tr w = (Returns tt, w).
Proof.
  intros H. unfold debugLog, mbind, get, ret.
  destruct (Z.leb_spec l (debugLevel (self w))); [lia|reflexivity].
Qed.

Lemma set_connectionState_same s :
  set_connectionState (connectionState s) s = s.
Proof. destruct s; reflexivity. Qed.

Ltac log_step :=
  match goal with
  | |- context [debugLog ?l ?m ?tr ?w] =>
      let o := fresh "o" in
      let E := fresh "E" in
      destruct (debugLog_run l m tr w) as [o E]; rewrite E; clear E;
      cbn [self out]
  end.

Ltac call_step tr :=
  match goal with
  | |- context [match tr ?c with _ => _ end] =>
      destruct (tr c) eqn:?; cbn [self out]
  end.

Lemma connect_handlers_run e tr w :
  exists o',
    match connect_handlers e with
    | Some h => is_OSError e = true /\
                h tr w = (Returns (PBool false), {| self := self w; out := o' |})
    | None => is_OSError e = false
    end.
Proof.
  unfold connect_handlers. destruct (is_OSError e); [|exists []; reflexivity].
  unfold mbind. log_step. log_step. unfold ret. eauto.
Qed.

(** The [try] body: it returns None with the state set to 1, or raises
    before the state is set, or raises in [loop_start] after it. *)
Lemma connect_body_run s tr w :
  exists o',
    (tr (connect_async (brokerIP s) (brokerPort s) 30) = None /\
     tr loop_start = None /\
     connect_body s tr w =
       (Returns PNone, {| self := set_connectionState 1 (self w); out := o' |}))
    \/ (exists e c, tr c = Some e /\
                    connect_body s tr w = (Raises e, {| self := self w; out := o' |}))
    \/ (exists e, tr (connect_async (brokerIP s) (brokerPort s) 30) = None /\
                  tr loop_start = Some e /\
                  connect_body s tr w =
                    (Raises e, {| self := set_connectionState 1 (self w); out := o' |})).
Proof.
  destruct w as [p o].
  unfold connect_body, mbind, call, modify, ret. cbn [self out].
  destruct (truthy (username s) && truthy (password s));
    repeat call_step tr;
    eexists;
    first [ left; repeat split; reflexivity
          | right; left; do 2 eexists; split; [eassumption|reflexivity]
          | right; right; eexists; repeat split; reflexivity ].
Qed.

Lemma connect_body_quiet s tr w :
  (forall c, tr c = None) ->
  connect_body s tr w =
    (Returns PNone,
     {| self := set_connectionState 1 (self w);
        out := out w ++ [Call Client]
               ++ (if truthy (username s) && truthy (password s)
                   then [Call (username_pw_set (username s) (password s))]
                   else [])
               ++ [Call set_on_connect;
                   Call (connect_async (brokerIP s) (brokerPort s) 30);
                   Call loop_start] |}).
Proof.
  intros Hq. destruct w as [p o].
  unfold connect_body, mbind, call, modify, ret. rewrite !Hq. cbn [self out].
  destruct (truthy (username s) && truthy (password s));
    rewrite ?Hq; cbn [self out]; rewrite <- ?app_assoc; reflexivity.
Qed.

(** The last statement of [setStatus] changes nothing of the object but
    the connection state. *)
Lemma establish_connection_run tr w :
  exists r c o',
    establish_connection tr w =
      (r, {| self := set_connectionState c (self w); out := o' |})
    /\ (connectionState (self w) <> 0 ->
        r = Returns PNone /\ c = connectionState (self w) /\ o' = out w)
    /\ (connectionState (self w) = 0 ->
        tr (connect_async (brokerIP (self w)) (brokerPort (self w)) 30) <> None ->
        c = 0)
    /\ (r = Returns (PBool false) ->
        connectionState (self w) = 0 /\
        exists e c', is_OSError e = true /\ tr c' = Some e)
    /\ ((forall c', tr c' = None) -> r = Returns PNone).
Proof.
  unfold establish_connection, mbind, get. cbn [fst snd].
  destruct (Z.eqb_spec (connectionState (self w)) 0) as [H0|Hne].
  - log_step. unfold try_except.
    destruct (connect_body_run (self w) tr {| self := self w; out := o |})
      as [o' [(Ha & Hl & ->)|[(e & c' & Hc' & ->)|(e & Ha & Hl & ->)]]]; cbn [self out].
    + exists (Returns PNone), 1, o'. repeat split; try congruence.
    + destruct (connect_handlers_run e tr {| self := self w; out := o' |})
        as [o'' Hh].
      destruct (connect_handlers e) as [h|].
      * destruct Hh as [He ->]. cbn [self out].
        exists (Returns (PBool false)), 0, o''. rewrite <- H0 at 1.
        rewrite set_connectionState_same. repeat split; try congruence.
        eauto.
      * exists (Raises e), 0, o'. rewrite <- H0 at 1.
        rewrite set_connectionState_same. repeat split; congruence.
    + destruct (connect_handlers_run e tr
                  {| self := set_connectionState 1 (self w); out := o' |})
        as [o'' Hh].
      destruct (connect_handlers e) as [h|].
      * destruct Hh as [He ->]. cbn [self out].
        exists (Returns (PBool false)), 1, o''. repeat split; try congruence.
        eauto.
      * exists (Raises e), 1, o'. repeat split; congruence.
  - unfold ret. exists (Returns PNone), (connectionState (self w)), (out w).
    rewrite set_connectionState_same. destruct w. repeat split; try congruence.
Qed.

Lemma set_msgQueue_same s : set_msgQueue (msgQueue s) s = s.
Proof. destruct s; reflexivity. Qed.

Lemma trim_queue_run tr w :
  trim_queue tr w =
    (Returns tt,
     {| self := set_msgQueue (trimmed (msgQueueMax (self w)) (msgQueue (self w)))
                  (self w);
        out := out w |}).
Proof.
  unfold trim_queue, trimmed, mbind, get, modify, ret. cbn [fst snd self out].
  destruct (Nat.ltb _ _); [reflexivity|].
  rewrite set_msgQueue_same. destruct w; reflexivity.
Qed.

Lemma push_and_connect_run topic' value tr w :
  exists r c o',
    push_and_connect topic' value tr w =
      (r, {| self := set_connectionState c (pushed (self w) topic' value);
             out := o' |})
    /\ (connectionState (self w) <> 0 ->
        r = Returns PNone /\ c = connectionState (self w) /\ o' = out w)
    /\ (connectionState (self w) = 0 ->
        tr (connect_async (brokerIP (self w)) (brokerPort (self w)) 30) <> None ->
        c = 0)
    /\ (r = Returns (PBool false) ->
        connectionState (self w) = 0 /\
        exists e c', is_OSError e = true /\ tr c' = Some e)
    /\ ((forall c', tr c' = None) -> r = Returns PNone).
Proof.
  unfold push_and_connect, mbind, modify. cbn [fst snd self out].
  rewrite trim_queue_run. cbn [self out].
  match goal with
  | |- context [establish_connection tr ?w'] =>
      destruct (establish_connection_run tr w')
        as (r & c & o' & -> & H1 & H2 & H3 & H4)
  end.
  exists r, c, o'. split; [|exact (conj H1 (conj H2 (conj H3 H4)))].
  destruct w as [s o]; destruct s; reflexivity.
Qed.

Lemma Qltb_lt x y : Qltb x y = true <-> (x < y)%Q.
Proof.
  unfold Qltb. rewrite negb_true_iff, <- not_true_iff_false, Qle_bool_iff.
  split; [apply Qnot_le_lt|apply Qlt_not_le].
Qed.

Lemma setStatus_run twcid key value now now' tr w prefix :
  truthy (status (self w)) = true ->
  topicPrefix (self w) = PStr prefix ->
  setStatus twcid key value now now' tr w =
    match msgRate (self w) !! status_topic prefix twcid key with
    | Some last =>
        if Qltb (now - last) (msgRatePerTopic (self w)) then (Returns (PBool true), w)
        else
          push_and_connect (status_topic prefix twcid key) value tr
            {| self := set_msgRate
                         (<[status_topic prefix twcid key := now']> (msgRate (self w)))
                         (self w);
               out := out w |}
    | None =>
        push_and_connect (status_topic prefix twcid key) value tr
          {| self := set_msgRate
                       (<[status_topic prefix twcid key := now]> (msgRate (self w)))
                       (self w);
             out := out w |}
    end.
Proof.
  intros Hen Hp.
  unfold setStatus, mbind, get, str_add, ret, modify. cbn [fst snd].
  rewrite Hen, Hp. fold (status_topic prefix twcid key).
  destruct (msgRate (self w) !! status_topic prefix twcid key) as [last|];
    [destruct (Qltb _ _)|]; reflexivity.
Qed.

(** Every call leaves the world as it was, or records a time for the
    topic, pushes the message, trims, and possibly changes the
    connection state. *)
Lemma setStatus_cases twcid key value now now' tr w :
  setStatus twcid key value now now' tr w = (Returns PNone, w)
  \/ setStatus twcid key value now now' tr w = (Raises TypeError, w)
  \/ setStatus twcid key value now now' tr w = (Returns (PBool true), w)
  \/ exists r c o' t prefix,
       topicPrefix (self w) = PStr prefix /\
       setStatus twcid key value now now' tr w =
         (r, {| self :=
                  set_connectionState c
                    (pushed
                       (set_msgRate
                          (<[status_topic prefix twcid key := t]> (msgRate (self w)))
                          (self w))
                       (status_topic prefix twcid key) value);
                out := o' |}) /\
       (connectionState (self w) <> 0 -> c = connectionState (self w)) /\
       (connectionState (self w) = 0 ->
        tr (connect_async (brokerIP (self w)) (brokerPort (self w)) 30) <> None ->
        c = 0) /\
       (r = Returns (PBool false) ->
        exists e c', is_OSError e = true /\ tr c' = Some e).
Proof.
  destruct (truthy (status (self w))) eqn:Hen.
  2: { left. unfold setStatus, mbind, get, ret. cbn [fst snd]. rewrite Hen.
       reflexivity. }
  destruct (topicPrefix (self w)) as [|b|z|prefix] eqn:Hp.
  1-3: right; left; unfold setStatus, mbind, get, str_add, raise; cbn [fst snd];
       rewrite Hen, Hp; reflexivity.
  rewrite (setStatus_run _ _ _ _ _ _ _ prefix Hen Hp).
  destruct (msgRate (self w) !! status_topic prefix twcid key) as [last|];
    [destruct (Qltb _ _); [tauto|]|];
    match goal with
    | |- context [push_and_connect ?t ?v tr ?w'] =>
        destruct (push_and_connect_run t v tr w')
          as (r & c & o' & -> & H1 & H2 & H3 & _)
    end; do 3 right; cbn [self out] in *;
    eexists r, c, o', _, prefix;
    (split; [reflexivity|]); (split; [reflexivity|]);
    (split; [intros Hc; apply H1, Hc|]); (split; [exact H2|]);
    intros Hr; apply H3, Hr.
Qed.

(** *** Trimming *)

Lemma trimmed_over cap (q : list message) :
  (cap + 8 < length q)%nat -> trimmed cap q = drop cap q.
Proof.
  intros H. unfold trimmed.
  destruct (Nat.ltb_spec (cap + 8) (length q)); [reflexivity|lia].
Qed.

Lemma trimmed_within cap (q : list message) :
  (length q <= cap + 8)%nat -> trimmed cap q = q.
Proof.
  intros H. unfold trimmed.
  destruct (Nat.ltb_spec (cap + 8) (length q)); [lia|reflexivity].
Qed.

Lemma trimmed_suffix cap (q : list message) :
  exists oldest, q = oldest ++ trimmed cap q.
Proof.
  unfold trimmed. destruct (Nat.ltb _ _).
  - exists (take cap q). symmetry. apply take_drop.
  - exists []. reflexivity.
Qed.

Lemma trimmed_last cap (q : list message) m :
  last (trimmed cap (q ++ [m])) = Some m.
Proof.
  unfold trimmed. rewrite length_app. cbn [length].
  destruct (Nat.ltb_spec (cap + 8) (length q + 1)).
  - rewrite drop_app_le by lia. apply last_snoc.
  - apply last_snoc.
Qed.

Lemma trimmed_length cap (q : list message) :
  (1 <= cap)%nat -> (length q <= cap + 9)%nat ->
  (length (trimmed cap q) <= cap + 8)%nat.
Proof.
  intros Hcap Hq. unfold trimmed.
  destruct (Nat.ltb_spec (cap + 8) (length q)); [|lia].
  rewrite length_drop. lia.
Qed.

(** C3. A call for a topic whose recorded time is less than
    [msgRatePerTopic] ago changes nothing: no message is queued and no
    time is recorded.  A call for a topic whose interval has elapsed,
    or for a topic without a recorded time, records the time read from
    the clock for that topic and appends the message to the queue
    (which is then trimmed; below the trimming threshold the queue is
    the old one with exactly that message appended).  With the
    interval of 60 seconds: of the calls at 0 s, 59 s and 61 s for one
    topic, the second queues nothing and the third queues its
    message. *)
Theorem setStatus_rate_limit twcid key value now now' tr w prefix :
  truthy (status (self w)) = true ->
  topicPrefix (self w) = PStr prefix ->
  let topic' := status_topic prefix twcid key in
  let msg := {| topic := topic'; payload := value |} in
  let w' := snd (setStatus twcid key value now now' tr w) in
  (forall last,
     msgRate (self w) !! topic' = Some last ->
     (now - last < msgRatePerTopic (self w))%Q ->
     w' = w)
  /\
  (forall last,
     msgRate (self w) !! topic' = Some last ->
     ~ (now - last < msgRatePerTopic (self w))%Q ->
     msgRate (self w') = <[topic' := now']> (msgRate (self w)) /\
     msgQueue (self w') =
       trimmed (msgQueueMax (self w)) (msgQueue (self w) ++ [msg]))
  /\
  (msgRate (self w) !! topic' = None ->
   msgRate (self w') = <[topic' := now]> (msgRate (self w)) /\
   msgQueue (self w') =
     trimmed (msgQueueMax (self w)) (msgQueue (self w) ++ [msg]))
  /\
  ((length (msgQueue (self w)) < msgQueueMax (self w) + 8)%nat ->
   trimmed (msgQueueMax (self w)) (msgQueue (self w) ++ [msg]) =
     msgQueue (self w) ++ [msg])
  /\
  (let w1 := PublisherSamples.after (setStatus "id" "power" (PInt 1) 0 0)
               PublisherSamples.quiet PublisherSamples.fresh in
   let w2 := PublisherSamples.after (setStatus "id" "power" (PInt 2) 59 59)
               PublisherSamples.quiet w1 in
   let w3 := PublisherSamples.after (setStatus "id" "power" (PInt 3) 61 61)
               PublisherSamples.quiet w2 in
   msgRatePerTopic (self PublisherSamples.fresh) = 60%Q /\
   msgQueue (self w1) = [{| topic := "TWC/id/power"; payload := PInt 1 |}] /\
   msgQueue (self w2) = msgQueue (self w1) /\
   msgQueue (self w3) = [{| topic := "TWC/id/power"; payload := PInt 1 |};
                         {| topic := "TWC/id/power"; payload := PInt 3 |}]).
Proof.
  intros Hen Hp topic' msg w'. subst w'.
  rewrite (setStatus_run _ _ _ _ _ _ _ prefix Hen Hp). fold topic'.
  split; [|split; [|split; [|split]]].
  - intros last Hl Hlt. rewrite Hl.
    apply Qltb_lt in Hlt. rewrite Hlt. reflexivity.
  - intros last Hl Hge. rewrite Hl.
    destruct (Qltb (now - last) (msgRatePerTopic (self w))) eqn:E.
    { apply Qltb_lt in E. contradiction. }
    match goal with
    | |- context [push_and_connect ?t ?v tr ?w'] =>
        destruct (push_and_connect_run t v tr w') as (r & c & o' & -> & _)
    end. split; reflexivity.
  - intros Hl. rewrite Hl.
    match goal with
    | |- context [push_and_connect ?t ?v tr ?w'] =>
        destruct (push_and_connect_run t v tr w') as (r & c & o' & -> & _)
    end. split; reflexivity.
  - intros Hlen. apply trimmed_within. rewrite length_app. cbn [length]. lia.
  - repeat split; vm_compute; reflexivity.
Qed.


(** *** The connection state *)

Lemma establish_connection_quiet tr w :
  connectionState (self w) = 0 ->
  (forall c, tr c = None) ->
  exists o',
    establish_connection tr w =
      (Returns PNone, {| self := set_connectionState 1 (self w); out := o' |})
    /\ In (Call (connect_async (brokerIP (self w)) (brokerPort (self w)) 30)) o'.
Proof.
  intros H0 Hq. unfold establish_connection, mbind, get. cbn [fst snd].
  rewrite H0. cbn [Z.eqb]. log_step. unfold try_except.
  rewrite (connect_body_quiet _ _ _ Hq). cbn [self out].
  eexists. split; [reflexivity|].
  rewrite !in_app_iff. right. right. right. simpl. auto.
Qed.

Lemma publish_message_returns tr m w :
  tr (publish (topic m) (payload m)) = None ->
  exists o', publish_message m tr w = (Returns tt, {| self := self w; out := o' |}).
Proof.
  intros Hq. unfold publish_message, mbind. log_step.
  unfold try_except, call. rewrite Hq. cbn [self out]. eauto.
Qed.

Lemma publish_message_raises tr m w e :
  tr (publish (topic m) (payload m)) = Some e ->
  exists o', publish_message m tr w = (Raises NameError, {| self := self w; out := o' |}).
Proof.
  intros Hq. unfold publish_message, mbind. log_step.
  unfold try_except, call. rewrite Hq. cbn [except_e]. unfold raise. eauto.
Qed.

Lemma drain_quiet tr (buf : list message) :
  (forall m, In m buf -> tr (publish (topic m) (payload m)) = None) ->
  forall w, exists o',
    for_each buf publish_message tr w =
    (Returns tt, {| self := self w; out := o' |}).
Proof.
  induction buf as [|m buf IH]; intros Hq w.
  - exists (out w). destruct w; reflexivity.
  - cbn [for_each]. unfold mbind.
    destruct (publish_message_returns tr m w (Hq m (or_introl eq_refl))) as [o ->].
    destruct (IH (fun m' Hm' => Hq m' (or_intror Hm')) {| self := self w; out := o |})
      as [o' ->]. eauto.
Qed.

(** When no publish and no [loop_stop] raises, the callback runs to its
    end: queue and buffer are empty and the state is 0. *)
Lemma mqttConnected_completes rc tr w :
  (forall m, In m (msgQueue (self w)) -> tr (publish (topic m) (payload m)) = None) ->
  tr loop_stop = None ->
  exists r o',
    mqttConnected rc tr w =
      (r, {| self := set_connectionState 0
                       (set_msgQueueBuffer []
                          (set_msgQueue []
                             (set_msgQueueBuffer (msgQueue (self w)) (self w))));
             out := o' |}).
Proof.
  intros Hq Hstop. unfold mqttConnected.
  unfold mbind at 1. log_step.
  unfold mbind at 1. log_step.
  unfold mbind at 1. unfold modify at 1. cbn [self out].
  unfold mbind at 1. log_step.
  unfold mbind at 1. unfold modify at 1. cbn [self out].
  unfold mbind at 1. unfold get at 1. cbn [self out msgQueueBuffer set_msgQueue
    set_msgQueueBuffer].
  unfold mbind at 1.
  match goal with
  | |- context [for_each ?buf ?body tr ?w'] =>
      destruct (drain_quiet tr buf Hq w') as [o' ->]
  end.
  unfold mbind, call, modify. rewrite Hstop. cbn [self out].
  destruct (tr disconnect); eauto.
Qed.

(** When publishing the first queued message raises, the clause
    [except e] raises NameError in its turn: the callback ends there,
    with the state as it was and the buffer not cleared. *)
Lemma mqttConnected_first_publish_raises rc tr w m rest e :
  msgQueue (self w) = m :: rest ->
  tr (publish (topic m) (payload m)) = Some e ->
  exists o',
    mqttConnected rc tr w =
      (Raises NameError,
       {| self := set_msgQueue [] (set_msgQueueBuffer (m :: rest) (self w));
          out := o' |}).
Proof.
  intros Hq Hraise. unfold mqttConnected.
  unfold mbind at 1. log_step.
  unfold mbind at 1. log_step.
  unfold mbind at 1. unfold modify at 1. cbn [self out].
  unfold mbind at 1. log_step.
  unfold mbind at 1. unfold modify at 1. cbn [self out].
  unfold mbind at 1. unfold get at 1. cbn [self out msgQueueBuffer set_msgQueue
    set_msgQueueBuffer].
  rewrite Hq. cbn [for_each].
  unfold mbind at 1 2.
  match goal with
  | |- context [publish_message m tr ?w'] =>
      destruct (publish_message_raises tr m w' e Hraise) as [o' ->]
  end. eauto.
Qed.

Lemma setStatus_within_bound twcid key value now now' tr w :
  within_bound w ->
  within_bound (snd (setStatus twcid key value now now' tr w)).
Proof.
  intros [Hcap Hq]. unfold within_bound.
  destruct (setStatus_cases twcid key value now now' tr w)
    as [->|[->|[->|(r & c & o' & t & prefix & _ & -> & _)]]]; auto.
  cbn [snd self msgQueue set_connectionState pushed set_msgQueue
       msgQueueMax set_msgRate].
  split; [exact Hcap|].
  apply trimmed_length; [exact Hcap|]. rewrite length_app. cbn [length]. lia.
Qed.

Lemma publish_message_self tr m w : self (snd (publish_message m tr w)) = self w.
Proof.
  destruct (tr (publish (topic m) (payload m))) as [e|] eqn:E.
  - destruct (publish_message_raises tr m w e E) as [o' ->]. reflexivity.
  - destruct (publish_message_returns tr m w E) as [o' ->]. reflexivity.
Qed.

Lemma drain_self tr (buf : list message) :
  forall w, self (snd (for_each buf publish_message tr w)) = self w.
Proof.
  induction buf as [|m buf IH]; intros w; [reflexivity|].
  cbn [for_each]. unfold mbind.
  pose proof (publish_message_self tr m w) as Hm.
  destruct (publish_message m tr w) as [[[]|e] w1]; cbn [snd] in *.
  - rewrite IH. exact Hm.
  - exact Hm.
Qed.

(** However the callback ends, it has emptied the queue and left the
    capacity alone. *)
Lemma mqttConnected_queue rc tr w :
  exists r w',
    mqttConnected rc tr w = (r, w') /\
    msgQueue (self w') = [] /\
    msgQueueMax (self w') = msgQueueMax (self w).
Proof.
  unfold mqttConnected.
  unfold mbind at 1. log_step.
  unfold mbind at 1. log_step.
  unfold mbind at 1. unfold modify at 1. cbn [self out].
  unfold mbind at 1. log_step.
  unfold mbind at 1. unfold modify at 1. cbn [self out].
  unfold mbind at 1. unfold get at 1. cbn [self out msgQueueBuffer set_msgQueue
    set_msgQueueBuffer].
  unfold mbind at 1.
  match goal with
  | |- context [for_each ?buf publish_message tr ?w'] =>
      pose proof (drain_self tr buf w') as Hd;
      destruct (for_each buf publish_message tr w') as [[[]|e] w1]
  end; cbn [snd self out] in *.
  - unfold mbind, call, modify. cbn [self out].
    destruct (tr loop_stop); cbn [snd self out].
    { eexists _, _. split; [reflexivity|]. rewrite Hd. split; reflexivity. }
    destruct (tr disconnect); cbn [snd self out];
      (eexists _, _; split; [reflexivity|]; cbn [self]; rewrite Hd;
       split; reflexivity).
  - eexists _, _. split; [reflexivity|]. rewrite Hd. split; reflexivity.
Qed.

Lemma act_within_bound a tr w : within_bound w -> within_bound (act a tr w).
Proof.
  intros Hw. destruct a as [twcid key value now now'|[rc|e]]; cbn [act on_event].
  - apply setStatus_within_bound, Hw.
  - destruct Hw as [Hcap _].
    destruct (mqttConnected_queue rc tr w) as (r & w' & -> & Hq & Hm).
    unfold within_bound. cbn [snd]. rewrite Hq, Hm. cbn [length].
    split; [exact Hcap|lia].
  - exact Hw.
Qed.

(** The bound holds along every history of calls and events. *)
Lemma run_history_within_bound h : forall w,
  within_bound w -> within_bound (run_history h w).
Proof.
  unfold run_history.
  induction h as [|[a tr] h IH]; intros w Hw; [exact Hw|].
  cbn [fold_left fst snd]. apply IH, act_within_bound, Hw.
Qed.

Lemma msgQueueMax_run_history h : forall w,
  msgQueueMax (self (run_history h w)) = msgQueueMax (self w).
Proof.
  unfold run_history.
  induction h as [|[a tr] h IH]; intros w; [reflexivity|].
  cbn [fold_left fst snd]. rewrite IH.
  destruct a as [twcid key value now now'|[rc|e]]; cbn [act on_event].
  - destruct (setStatus_cases twcid key value now now' tr w)
      as [->|[->|[->|(r & c & o' & t & prefix & _ & -> & _)]]]; reflexivity.
  - destruct (mqttConnected_queue rc tr w) as (r & w' & -> & _ & Hm). exact Hm.
  - reflexivity.
Qed.

(** C4. A call leaves the queue as it was or appends its message and
    trims: beyond capacity + 8 entries the first (oldest) [capacity]
    entries are deleted, otherwise nothing is.  What is deleted is a
    front part of the queue, and the message just appended stays last.
    A queue of at most capacity + 8 entries has at most capacity + 8
    entries after the call (capacity at least 1; it is 16 in the
    class), so a publisher that starts with an empty queue never holds
    more than 16 + 8 messages, whatever calls and events it sees.  With
    capacity 16, thirty messages on thirty topics leave the last
    fourteen of them, in order. *)
Theorem setStatus_queue_bound twcid key value now now' tr w :
  let cap := msgQueueMax (self w) in
  let q := msgQueue (self w) in
  let w' := snd (setStatus twcid key value now now' tr w) in
  let q' := msgQueue (self w') in
  msgQueueMax (self w') = cap
  /\
  (q' = q \/
   exists msg, q' = trimmed cap (q ++ [msg]) /\ last q' = Some msg /\
               exists oldest, q ++ [msg] = oldest ++ q')
  /\
  (forall l : list message, (cap + 8 < length l)%nat -> trimmed cap l = drop cap l)
  /\
  (forall l : list message, (length l <= cap + 8)%nat -> trimmed cap l = l)
  /\
  ((1 <= cap)%nat -> (length q <= cap + 8)%nat -> (length q' <= cap + 8)%nat)
  /\
  (forall h,
     (length (msgQueue (self (run_history h PublisherSamples.fresh))) <= 16 + 8)%nat)
  /\
  (msgQueueMax (self PublisherSamples.fresh) = 16%nat /\
   msgQueue (self (PublisherSamples.publish_keys 0 30 PublisherSamples.fresh)) =
     map PublisherSamples.message_of (seq 16 14) /\
   (length (msgQueue (self (PublisherSamples.publish_keys 0 30
                              PublisherSamples.fresh))) <= 16)%nat).
Proof.
  intros cap q w' q'. subst cap q q' w'.
  split; [|split; [|split; [|split; [|split; [|split]]]]].
  - destruct (setStatus_cases twcid key value now now' tr w)
      as [->|[->|[->|(r & c & o' & t & prefix & _ & -> & _)]]]; reflexivity.
  - destruct (setStatus_cases twcid key value now now' tr w)
      as [->|[->|[->|(r & c & o' & t & prefix & _ & -> & _)]]]; auto.
    right. cbn [snd self msgQueue set_connectionState pushed set_msgQueue
                msgQueueMax set_msgRate].
    eexists. split; [reflexivity|]. split; [apply trimmed_last|].
    apply trimmed_suffix.
  - intros l. apply trimmed_over.
  - intros l. apply trimmed_within.
  - intros Hcap Hq.
    destruct (setStatus_cases twcid key value now now' tr w)
      as [->|[->|[->|(r & c & o' & t & prefix & _ & -> & _)]]]; auto.
    cbn [snd self msgQueue set_connectionState pushed set_msgQueue
         msgQueueMax set_msgRate].
    apply trimmed_length; [exact Hcap|]. rewrite length_app. cbn [length]. lia.
  - intros h.
    assert (within_bound PublisherSamples.fresh) as Hfresh
      by (unfold within_bound; cbn; lia).
    destruct (run_history_within_bound h _ Hfresh) as [_ Hb].
    rewrite msgQueueMax_run_history in Hb. exact Hb.
  - split; [reflexivity|]. split; [vm_compute; reflexivity|].
    vm_compute. lia.
Qed.

Lemma push_and_connect_quiet topic' value tr w :
  connectionState (self w) = 0 ->
  (forall c, tr c = None) ->
  exists o',
    push_and_connect topic' value tr w =
      (Returns PNone,
       {| self := set_connectionState 1 (pushed (self w) topic' value); out := o' |})
    /\ In (Call (connect_async (brokerIP (self w)) (brokerPort (self w)) 30)) o'.
Proof.
  intros H0 Hq.
  unfold push_and_connect, mbind, modify. cbn [fst snd self out].
  rewrite trim_queue_run. cbn [self out].
  match goal with
  | |- context [establish_connection tr ?w'] =>
      destruct (establish_connection_quiet tr w' H0 Hq) as (o' & -> & Hin)
  end.
  exists o'. split; [|exact Hin].
  destruct w as [s o]; destruct s; reflexivity.
Qed.

(** The value False comes only from the handlers of the connect
    attempt, after an exception of class OSError, and the message of
    the call is then the last one of the queue. *)
Lemma setStatus_False_only_after_OSError twcid key value now now' tr w :
  fst (setStatus twcid key value now now' tr w) = Returns (PBool false) ->
  (exists e c, is_OSError e = true /\ tr c = Some e) /\
  exists topic',
    last (msgQueue (self (snd (setStatus twcid key value now now' tr w)))) =
    Some {| topic := topic'; payload := value |}.
Proof.
  destruct (setStatus_cases twcid key value now now' tr w)
    as [->|[->|[->|(r & c & o' & t & prefix & _ & -> & _ & _ & Hr)]]];
    try discriminate.
  cbn [fst snd]. intros ->. split; [apply Hr; reflexivity|].
  eexists. cbn [self msgQueue set_connectionState pushed set_msgQueue
                msgQueueMax set_msgRate].
  apply trimmed_last.
Qed.

Lemma debugLog_appends l msg tr w :
  exists p, debugLog l msg tr w = (Returns tt, {| self := self w; out := out w ++ p |}).
Proof.
  unfold debugLog, mbind, get, emit, ret. cbn [fst snd].
  destruct (l <=? debugLevel (self w)); [eauto|].
  exists []. rewrite app_nil_r. destruct w; reflexivity.
Qed.

(** In state 0 and on a transport that raises nothing, the end of
    [setStatus] appends a connection attempt to what the world has seen
    and sets the state to 1. *)
Lemma establish_connection_attempt tr w :
  connectionState (self w) = 0 ->
  (forall c, tr c = None) ->
  exists new,
    establish_connection tr w =
      (Returns PNone,
       {| self := set_connectionState 1 (self w); out := out w ++ new |})
    /\ In (Call (connect_async (brokerIP (self w)) (brokerPort (self w)) 30)) new.
Proof.
  intros H0 Hq. unfold establish_connection, mbind, get. cbn [fst snd].
  rewrite H0. cbn [Z.eqb].
  destruct (debugLog_appends 10 "MQTT Status: Attempting to Connect" tr w)
    as [p ->].
  unfold try_except.
  rewrite (connect_body_quiet _ _ _ Hq). cbn [self out].
  rewrite <- app_assoc.
  eexists. split; [reflexivity|].
  rewrite !in_app_iff. right. right. right. simpl. auto.
Qed.

Lemma push_and_connect_attempt topic' value tr w :
  connectionState (self w) = 0 ->
  (forall c, tr c = None) ->
  exists new,
    push_and_connect topic' value tr w =
      (Returns PNone,
       {| self := set_connectionState 1 (pushed (self w) topic' value);
          out := out w ++ new |})
    /\ In (Call (connect_async (brokerIP (self w)) (brokerPort (self w)) 30)) new.
Proof.
  intros H0 Hq.
  unfold push_and_connect, mbind, modify. cbn [fst snd self out].
  rewrite trim_queue_run. cbn [self out].
  match goal with
  | |- context [establish_connection tr ?w'] =>
      destruct (establish_connection_attempt tr w' H0 Hq) as (new & -> & Hin)
  end.
  exists new. split; [|exact Hin].
  destruct w as [s o]; destruct s; reflexivity.
Qed.

(** C8 (amended). A connect call that raises leaves the connection
    state at 0, and in state 0 a call that is not rate limited (for a
    topic never sent, or for a known topic whose interval has elapsed,
    such as the topic of the failed call itself) starts a new attempt:
    it appends a call of [connect_async] to what the client has seen
    and sets the state to 1.  The state leaves a value other than 0
    only through the callback [mqttConnected]: [setStatus] keeps such a
    state whatever the transport does, and a failure the network thread
    meets after the attempt was started runs no code of the class, so
    the world stays as it is, the state at 1.  The callback runs for
    every answer of the broker, whatever the result code, and sets the
    state to 0 when no publish of a queued message and no [loop_stop]
    raises. *)
Theorem connection_state_after_connect_failure :
  (forall twcid key value now now' tr w e,
     connectionState (self w) = 0 ->
     tr (connect_async (brokerIP (self w)) (brokerPort (self w)) 30) = Some e ->
     connectionState (self (snd (setStatus twcid key value now now' tr w))) = 0)
  /\
  (forall twcid key value now now' tr w prefix,
     truthy (status (self w)) = true ->
     topicPrefix (self w) = PStr prefix ->
     (msgRate (self w) !! status_topic prefix twcid key = None \/
      exists last,
        msgRate (self w) !! status_topic prefix twcid key = Some last /\
        ~ (now - last < msgRatePerTopic (self w))%Q) ->
     connectionState (self w) = 0 ->
     (forall c, tr c = None) ->
     connectionState (self (snd (setStatus twcid key value now now' tr w))) = 1 /\
     exists new,
       out (snd (setStatus twcid key value now now' tr w)) = out w ++ new /\
       In (Call (connect_async (brokerIP (self w)) (brokerPort (self w)) 30)) new)
  /\
  (forall rc tr w,
     (forall m, In m (msgQueue (self w)) ->
                tr (publish (topic m) (payload m)) = None) ->
     tr loop_stop = None ->
     connectionState (self (snd (on_event (connack rc) tr w))) = 0)
  /\
  (forall e tr w, on_event (connect_failed e) tr w = (Returns tt, w))
  /\
  (forall twcid key value now now' tr w,
     connectionState (self w) <> 0 ->
     connectionState (self (snd (setStatus twcid key value now now' tr w))) =
     connectionState (self w))
  /\
  (forall a tr w,
     connectionState (self w) <> 0 ->
     connectionState (self (act a tr w)) <> connectionState (self w) ->
     exists rc, a = TransportEvent (connack rc)).
Proof.
  assert (forall twcid key value now now' tr w,
            connectionState (self w) <> 0 ->
            connectionState (self (snd (setStatus twcid key value now now' tr w))) =
            connectionState (self w)) as Hkeep.
  { intros twcid key value now now' tr w Hne.
    destruct (setStatus_cases twcid key value now now' tr w)
      as [->|[->|[->|(r & c & o' & t & prefix & _ & -> & Hc & _)]]];
      try reflexivity.
    cbn [snd self connectionState set_connectionState].
    apply Hc, Hne. }
  split; [|split; [|split; [|split; [|split]]]].
  - intros twcid key value now now' tr w e H0 Hraise.
    destruct (setStatus_cases twcid key value now now' tr w)
      as [->|[->|[->|(r & c & o' & t & prefix & _ & -> & _ & Hc & _)]]]; auto.
    cbn [snd self connectionState set_connectionState].
    apply Hc; [exact H0|congruence].
  - intros twcid key value now now' tr w prefix Hen Hp Hfree H0 Hq.
    rewrite (setStatus_run _ _ _ _ _ _ _ prefix Hen Hp).
    destruct Hfree as [->|(last & -> & Hnot)].
    + match goal with
      | |- context [push_and_connect ?t ?v tr ?w'] =>
          destruct (push_and_connect_attempt t v tr w' H0 Hq) as (new & -> & Hin)
      end.
      split; [reflexivity|]. exists new. split; [reflexivity|exact Hin].
    + destruct (Qltb (now - last) (msgRatePerTopic (self w))) eqn:Hlt.
      { apply Qltb_lt in Hlt. contradiction. }
      match goal with
      | |- context [push_and_connect ?t ?v tr ?w'] =>
          destruct (push_and_connect_attempt t v tr w' H0 Hq) as (new & -> & Hin)
      end.
      split; [reflexivity|]. exists new. split; [reflexivity|exact Hin].
  - intros rc tr w Hq Hstop. cbn [on_event].
    destruct (mqttConnected_completes rc tr w Hq Hstop) as (r & o' & ->).
    reflexivity.
  - reflexivity.
  - exact Hkeep.
  - intros [twcid key value now now'|[rc|e]] tr w Hne Hch.
    + exfalso. apply Hch. cbn [act]. apply Hkeep, Hne.
    + exists rc. reflexivity.
    + exfalso. apply Hch. reflexivity.
Qed.

End PublisherProperties.

(** C2. A call that queues its message and starts the connection
    attempt without an exception reaches the end of [setStatus], which
    has no [return] there: the value is None, not True.  (The value is
    True for a rate-limited call and False after an OSError of the
    connect attempt.) *)
Theorem setStatus_returns_None_after_enqueue :
  fst (MQTTStatus.setStatus "id" "power" (PInt 1) 0 0
         PublisherSamples.quiet PublisherSamples.fresh) = Returns PNone /\
  MQTTStatus.msgQueue (MQTTStatus.self PublisherSamples.connecting) =
    [{| MQTTStatus.topic := "TWC/id/power"; MQTTStatus.payload := PInt 1 |}] /\
  fst (MQTTStatus.setStatus "id" "power" (PInt 2) 30 30
         PublisherSamples.quiet PublisherSamples.connecting) = Returns (PBool true) /\
  fst (MQTTStatus.setStatus "id" "power" (PInt 1) 0 0
         PublisherSamples.no_route PublisherSamples.fresh) = Returns (PBool false).
Proof. repeat split; vm_compute; reflexivity. Qed.

(** C6. With two messages queued, when publishing the first one raises
    (its topic contains a wildcard character), the callback ends with
    NameError: the second message is not published, the buffer is not
    cleared, the state stays at 1 and the client is not disconnected. *)
Theorem mqttConnected_publish_failure_ends_drain :
  MQTTStatus.mqttConnected 0 PublisherSamples.refuses_wildcards
    PublisherSamples.two_queued =
  (Raises NameError,
   {| MQTTStatus.self :=
        MQTTStatus.set_msgQueue []
          (MQTTStatus.set_msgQueueBuffer
             (MQTTStatus.msgQueue (MQTTStatus.self PublisherSamples.two_queued))
             (MQTTStatus.self PublisherSamples.two_queued));
      MQTTStatus.out := [] |})
  /\
  MQTTStatus.connectionState
    (MQTTStatus.self
       (PublisherSamples.after (MQTTStatus.mqttConnected 0)
          PublisherSamples.refuses_wildcards PublisherSamples.two_queued)) = 1
  /\
  MQTTStatus.out
    (PublisherSamples.after (MQTTStatus.mqttConnected 0)
       PublisherSamples.quiet PublisherSamples.two_queued) =
  [MQTTStatus.Call (MQTTStatus.publish "TWC/#A/power" (PInt 1));
   MQTTStatus.Call (MQTTStatus.publish "TWC/BC/power" (PInt 2));
   MQTTStatus.Call MQTTStatus.loop_stop;
   MQTTStatus.Call MQTTStatus.disconnect].
Proof. repeat split; vm_compute; reflexivity. Qed.

(** After a connection attempt has failed on the network, the state is
    still 1, and the next status update starts no new attempt: it makes
    no call on a client at all. *)
Lemma failed_attempt_leaves_state_connecting :
  MQTTStatus.connectionState (MQTTStatus.self PublisherSamples.connecting) = 1 /\
  MQTTStatus.connectionState (MQTTStatus.self PublisherSamples.attempt_failed) = 1 /\
  MQTTStatus.connectionState (MQTTStatus.self PublisherSamples.attempt_failed) <> 0 /\
  MQTTStatus.out
    (PublisherSamples.after (MQTTStatus.setStatus "id" "volts" (PInt 2) 1 1)
       PublisherSamples.quiet PublisherSamples.attempt_failed) =
  MQTTStatus.out PublisherSamples.attempt_failed.
Proof. repeat split; vm_compute; (reflexivity || discriminate). Qed.

(** A connect call that raises OSError on a fresh publisher leaves the
    state at 0; the next update of the same topic, once its interval
    has elapsed, connects again; the answer of the broker brings the
    state of a connecting publisher back to 0; and while an attempt
    that failed on the network is pending, an update keeps the state
    at 1 and only the answer of a broker could change it. *)
Lemma connection_state_after_connect_failure_witness :
  MQTTStatus.connectionState (MQTTStatus.self PublisherSamples.refused) = 0
  /\
  (MQTTStatus.connectionState
     (MQTTStatus.self
        (snd (MQTTStatus.setStatus "id" "power" (PInt 2) 61 61
                PublisherSamples.quiet PublisherSamples.refused))) = 1 /\
   exists new,
     MQTTStatus.out
       (snd (MQTTStatus.setStatus "id" "power" (PInt 2) 61 61
               PublisherSamples.quiet PublisherSamples.refused)) =
     MQTTStatus.out PublisherSamples.refused ++ new /\
     In (MQTTStatus.Call (MQTTStatus.connect_async (PStr "192.168.1.2") 1883 30))
        new)
  /\
  MQTTStatus.connectionState
    (MQTTStatus.self
       (snd (MQTTStatus.on_event (MQTTStatus.connack 5)
               PublisherSamples.quiet PublisherSamples.connecting))) = 0
  /\
  MQTTStatus.connectionState
    (MQTTStatus.self
       (snd (MQTTStatus.setStatus "id" "volts" (PInt 2) 1 1
               PublisherSamples.no_route PublisherSamples.attempt_failed))) = 1
  /\
  (forall a tr,
     MQTTStatus.connectionState
       (MQTTStatus.self (act a tr PublisherSamples.attempt_failed)) <> 1 ->
     exists rc, a = TransportEvent (MQTTStatus.connack rc)).
Proof.
  destruct connection_state_after_connect_failure
    as (Hraise & Hagain & Hack & _ & Hkeep & Honly).
  split; [|split; [|split; [|split]]].
  - apply (Hraise "id" "power" (PInt 1) 0%Q 0%Q
             PublisherSamples.no_route PublisherSamples.fresh OSError);
      reflexivity.
  - apply (Hagain "id" "power" (PInt 2) 61%Q 61%Q
             PublisherSamples.quiet PublisherSamples.refused "TWC").
    + reflexivity.
    + reflexivity.
    + right. exists 0%Q. split; [vm_compute; reflexivity|].
      intros Hlt. vm_compute in Hlt. discriminate.
    + vm_compute. reflexivity.
    + reflexivity.
  - apply (Hack 5 PublisherSamples.quiet PublisherSamples.connecting);
      reflexivity.
  - apply (Hkeep "id" "volts" (PInt 2) 1%Q 1%Q
             PublisherSamples.no_route PublisherSamples.attempt_failed).
    vm_compute. discriminate.
  - intros a tr Hch.
    apply (Honly a tr PublisherSamples.attempt_failed);
      [vm_compute; discriminate|exact Hch].
Defined.

(** The second of two calls for one topic within the interval. *)
Lemma setStatus_rate_limit_witness :
  snd (MQTTStatus.setStatus "id" "power" (PInt 2) 59 59
         PublisherSamples.quiet PublisherSamples.connecting) =
  PublisherSamples.connecting.
Proof.
  apply (proj1 (setStatus_rate_limit "id" "power" (PInt 2) 59%Q 59%Q
                  PublisherSamples.quiet PublisherSamples.connecting "TWC"
                  eq_refl eq_refl) 0%Q).
  - vm_compute. reflexivity.
  - reflexivity.
Defined.

(** The twenty-fifth message on a queue of twenty-four. *)
Lemma setStatus_queue_bound_witness :
  (length
     (MQTTStatus.msgQueue
        (MQTTStatus.self
           (snd (MQTTStatus.setStatus "id" "Z" (PInt 0) 0 0 PublisherSamples.quiet
                   (PublisherSamples.publish_keys 0 24 PublisherSamples.fresh)))))
   <= 16 + 8)%nat.
Proof.
  destruct (setStatus_queue_bound "id" "Z" (PInt 0) 0%Q 0%Q PublisherSamples.quiet
              (PublisherSamples.publish_keys 0 24 PublisherSamples.fresh))
    as (_ & _ & _ & _ & H & _).
  apply H; vm_compute; lia.
Defined.


(** * Further properties of the code *)

(** ** Text to integer *)

Lemma is_digit_not_space c : is_digit c = true -> is_space c = false.
Proof.
  unfold is_digit, is_space. cbv zeta.
  rewrite andb_true_iff, !Nat.leb_le. intros [H1 H2].
  destruct (Nat.leb_spec (nat_of_ascii c) 13); [lia|].
  destruct (Nat.eqb_spec (nat_of_ascii c) 32); [lia|].
  destruct (Nat.eqb_spec (nat_of_ascii c) 133); [lia|].
  destruct (Nat.eqb_spec (nat_of_ascii c) 160); [lia|].
  rewrite andb_false_r. reflexivity.
Qed.

Lemma is_digit_not_sign c :
  is_digit c = true -> c <> "+"%char /\ c <> "-"%char /\ c <> "/"%char.
Proof.
  intros H. repeat split; intros ->; vm_compute in H; discriminate.
Qed.

Lemma digit_value_range c : is_digit c = true -> 0 <= digit_value c <= 9.
Proof.
  unfold is_digit, digit_value. cbv zeta.
  rewrite andb_true_iff, !Nat.leb_le. lia.
Qed.

Lemma digits_value_all_digits d : forall acc b,
  all_digits d -> d <> [] ->
  digits_value acc b d =
  Some (fold_left (fun acc c => 10 * acc + digit_value c) d acc).
Proof.
  induction d as [|c d IH]; intros acc b Hd Hne; [congruence|].
  inversion Hd as [|c' d' Hc Hd']; subst. cbn [digits_value fold_left].
  rewrite Hc. destruct d as [|c2 d2]; [reflexivity|].
  apply IH; [exact Hd'|discriminate].
Qed.

Lemma lstrip_spaces pre l : all_spaces pre -> lstrip (pre ++ l) = lstrip l.
Proof.
  induction 1 as [|c pre Hc Hpre IH]; [reflexivity|].
  cbn [app lstrip]. rewrite Hc. exact IH.
Qed.

Lemma lstrip_digits d l : all_digits d -> d <> [] -> lstrip (d ++ l) = d ++ l.
Proof.
  intros Hd Hne. destruct d as [|c d]; [congruence|].
  inversion Hd; subst. cbn [app lstrip].
  rewrite (is_digit_not_space c) by assumption. reflexivity.
Qed.

Lemma all_digits_rev d : all_digits d -> all_digits (rev d).
Proof. apply List.Forall_rev. Qed.

Lemma all_spaces_rev d : all_spaces d -> all_spaces (rev d).
Proof. apply List.Forall_rev. Qed.

Lemma strip_padded_digits pre d post :
  all_spaces pre -> all_digits d -> d <> [] -> all_spaces post ->
  strip (pre ++ d ++ post) = d.
Proof.
  intros Hpre Hd Hne Hpost. unfold strip.
  rewrite (lstrip_spaces pre _ Hpre), (lstrip_digits d post Hd Hne).
  rewrite rev_app_distr, (lstrip_spaces (rev post) _ (all_spaces_rev _ Hpost)).
  rewrite <- (app_nil_r (rev d)), lstrip_digits, app_nil_r.
  - apply rev_involutive.
  - apply all_digits_rev, Hd.
  - intros E. apply (f_equal (@length ascii)) in E. rewrite length_rev in E.
    destruct d; [congruence|discriminate].
Qed.

Lemma filter_all_digits d : all_digits d -> List.filter is_digit d = d.
Proof.
  induction 1 as [|c d Hc Hd IH]; [reflexivity|].
  cbn [List.filter]. rewrite Hc, IH. reflexivity.
Qed.

Lemma unsigned_literal_digits d :
  all_digits d -> d <> [] -> (length d <= max_str_digits)%nat ->
  unsigned_literal d = Some (decimal_value d).
Proof.
  intros Hd Hne Hlen. unfold unsigned_literal.
  rewrite (filter_all_digits d Hd).
  destruct (Nat.ltb_spec max_str_digits (length d)); [lia|].
  apply digits_value_all_digits; assumption.
Qed.

(** A run of digits within the limit of [int], with white space around
    it or without, reads as the number it denotes. *)
Lemma int_of_chars_padded_digits pre d post :
  all_spaces pre -> all_digits d -> d <> [] -> (length d <= max_str_digits)%nat ->
  all_spaces post ->
  int_of_chars (pre ++ d ++ post) = Some (decimal_value d).
Proof.
  intros Hpre Hd Hne Hlen Hpost. unfold int_of_chars.
  rewrite (strip_padded_digits pre d post Hpre Hd Hne Hpost).
  destruct d as [|c d']; [congruence|].
  assert (Hc : is_digit c = true) by (inversion Hd; assumption).
  destruct (is_digit_not_sign c Hc) as (Hplus & Hminus & _).
  assert (Hgen : unsigned_literal (c :: d') = Some (decimal_value (c :: d')))
    by (apply unsigned_literal_digits; [exact Hd|discriminate|exact Hlen]).
  destruct c as [[] [] [] [] [] [] [] []]; try exact Hgen; congruence.
Qed.

Lemma int_of_chars_digits d :
  all_digits d -> d <> [] -> (length d <= max_str_digits)%nat ->
  int_of_chars d = Some (decimal_value d).
Proof.
  intros Hd Hne Hlen.
  pose proof (int_of_chars_padded_digits [] d [] (List.Forall_nil _) Hd Hne Hlen
                (List.Forall_nil _)) as H.
  rewrite app_nil_r in H. exact H.
Qed.

Lemma fold_decimal d : forall acc,
  fold_left (fun acc c => 10 * acc + digit_value c) d acc =
  acc * 10 ^ Z.of_nat (length d) + decimal_value d.
Proof.
  unfold decimal_value.
  induction d as [|c d IH]; intros acc; cbn [fold_left length].
  - rewrite Z.pow_0_r. lia.
  - rewrite IH, (IH (10 * 0 + digit_value c)).
    rewrite Nat2Z.inj_succ, Z.pow_succ_r by lia. lia.
Qed.

Lemma decimal_value_bound d :
  all_digits d -> 0 <= decimal_value d < 10 ^ Z.of_nat (length d).
Proof.
  induction 1 as [|c d Hc Hd IH].
  - cbn. lia.
  - unfold decimal_value. cbn [fold_left length]. rewrite fold_decimal.
    rewrite Nat2Z.inj_succ, Z.pow_succ_r by lia.
    pose proof (digit_value_range c Hc).
    assert (0 < 10 ^ Z.of_nat (length d)) by (apply Z.pow_pos_nonneg; lia).
    nia.
Qed.

(** ** The validators *)

(** X1. [is_valid_port] on a text made of decimal digits, at most 4300
    of them (the limit of [int]), with white space before or after it or
    without: the call does not raise and returns True exactly when the
    number the digits denote lies strictly between 0 and 65536.  White
    space is what [int] skips: tab to carriage return, the space, NEL
    and the no-break space. *)
Theorem is_valid_port_digit_text pre d post :
  all_spaces pre -> all_digits d -> d <> [] -> (length d <= max_str_digits)%nat ->
  all_spaces post ->
  is_valid_port (PStr (string_of_list_ascii (pre ++ d ++ post))) =
  Returns (in_port_range (decimal_value d)).
Proof.
  intros Hpre Hd Hne Hlen Hpost.
  rewrite is_valid_port_str.
  - rewrite list_ascii_of_string_of_list_ascii.
    rewrite (int_of_chars_padded_digits pre d post Hpre Hd Hne Hlen Hpost).
    reflexivity.
  - intros E. apply (f_equal list_ascii_of_string) in E.
    rewrite list_ascii_of_string_of_list_ascii in E. cbn in E.
    destruct pre; destruct d; try congruence; discriminate.
Qed.

Lemma is_valid_port_digit_text_witness :
  is_valid_port (PStr " 8080 ") = Returns true.
Proof.
  apply (is_valid_port_digit_text
           (list_ascii_of_string " ") (list_ascii_of_string "8080")
           (list_ascii_of_string " ")).
  - repeat constructor.
  - repeat constructor.
  - discriminate.
  - unfold max_str_digits. cbn [length list_ascii_of_string]. lia.
  - repeat constructor.
Defined.

(** X2. [is_knx_address] raises exactly on the values that count as
    true and are no text, an integer other than 0 and True, and the
    exception is then the TypeError of [re.match]. *)
Theorem is_knx_address_raises_iff v :
  (is_knx_address v = Raises TypeError <->
   (exists z, v = PInt z /\ z <> 0) \/ v = PBool true) /\
  (raised (is_knx_address v) = true -> is_knx_address v = Raises TypeError).
Proof.
  destruct v as [|[|]|z|s]; cbn.
  - split; [split; [discriminate|]|discriminate].
    intros [(z & H & _)|H]; discriminate.
  - split; [split; [auto|reflexivity]|reflexivity].
  - split; [split; [discriminate|]|discriminate].
    intros [(z & H & _)|H]; discriminate.
  - unfold is_knx_address. cbn. destruct (Z.eqb_spec z 0) as [->|Hz]; cbn.
    + split; [split; [discriminate|]|discriminate].
      intros [(z & H & Hz)|H]; [|discriminate]. inversion H. congruence.
    + split; [split; [eauto|reflexivity]|reflexivity].
  - rewrite is_knx_address_str.
    split; [split; [discriminate|]|discriminate].
    intros [(z & H & _)|H]; discriminate.
Qed.

Lemma list_ascii_of_string_app s t :
  list_ascii_of_string (s ++ t)%string =
  list_ascii_of_string s ++ list_ascii_of_string t.
Proof.
  induction s as [|c s IH]; [reflexivity|].
  simpl. f_equal. exact IH.
Qed.

Lemma is_knx_address_true_iff s :
  is_knx_address (PStr s) = Returns true <-> starts_with_knx_triple s.
Proof.
  rewrite is_knx_address_str, <- re_match_knx_pattern.
  destruct (re_match knx_pattern s) as [r|]; split.
  - eauto.
  - reflexivity.
  - discriminate.
  - intros (r & H). discriminate.
Qed.

(** X3. A text [is_knx_address] accepts is still accepted with any text
    appended to it. *)
Theorem is_knx_address_extension s t :
  is_knx_address (PStr s) = Returns true ->
  is_knx_address (PStr (s ++ t)%string) = Returns true.
Proof.
  rewrite !is_knx_address_true_iff. unfold starts_with_knx_triple.
  intros (a & b & c & rest & Hs & Ha & Hb & Hc).
  exists a, b, c, (rest ++ list_ascii_of_string t).
  split; [|auto].
  rewrite list_ascii_of_string_app, Hs.
  repeat (rewrite <- ?app_assoc; cbn [app]). reflexivity.
Qed.

Lemma is_knx_address_extension_witness :
  is_knx_address (PStr ("1/1/11" ++ "/4/5 and more")%string) = Returns true.
Proof. apply is_knx_address_extension. vm_compute. reflexivity. Defined.

(** ** Splitting and the group address *)

Lemma split_on_not_nil sep s : KNXControl.split_on sep s <> [].
Proof.
  destruct s as [|c s]; cbn; [discriminate|].
  destruct (Ascii.eqb c sep); [discriminate|].
  destruct (KNXControl.split_on sep s); discriminate.
Qed.

Lemma split_on_cons_other sep c s :
  c <> sep ->
  exists w ws, KNXControl.split_on sep s = w :: ws /\ KNXControl.split_on sep (c :: s) = (c :: w) :: ws.
Proof.
  intros Hne. cbn [KNXControl.split_on].
  destruct (Ascii.eqb_spec c sep) as [->|_]; [congruence|].
  destruct (KNXControl.split_on sep s) as [|w ws] eqn:E.
  - destruct (split_on_not_nil sep s E).
  - eauto.
Qed.

(** X4. The split of [group_address_from_string]: joining the parts with
    the separator gives the text back, no part contains the separator,
    and there is one part more than there are separators. *)
Theorem split_on_join sep s :
  join sep (KNXControl.split_on sep s) = s /\
  Forall (fun part => ~ In sep part) (KNXControl.split_on sep s) /\
  length (KNXControl.split_on sep s) = S (count_occ ascii_dec s sep).
Proof.
  induction s as [|c s (IHj & IHf & IHl)].
  - cbn. repeat split. repeat constructor. intros [].
  - destruct (Ascii.eqb_spec c sep) as [->|Hne].
    + cbn [KNXControl.split_on]. rewrite Ascii.eqb_refl.
      cbn [length count_occ]. destruct (ascii_dec sep sep); [|congruence].
      repeat split.
      * pose proof (split_on_not_nil sep s) as Hnn.
        cbn [join]. destruct (KNXControl.split_on sep s) as [|w ws]; [congruence|].
        cbn [app]. rewrite IHj. reflexivity.
      * constructor; [intros []|exact IHf].
      * rewrite IHl. reflexivity.
    + destruct (split_on_cons_other sep c s Hne) as (w & ws & E & ->).
      rewrite E in *. cbn [length count_occ].
      destruct (ascii_dec c sep); [congruence|].
      repeat split.
      * cbn [join] in *. destruct ws; cbn [app]; rewrite IHj; reflexivity.
      * inversion IHf; subst. constructor; [|assumption].
        intros [H|H]; [congruence|contradiction].
      * exact IHl.
Qed.

Lemma split_on_length sep s :
  length (KNXControl.split_on sep s) = S (count_occ ascii_dec s sep).
Proof.
  induction s as [|c s IH]; [reflexivity|].
  cbn [count_occ]. destruct (ascii_dec c sep) as [->|Hne].
  - cbn [KNXControl.split_on]. rewrite Ascii.eqb_refl. cbn [length]. rewrite IH.
    reflexivity.
  - destruct (split_on_cons_other sep c s Hne) as (w & ws & E & ->).
    rewrite E in IH. exact IH.
Qed.

Lemma split_on_no_sep sep s : ~ In sep s -> KNXControl.split_on sep s = [s].
Proof.
  induction s as [|c s IH]; intros Hn; [reflexivity|].
  assert (c <> sep) by (intros ->; apply Hn; left; reflexivity).
  destruct (split_on_cons_other sep c s) as (w & ws & E & ->); [assumption|].
  rewrite IH in E by (intros Hin; apply Hn; right; exact Hin).
  inversion E. reflexivity.
Qed.

Lemma split_on_app_sep sep a rest :
  ~ In sep a -> KNXControl.split_on sep (a ++ sep :: rest) = a :: KNXControl.split_on sep rest.
Proof.
  induction a as [|c a IH]; intros Hn.
  - cbn [app KNXControl.split_on]. rewrite Ascii.eqb_refl. reflexivity.
  - assert (c <> sep) by (intros ->; apply Hn; left; reflexivity).
    cbn [app].
    destruct (split_on_cons_other sep c (a ++ sep :: rest)) as (w & ws & E & ->);
      [assumption|].
    rewrite IH in E by (intros Hin; apply Hn; right; exact Hin).
    inversion E. reflexivity.
Qed.

Lemma all_digits_no_slash d : all_digits d -> ~ In "/"%char d.
Proof.
  intros Hd Hin. unfold all_digits in Hd. rewrite List.Forall_forall in Hd.
  specialize (Hd _ Hin). vm_compute in Hd. discriminate.
Qed.

Lemma digit_run_nonempty d : digit_run d -> all_digits d /\ d <> [].
Proof.
  intros [[Hlo Hhi] Hd]. split; [exact Hd|].
  intros ->. cbn in Hlo. lia.
Qed.

(** X5. A text of three runs of one to three digits with slashes between
    them is accepted by [is_knx_address] and converted by
    [group_address_from_string] to the three numbers, each below 1000. *)
Theorem group_address_from_string_triple a b c :
  digit_run a -> digit_run b -> digit_run c ->
  let s := string_of_list_ascii (a ++ "/"%char :: b ++ "/"%char :: c) in
  is_knx_address (PStr s) = Returns true /\
  KNXControl.group_address_from_string s =
    Returns {| KNXControl.main := decimal_value a;
               KNXControl.middle := decimal_value b;
               KNXControl.sub := decimal_value c |} /\
  0 <= decimal_value a < 1000 /\
  0 <= decimal_value b < 1000 /\
  0 <= decimal_value c < 1000.
Proof.
  intros Ha Hb Hc s. subst s.
  destruct (digit_run_nonempty a Ha) as [Hda Hna].
  destruct (digit_run_nonempty b Hb) as [Hdb Hnb].
  destruct (digit_run_nonempty c Hc) as [Hdc Hnc].
  split; [|split].
  - apply is_knx_address_true_iff. exists a, b, c, [].
    rewrite list_ascii_of_string_of_list_ascii, app_nil_r. auto.
  - unfold KNXControl.group_address_from_string.
    rewrite list_ascii_of_string_of_list_ascii.
    rewrite (split_on_app_sep _ a) by (apply all_digits_no_slash, Hda).
    rewrite (split_on_app_sep _ b) by (apply all_digits_no_slash, Hdb).
    rewrite (split_on_no_sep _ c) by (apply all_digits_no_slash, Hdc).
    cbn [KNXControl.ints_of].
    rewrite !int_of_chars_digits
      by (try assumption;
          match goal with
          | |- (length ?d <= max_str_digits)%nat =>
              match goal with
              | H : digit_run d |- _ => destruct H as [[_ Hhi] _];
                                        unfold max_str_digits; lia
              end
          end).
    reflexivity.
  - assert (Hbound : forall d, digit_run d -> 0 <= decimal_value d < 1000).
    { intros d [[Hlo Hhi] Hd]. pose proof (decimal_value_bound d Hd) as Hb'.
      assert (10 ^ Z.of_nat (length d) <= 10 ^ 3)
        by (apply Z.pow_le_mono_r; lia).
      lia. }
    auto.
Qed.

Lemma group_address_from_string_triple_witness :
  KNXControl.group_address_from_string "1/1/11" =
  Returns {| KNXControl.main := 1; KNXControl.middle := 1; KNXControl.sub := 11 |}.
Proof.
  apply (group_address_from_string_triple
           (list_ascii_of_string "1") (list_ascii_of_string "1")
           (list_ascii_of_string "11"));
    (split; [cbn; lia|repeat constructor]).
Defined.

Lemma ints_of_outcome parts :
  (exists ns, KNXControl.ints_of parts = Returns ns /\
              length ns = length parts /\
              Forall2 (fun p n => int_of_chars p = Some n) parts ns)
  \/ (KNXControl.ints_of parts = Raises ValueError /\
      Exists (fun p => int_of_chars p = None) parts).
Proof.
  induction parts as [|p ps IH].
  - left. exists []. repeat split. constructor.
  - cbn [KNXControl.ints_of]. destruct (int_of_chars p) as [n|] eqn:E.
    + destruct IH as [(ns & -> & Hlen & Hall)|[-> Hex]].
      * left. exists (n :: ns). cbn. repeat split; [congruence|].
        constructor; assumption.
      * right. split; [reflexivity|]. apply Exists_cons_tl, Hex.
    + right. split; [reflexivity|]. apply Exists_cons_hd, E.
Qed.

Lemma Forall2_Some_not_Exists_None parts ns :
  Forall2 (fun p n => int_of_chars p = Some n) parts ns ->
  ~ Exists (fun p => int_of_chars p = None) parts.
Proof.
  induction 1 as [|p n ps ns Hp Hps IH]; intros Hex; inversion Hex; subst.
  - congruence.
  - contradiction.
Qed.

Lemma group_address_from_string_cases s :
  let parts := KNXControl.split_on "/" (list_ascii_of_string s) in
  (KNXControl.group_address_from_string s = Raises ValueError <->
   Exists (fun p => int_of_chars p = None) parts)
  /\
  (KNXControl.group_address_from_string s = Raises TypeError <->
   ~ Exists (fun p => int_of_chars p = None) parts /\
   count_occ ascii_dec (list_ascii_of_string s) "/"%char <> 2%nat)
  /\
  (forall g,
     KNXControl.group_address_from_string s = Returns g <->
     exists a b c,
       parts = [a; b; c] /\
       int_of_chars a = Some (KNXControl.main g) /\
       int_of_chars b = Some (KNXControl.middle g) /\
       int_of_chars c = Some (KNXControl.sub g))
  /\
  (forall e,
     KNXControl.group_address_from_string s = Raises e ->
     e = ValueError \/ e = TypeError).
Proof.
  cbv zeta. unfold KNXControl.group_address_from_string.
  pose proof (split_on_length "/"%char (list_ascii_of_string s)) as Hl0.
  remember (KNXControl.split_on "/" (list_ascii_of_string s)) as parts eqn:Eparts.
  clear Eparts.
  destruct (ints_of_outcome parts) as [(ns & -> & Hl & Hall)|[-> Hex]]; cbn [bind].
  - pose proof (Forall2_Some_not_Exists_None parts ns Hall) as Hnone.
    destruct ns as [|a [|b [|c [|d ns]]]].
    1,2,3,5: (split; [split; [discriminate|contradiction]|]);
             (split; [split; [intros _; split; [exact Hnone|cbn in Hl; lia]|reflexivity]|]);
             (split; [|intros e He; inversion He; auto]);
             intros g; (split; [discriminate|]);
             intros (a' & b' & c' & Hp & _); rewrite Hp in Hl; cbn in Hl; lia.
    split; [split; [discriminate|contradiction]|].
    split; [split; [discriminate|]|].
    { intros [_ Hc]. cbn in Hl. lia. }
    split; [|discriminate].
    intros g.
    inversion Hall as [|pa na ps1 ns1 Ha H1]; subst.
    inversion H1 as [|pb nb ps2 ns2 Hb H2]; subst.
    inversion H2 as [|pc nc ps3 ns3 Hc H3]; subst.
    inversion H3; subst.
    split.
    + intros Hg. inversion Hg; subst. exists pa, pb, pc. cbn. auto.
    + intros (a' & b' & c' & Hp & Ha' & Hb' & Hc').
      inversion Hp; subst. destruct g as [g1 g2 g3]. cbn in *. congruence.
  - split; [split; [intros _; exact Hex|reflexivity]|].
    split; [split; [discriminate|intros [Hn _]; contradiction]|].
    split; [|intros e He; inversion He; auto].
    intros g. split; [discriminate|].
    intros (a & b & c & Hp & Ha & Hb & Hc). rewrite Hp in Hex.
    inversion Hex as [? ? H|? ? H]; subst; [congruence|].
    inversion H as [? ? H'|? ? H']; subst; [congruence|].
    inversion H' as [? ? H''|? ? H'']; subst; [congruence|]. inversion H''.
Qed.

(** X6. Over texts of code points below 256,
    [group_address_from_string] raises ValueError exactly when a part
    between the slashes is no integer literal, TypeError exactly when
    all parts are integer literals and the text does not hold two
    slashes, and nothing else; it returns an address exactly when there
    are three parts, whose values are the components.  An integer
    literal is what [int] converts, white space as [int] skips it: a
    part that ends in the unit separator 0x1F is none, a part between
    NEL and a no-break space is one. *)
Theorem group_address_from_string_outcome :
  (forall s,
     let parts := KNXControl.split_on "/" (list_ascii_of_string s) in
     (KNXControl.group_address_from_string s = Raises ValueError <->
      Exists (fun p => int_of_chars p = None) parts)
     /\
     (KNXControl.group_address_from_string s = Raises TypeError <->
      ~ Exists (fun p => int_of_chars p = None) parts /\
      count_occ ascii_dec (list_ascii_of_string s) "/"%char <> 2%nat)
     /\
     (forall g,
        KNXControl.group_address_from_string s = Returns g <->
        exists a b c,
          parts = [a; b; c] /\
          int_of_chars a = Some (KNXControl.main g) /\
          int_of_chars b = Some (KNXControl.middle g) /\
          int_of_chars c = Some (KNXControl.sub g))
     /\
     (forall e,
        KNXControl.group_address_from_string s = Raises e ->
        e = ValueError \/ e = TypeError))
  /\
  KNXControl.group_address_from_string
    (String.append "1/1/" TextSamples.eleven_then_separator) = Raises ValueError
  /\
  KNXControl.group_address_from_string
    (String.append "1/1/" TextSamples.nel_11_nbsp) =
  Returns {| KNXControl.main := 1; KNXControl.middle := 1; KNXControl.sub := 11 |}.
Proof.
  split; [exact group_address_from_string_cases|].
  split; vm_compute; reflexivity.
Qed.

(** ** Startup of the listener, continued *)

Section StartupFurther.

Import KNXControl.

Variable ip_address : pyval -> bool.

Lemma is_properly_configured_true_log (s : settings) :
  snd (is_properly_configured ip_address s) = Returns true ->
  fst (is_properly_configured ip_address s) = [].
Proof.
  unfold is_properly_configured.
  destruct (ip_address (cfg_gatewayIP s)); cbn [negb]; [|discriminate].
  destruct (is_valid_port (cfg_gatewayPort s)) as [[|]|e1]; try discriminate.
  destruct (is_knx_address (cfg_chargeNowRateAddress s)) as [[|]|e2];
    try discriminate. reflexivity.
Qed.

(** X7. [is_properly_configured] checks the gateway IP first: with a bad
    IP it returns False after one log line, whatever the port is, even
    one that [is_valid_port] would raise on.  It logs nothing when it
    returns True, exactly one line when it returns False, and nothing
    when it raises, which it does only through [is_valid_port] or, with
    a valid port, through [is_knx_address]. *)
Theorem is_properly_configured_order (s : settings) :
  (ip_address (cfg_gatewayIP s) = false ->
   is_properly_configured ip_address s =
     ([debugLog 1 "gatewayIP is not a correct IP address."], Returns false))
  /\
  (snd (is_properly_configured ip_address s) = Returns true ->
   fst (is_properly_configured ip_address s) = [])
  /\
  (snd (is_properly_configured ip_address s) = Returns false ->
   exists message, fst (is_properly_configured ip_address s) = [debugLog 1 message])
  /\
  (forall e,
     snd (is_properly_configured ip_address s) = Raises e ->
     fst (is_properly_configured ip_address s) = [] /\
     ip_address (cfg_gatewayIP s) = true /\
     (is_valid_port (cfg_gatewayPort s) = Raises e \/
      is_valid_port (cfg_gatewayPort s) = Returns true /\
      is_knx_address (cfg_chargeNowRateAddress s) = Raises e)).
Proof.
  unfold is_properly_configured.
  destruct (ip_address (cfg_gatewayIP s)); cbn [negb].
  2: { repeat split; try discriminate; eauto. }
  destruct (is_valid_port (cfg_gatewayPort s)) as [[|]|e1]; cbn [fst snd].
  2,3: repeat split; try discriminate; eauto;
       intros e He; inversion He; subst; repeat split; auto.
  destruct (is_knx_address (cfg_chargeNowRateAddress s)) as [[|]|e2]; cbn [fst snd];
    repeat split; try discriminate; eauto;
    intros e He; inversion He; subst; repeat split; auto.
Qed.

(** X8. The constructor releases the module and returns without a
    listener exactly when the enabled entry is missing or false; nothing
    else of the configuration is looked at then. *)
Theorem init_disabled (configKnx : gmap string pyval) :
  truthy (dict_get configKnx "enabled" (PBool false)) = false <->
  init ip_address configKnx =
    ([releaseModule "lib.TWCManager.Control" "KNXControl"], Returns Unloaded).
Proof.
  unfold init. cbv zeta. cbn [cfg_status].
  destruct (truthy (dict_get configKnx "enabled" (PBool false))); cbn [negb].
  - split; [discriminate|].
    match goal with
    | |- context [is_properly_configured ip_address ?s] =>
        destruct (is_properly_configured ip_address s) as [log [[|]|e]]
    end; try discriminate.
    intros H. inversion H as [[Hlog Hres]].
    destruct (convert_if_knx_address _) as [r|e]; cbn [bind] in Hres; [|discriminate].
    destruct (convert_if_knx_address _) as [d|e]; cbn [bind] in Hres; discriminate.
  - split; reflexivity.
Qed.

Lemma init_enabled (configKnx : gmap string pyval) :
  truthy (dict_get configKnx "enabled" (PBool false)) = true ->
  init ip_address configKnx =
    let self :=
      {| cfg_gatewayIP := dict_get configKnx "gatewayIP" PNone;
         cfg_gatewayPort := dict_get configKnx "gatewayPort" PNone;
         cfg_chargeNowDurationAddress := dict_get configKnx "chargeNowDurationAddress" PNone;
         cfg_chargeNowRateAddress := dict_get configKnx "chargeNowRateAddress" PNone;
         cfg_chargeNowDuration := dict_get configKnx "chargeNowDurationDefault" PNone;
         cfg_status := dict_get configKnx "enabled" (PBool false) |} in
    match is_properly_configured ip_address self with
    | (log, Raises e) => (log, Raises e)
    | (log, Returns false) => (log, Raises RuntimeError)
    | (log, Returns true) =>
        (log,
         do rate <- convert_if_knx_address (cfg_chargeNowRateAddress self);
         do duration <- convert_if_knx_address (cfg_chargeNowDurationAddress self);
         Returns (Started
           {| gatewayIP := cfg_gatewayIP self;
              gatewayPort := cfg_gatewayPort self;
              chargeNowDurationAddress := duration;
              chargeNowRateAddress := rate;
              chargeNowDuration := cfg_chargeNowDuration self |}))
    end.
Proof.
  intros Hen. unfold init. cbv zeta. cbn [cfg_status]. rewrite Hen. reflexivity.
Qed.

Lemma convert_if_knx_address_outcome a r :
  convert_if_knx_address a = Returns r ->
  (is_knx_address a = Returns false /\ r = Unconverted a) \/
  (exists s g, a = PStr s /\ is_knx_address a = Returns true /\
               group_address_from_string s = Returns g /\ r = Converted g).
Proof.
  unfold convert_if_knx_address.
  destruct (is_knx_address a) as [[|]|e] eqn:E; cbn [bind]; try discriminate.
  - destruct a as [|b|z|s]; try discriminate.
    destruct (group_address_from_string s) as [g|e] eqn:Eg; cbn [bind]; [|discriminate].
    intros H. inversion H. right. exists s, g. auto.
  - intros H. inversion H. left. auto.
Qed.

(** A listener started with a duration address that is no KNX address
    holds that address as it was configured. *)
Lemma init_started_duration_address (configKnx : gmap string pyval) (l : listener) :
  snd (init ip_address configKnx) = Returns (Started l) ->
  is_knx_address (dict_get configKnx "chargeNowDurationAddress" PNone) = Returns false ->
  chargeNowDurationAddress l =
    Unconverted (dict_get configKnx "chargeNowDurationAddress" PNone).
Proof.
  intros Hst Hdur.
  destruct (truthy (dict_get configKnx "enabled" (PBool false))) eqn:Hen.
  2: { unfold init in Hst. cbv zeta in Hst. cbn [cfg_status] in Hst.
       rewrite Hen in Hst. discriminate. }
  rewrite (init_enabled configKnx Hen) in Hst. cbv zeta in Hst.
  match type of Hst with
  | context [is_properly_configured ip_address ?s] =>
      destruct (is_properly_configured ip_address s) as [log [[|]|e]]
  end; cbn [fst snd cfg_chargeNowRateAddress cfg_chargeNowDurationAddress] in Hst;
    try discriminate.
  destruct (convert_if_knx_address (dict_get configKnx "chargeNowRateAddress" PNone))
    as [r|e]; cbn [bind] in Hst; [|discriminate].
  unfold convert_if_knx_address in Hst. rewrite Hdur in Hst. cbn [bind] in Hst.
  inversion Hst. reflexivity.
Qed.

(** X9. A listener the constructor has started comes from an enabled
    configuration with a valid gateway IP and port, has logged nothing,
    holds the configured gateway and default duration, has its rate
    address converted from the configured text, and has its duration
    address either converted likewise or left as configured because it
    is no KNX address. *)
Theorem init_started (configKnx : gmap string pyval) (l : listener) :
  snd (init ip_address configKnx) = Returns (Started l) ->
  truthy (dict_get configKnx "enabled" (PBool false)) = true /\
  fst (init ip_address configKnx) = [] /\
  ip_address (gatewayIP l) = true /\
  is_valid_port (gatewayPort l) = Returns true /\
  gatewayIP l = dict_get configKnx "gatewayIP" PNone /\
  gatewayPort l = dict_get configKnx "gatewayPort" PNone /\
  chargeNowDuration l = dict_get configKnx "chargeNowDurationDefault" PNone /\
  (exists s g,
     dict_get configKnx "chargeNowRateAddress" PNone = PStr s /\
     group_address_from_string s = Returns g /\
     chargeNowRateAddress l = Converted g) /\
  (chargeNowDurationAddress l =
     Unconverted (dict_get configKnx "chargeNowDurationAddress" PNone) /\
   is_knx_address (dict_get configKnx "chargeNowDurationAddress" PNone) = Returns false
   \/
   exists s g,
     dict_get configKnx "chargeNowDurationAddress" PNone = PStr s /\
     group_address_from_string s = Returns g /\
     chargeNowDurationAddress l = Converted g).
Proof.
  destruct (truthy (dict_get configKnx "enabled" (PBool false))) eqn:Hen.
  2: { unfold init. cbv zeta. cbn [cfg_status]. rewrite Hen. discriminate. }
  rewrite (init_enabled configKnx Hen). cbv zeta.
  match goal with
  | |- context [is_properly_configured ip_address ?s] =>
      pose proof (is_properly_configured_true ip_address s) as Hok;
      pose proof (is_properly_configured_true_log s) as Hlog;
      destruct (is_properly_configured ip_address s) as [log [[|]|e]]
  end; cbn [fst snd cfg_gatewayIP cfg_gatewayPort cfg_chargeNowRateAddress
            cfg_chargeNowDurationAddress cfg_chargeNowDuration] in *;
    try discriminate.
  destruct (proj1 Hok eq_refl) as (Hip & Hport & Hrate).
  destruct (convert_if_knx_address (dict_get configKnx "chargeNowRateAddress" PNone))
    as [r|e] eqn:Er; cbn [bind]; [|discriminate].
  destruct (convert_if_knx_address (dict_get configKnx "chargeNowDurationAddress" PNone))
    as [d|e] eqn:Ed; cbn [bind]; [|discriminate].
  intros H. inversion H; subst l; cbn [gatewayIP gatewayPort chargeNowDuration
    chargeNowRateAddress chargeNowDurationAddress].
  split; [reflexivity|]. split; [exact (Hlog eq_refl)|].
  split; [exact Hip|]. split; [exact Hport|].
  do 3 (split; [reflexivity|]).
  split.
  - destruct (convert_if_knx_address_outcome _ _ Er)
      as [[Hf _]|(s & g & Hs & _ & Hg & ->)]; [congruence|]. eauto.
  - destruct (convert_if_knx_address_outcome _ _ Ed)
      as [[Hf ->]|(s & g & Hs & _ & Hg & ->)]; [left; auto|right; eauto].
Qed.

(** X10. With the configuration otherwise in order, a rate address that
    [is_knx_address] accepts and [group_address_from_string] refuses
    ends the constructor with the exception of the conversion; so does
    such a duration address once the rate address has been converted. *)
Theorem init_conversion_failure (configKnx : gmap string pyval) :
  truthy (dict_get configKnx "enabled" (PBool false)) = true ->
  ip_address (dict_get configKnx "gatewayIP" PNone) = true ->
  is_valid_port (dict_get configKnx "gatewayPort" PNone) = Returns true ->
  forall s,
  dict_get configKnx "chargeNowRateAddress" PNone = PStr s ->
  is_knx_address (PStr s) = Returns true ->
  (forall e,
     group_address_from_string s = Raises e ->
     init ip_address configKnx = ([], Raises e))
  /\
  (forall g s' e,
     group_address_from_string s = Returns g ->
     dict_get configKnx "chargeNowDurationAddress" PNone = PStr s' ->
     is_knx_address (PStr s') = Returns true ->
     group_address_from_string s' = Raises e ->
     init ip_address configKnx = ([], Raises e)).
Proof.
  intros Hen Hip Hport s Hs Hknx.
  rewrite (init_enabled configKnx Hen). cbv zeta.
  match goal with
  | |- context [is_properly_configured ip_address ?st] =>
      pose proof (is_properly_configured_true ip_address st) as Hok;
      pose proof (is_properly_configured_true_log st) as Hlog;
      destruct (is_properly_configured ip_address st) as [log [[|]|e0]]
  end; cbn [fst snd cfg_gatewayIP cfg_gatewayPort cfg_chargeNowRateAddress
            cfg_chargeNowDurationAddress cfg_chargeNowDuration] in *.
  2,3: rewrite Hs in Hok;
       assert (Habs : forall r : result bool, r = Returns true -> r = Returns true)
         by auto;
       destruct Hok as [_ Hok]; specialize (Hok (conj Hip (conj Hport Hknx)));
       discriminate.
  rewrite (Hlog eq_refl). unfold convert_if_knx_address.
  rewrite Hs, Hknx. cbn [bind]. split.
  - intros e He. rewrite He. reflexivity.
  - intros g s' e Hg Hs' Hknx' He'. rewrite Hg, Hs', Hknx'. cbn [bind].
    rewrite He'. reflexivity.
Qed.

End StartupFurther.

Lemma init_conversion_failure_witness :
  KNXControl.init Samples.ipv4_address StartupSamples.trailing_text_config =
  ([], Raises ValueError).
Proof.
  apply (proj1 (init_conversion_failure Samples.ipv4_address
                  StartupSamples.trailing_text_config
                  eq_refl eq_refl eq_refl "1/1/11x" eq_refl eq_refl)).
  vm_compute. reflexivity.
Defined.

Lemma init_started_witness :
  is_valid_port (KNXControl.gatewayPort Samples.docstring_listener) = Returns true.
Proof.
  apply (init_started Samples.ipv4_address Samples.docstring_config
           Samples.docstring_listener).
  vm_compute. reflexivity.
Defined.

(** ** The telegram handler, continued *)

Lemma int_of_float_zero_iff q :
  KNXControl.int_of_float (KNXControl.FFinite q) = Returns 0 <->
  (-1 < q)%Q /\ (q < 1)%Q.
Proof.
  destruct q as [n d]. cbn [KNXControl.int_of_float Qnum Qden].
  unfold Qlt. cbn [Qnum Qden].
  assert (Hq : Z.quot n (Z.pos d) = 0 <-> Z.abs n < Z.abs (Z.pos d))
    by (apply Z.quot_small_iff; lia).
  split.
  - intros H. inversion H as [H0]. apply Hq in H0. lia.
  - intros [H1 H2]. f_equal. apply Hq. lia.
Qed.

Section HandlerFurther.

Import KNXControl.

Variable decode_FLOAT32 : EncodedData -> result pyfloat.
Variable decode_UINT16 : EncodedData -> result Z.

Local Abbreviation handler := (knx_packet_handler decode_FLOAT32 decode_UINT16).

(** X11. For every telegram the handler first writes its two log lines,
    and its session calls are none, or the reset alone, or
    setChargeNowTimeEnd with the stored duration followed by
    setChargeNowAmps with a value other than 0. *)
Theorem knx_packet_handler_session_calls (self : listener) (packet : ReceivedGroupAPDU) :
  (exists rest, fst (handler self packet) = handler_prologue ++ rest) /\
  (session_calls (fst (handler self packet)) = [] \/
   session_calls (fst (handler self packet)) = [resetChargeNowAmps] \/
   exists amps,
     amps <> 0 /\
     session_calls (fst (handler self packet)) =
       [setChargeNowTimeEnd (chargeNowDuration self); setChargeNowAmps amps]).
Proof.
  unfold knx_packet_handler.
  destruct (is_valid_chargenow_cmd packet (chargeNowRateAddress self)).
  - destruct (do v <- payload_value packet; do x <- decode_FLOAT32 v; int_of_float x)
      as [amps|e]; cbn [fst].
    + destruct (Z.eqb_spec amps 0) as [->|Hne]; cbn [fst].
      * split; [eauto|]. right. left. reflexivity.
      * split; [eauto|]. right. right. exists amps. split; [exact Hne|reflexivity].
    + split; [exists []; rewrite app_nil_r; reflexivity|]. left. reflexivity.
  - destruct (is_valid_chargenow_cmd packet (chargeNowDurationAddress self)).
    + destruct (do v <- payload_value packet; decode_UINT16 v) as [d|e]; cbn [fst].
      * destruct (d <=? 0); cbn [fst]; (split; [eauto|]).
        -- right. left. reflexivity.
        -- left. reflexivity.
      * split; [exists []; rewrite app_nil_r; reflexivity|]. left. reflexivity.
    + cbn [fst]. split; [eauto|]. left. reflexivity.
Qed.

(** X12. A telegram the handler returns from leaves the object as it
    was, unless it is a write to the duration address (and not to the
    rate address) of a value above 0: then the stored duration becomes
    that value, no session call is made, and nothing else changes. *)
Theorem knx_packet_handler_frame (self self' : listener) (packet : ReceivedGroupAPDU) :
  snd (handler self packet) = Returns self' ->
  self' = self \/
  exists v duration,
    payload packet = KNXGroupAPDU WRITE v /\
    chargeNowDurationAddress self = Converted (dst packet) /\
    chargeNowRateAddress self <> Converted (dst packet) /\
    decode_UINT16 v = Returns duration /\ 0 < duration /\
    session_calls (fst (handler self packet)) = [] /\
    self' = set_chargeNowDuration self (PInt duration).
Proof.
  destruct (payload packet) as [[] v|] eqn:Hp.
  1,3: rewrite knx_packet_handler_not_write
         by (intros v' Hv'; rewrite Hp in Hv'; discriminate);
       intros H; inversion H; auto.
  2: { rewrite knx_packet_handler_not_write
         by (intros v' Hv'; rewrite Hp in Hv'; discriminate).
       intros H; inversion H; auto. }
  pose proof (is_valid_chargenow_cmd_write packet v (chargeNowRateAddress self) Hp)
    as Hrate.
  pose proof (is_valid_chargenow_cmd_write packet v (chargeNowDurationAddress self) Hp)
    as Hdur.
  unfold knx_packet_handler, payload_value. rewrite Hp. cbn [bind].
  destruct (is_valid_chargenow_cmd packet (chargeNowRateAddress self)) eqn:E1.
  - destruct (do x <- decode_FLOAT32 v; int_of_float x) as [amps|e]; cbn [snd];
      [|discriminate].
    destruct (amps =? 0); cbn [snd]; intros H; inversion H; auto.
  - destruct (is_valid_chargenow_cmd packet (chargeNowDurationAddress self)) eqn:E2.
    + destruct (decode_UINT16 v) as [d|e] eqn:Ed; cbn [snd fst]; [|discriminate].
      destruct (Z.leb_spec d 0) as [Hle|Hgt]; cbn [snd fst];
        intros H; inversion H; auto.
      right. exists v, d. repeat split; auto.
      * apply Hdur. reflexivity.
      * intros Hr. apply Hrate in Hr. congruence.
    + cbn [snd]. intros H; inversion H; auto.
Qed.

(** X13. When the handler ends in an exception, the telegram was a write
    to one of the two addresses whose value could not be decoded, and
    the handler has made no call on the master but its two log lines. *)
Theorem knx_packet_handler_raises (self : listener) (packet : ReceivedGroupAPDU) e :
  snd (handler self packet) = Raises e ->
  fst (handler self packet) = handler_prologue /\
  session_calls (fst (handler self packet)) = [] /\
  exists v,
    payload packet = KNXGroupAPDU WRITE v /\
    (chargeNowRateAddress self = Converted (dst packet) /\
     (do x <- decode_FLOAT32 v; int_of_float x) = Raises e
     \/
     chargeNowRateAddress self <> Converted (dst packet) /\
     chargeNowDurationAddress self = Converted (dst packet) /\
     decode_UINT16 v = Raises e).
Proof.
  destruct (payload packet) as [[] v|] eqn:Hp.
  1,3: rewrite knx_packet_handler_not_write
         by (intros v' Hv'; rewrite Hp in Hv'; discriminate);
       discriminate.
  2: { rewrite knx_packet_handler_not_write
         by (intros v' Hv'; rewrite Hp in Hv'; discriminate). discriminate. }
  pose proof (is_valid_chargenow_cmd_write packet v (chargeNowRateAddress self) Hp)
    as Hrate.
  pose proof (is_valid_chargenow_cmd_write packet v (chargeNowDurationAddress self) Hp)
    as Hdur.
  unfold knx_packet_handler, payload_value. rewrite Hp. cbn [bind].
  destruct (is_valid_chargenow_cmd packet (chargeNowRateAddress self)) eqn:E1.
  - destruct (do x <- decode_FLOAT32 v; int_of_float x) as [amps|e'] eqn:Ex;
      cbn [snd fst].
    + destruct (amps =? 0); discriminate.
    + intros H. inversion H; subst. repeat split. exists v. split; [reflexivity|].
      left. split; [apply Hrate; reflexivity|first [reflexivity|exact Ex]].
  - destruct (is_valid_chargenow_cmd packet (chargeNowDurationAddress self)) eqn:E2.
    + destruct (decode_UINT16 v) as [d|e'] eqn:Ed; cbn [snd fst].
      * destruct (d <=? 0); discriminate.
      * intros H. inversion H; subst. repeat split. exists v. split; [reflexivity|].
        right. repeat split.
        -- intros Hr. apply Hrate in Hr. congruence.
        -- apply Hdur. reflexivity.
        -- first [reflexivity|exact Ed].
    + discriminate.
Qed.

(** X14. After a write of a duration above 0 to the duration address, a
    write of a rate other than 0 to the rate address calls
    setChargeNowTimeEnd with that duration and then setChargeNowAmps. *)
Theorem duration_then_rate (self : listener) (p1 p2 : ReceivedGroupAPDU)
    (v1 v2 : EncodedData) (duration amps : Z) (x : pyfloat) :
  payload p1 = KNXGroupAPDU WRITE v1 ->
  payload p2 = KNXGroupAPDU WRITE v2 ->
  chargeNowDurationAddress self = Converted (dst p1) ->
  chargeNowRateAddress self = Converted (dst p2) ->
  dst p1 <> dst p2 ->
  decode_UINT16 v1 = Returns duration -> 0 < duration ->
  decode_FLOAT32 v2 = Returns x -> int_of_float x = Returns amps -> amps <> 0 ->
  exists self1,
    snd (handler self p1) = Returns self1 /\
    session_calls (fst (handler self p1)) = [] /\
    session_calls (fst (handler self1 p2)) =
      [setChargeNowTimeEnd (PInt duration); setChargeNowAmps amps] /\
    snd (handler self1 p2) = Returns self1.
Proof.
  intros Hp1 Hp2 Hd Hr Hne Hdec Hpos Hx Hamps Hnz.
  exists (set_chargeNowDuration self (PInt duration)).
  assert (E1 : is_valid_chargenow_cmd p1 (chargeNowRateAddress self) = false).
  { destruct (is_valid_chargenow_cmd p1 (chargeNowRateAddress self)) eqn:E; [|reflexivity].
    apply (is_valid_chargenow_cmd_write p1 v1 _ Hp1) in E.
    rewrite Hr in E. inversion E. congruence. }
  assert (E2 : is_valid_chargenow_cmd p1 (chargeNowDurationAddress self) = true)
    by (apply (is_valid_chargenow_cmd_write p1 v1 _ Hp1); exact Hd).
  assert (E3 : is_valid_chargenow_cmd p2 (chargeNowRateAddress self) = true)
    by (apply (is_valid_chargenow_cmd_write p2 v2 _ Hp2); exact Hr).
  unfold knx_packet_handler, payload_value.
  cbn [chargeNowRateAddress chargeNowDurationAddress set_chargeNowDuration
       chargeNowDuration].
  rewrite E1, E2, E3, Hp1, Hp2. cbn [bind]. rewrite Hdec, Hx. cbn [bind].
  rewrite Hamps.
  destruct (Z.leb_spec duration 0) as [Hle|Hgt]; [lia|].
  destruct (Z.eqb_spec amps 0) as [Hz|Hz]; [congruence|].
  repeat split.
Qed.

(** X15. A rate telegram whose decoded value is finite resets the
    session exactly when the value lies strictly between -1 and 1. *)
Theorem rate_below_one_resets (self : listener) (packet : ReceivedGroupAPDU)
    (v : EncodedData) (q : Q) :
  payload packet = KNXGroupAPDU WRITE v ->
  chargeNowRateAddress self = Converted (dst packet) ->
  decode_FLOAT32 v = Returns (FFinite q) ->
  ((-1 < q)%Q /\ (q < 1)%Q <->
   session_calls (fst (handler self packet)) = [resetChargeNowAmps]).
Proof.
  intros Hp Hr Hx.
  assert (E : is_valid_chargenow_cmd packet (chargeNowRateAddress self) = true)
    by (apply (is_valid_chargenow_cmd_write packet v _ Hp); exact Hr).
  rewrite <- int_of_float_zero_iff.
  unfold knx_packet_handler, payload_value. rewrite E, Hp. cbn [bind].
  rewrite Hx. cbn [bind int_of_float].
  destruct (Z.eqb_spec (Qnum q ÷ Z.pos (Qden q)) 0) as [H0|Hn]; cbn [fst].
  - split; [reflexivity|]. intros _. rewrite H0. reflexivity.
  - split; [|discriminate]. intros H. inversion H. contradiction.
Qed.

Lemma unconverted_duration_address_keeps_object (self : listener) v :
  chargeNowDurationAddress self = Unconverted v ->
  forall packet : ReceivedGroupAPDU,
    snd (handler self packet) = Returns self \/
    exists e, snd (handler self packet) = Raises e.
Proof.
  intros Hu packet. unfold knx_packet_handler.
  destruct (is_valid_chargenow_cmd packet (chargeNowRateAddress self)).
  - destruct (do v <- payload_value packet; do x <- decode_FLOAT32 v; int_of_float x)
      as [amps|e]; cbn [snd]; [|eauto].
    destruct (amps =? 0); cbn [snd]; auto.
  - rewrite Hu. cbn [is_valid_chargenow_cmd andb snd]. auto.
Qed.

(** X16. A listener started from a configuration whose duration address
    is no KNX address never changes: every telegram leaves the object as
    it was (or raises), and a telegram not addressed to the rate address
    is logged as no charge-now command. *)
Theorem started_with_malformed_duration_address
    (ip_address : pyval -> bool) (configKnx : gmap string pyval) (l : listener) :
  snd (init ip_address configKnx) = Returns (Started l) ->
  is_knx_address (dict_get configKnx "chargeNowDurationAddress" PNone) = Returns false ->
  forall packet : ReceivedGroupAPDU,
    (snd (handler l packet) = Returns l \/
     exists e, snd (handler l packet) = Raises e) /\
    (chargeNowRateAddress l <> Converted (dst packet) ->
     handler l packet =
       (handler_prologue ++ [debugLog 8 "not a chargeNowRate"], Returns l)).
Proof.
  intros Hst Hdur packet.
  pose proof (init_started_duration_address ip_address configKnx l Hst Hdur) as Hu.
  split; [apply (unconverted_duration_address_keeps_object l _ Hu)|].
  intros Hr. unfold knx_packet_handler. rewrite Hu.
  destruct (is_valid_chargenow_cmd packet (chargeNowRateAddress l)) eqn:E.
  - exfalso. apply Hr. unfold is_valid_chargenow_cmd in E.
    apply andb_true_iff in E as [Ea _].
    destruct (chargeNowRateAddress l) as [raw|g]; [discriminate|].
    apply GroupAddress_eqb_eq in Ea. congruence.
  - reflexivity.
Qed.

End HandlerFurther.

Lemma knx_packet_handler_frame_witness :
  KNXControl.set_chargeNowDuration Samples.docstring_listener (PInt 120) =
    Samples.docstring_listener
  \/
  exists v duration,
    KNXControl.payload Samples.duration_telegram_120 =
      KNXControl.KNXGroupAPDU KNXControl.WRITE v /\
    KNXControl.chargeNowDurationAddress Samples.docstring_listener =
      KNXControl.Converted (KNXControl.dst Samples.duration_telegram_120) /\
    KNXControl.chargeNowRateAddress Samples.docstring_listener <>
      KNXControl.Converted (KNXControl.dst Samples.duration_telegram_120) /\
    KNXControl.unpack_UINT16 v = Returns duration /\ 0 < duration /\
    KNXControl.session_calls
      (fst (KNXControl.knx_packet_handler KNXControl.unpack_FLOAT32
              KNXControl.unpack_UINT16 Samples.docstring_listener
              Samples.duration_telegram_120)) = [] /\
    KNXControl.set_chargeNowDuration Samples.docstring_listener (PInt 120) =
      KNXControl.set_chargeNowDuration Samples.docstring_listener (PInt duration).
Proof.
  apply (knx_packet_handler_frame KNXControl.unpack_FLOAT32 KNXControl.unpack_UINT16).
  vm_compute. reflexivity.
Defined.

Lemma knx_packet_handler_raises_witness :
  fst (KNXControl.knx_packet_handler KNXControl.unpack_FLOAT32
         KNXControl.unpack_UINT16 Samples.docstring_listener
         HandlerSamples.rate_telegram_inf) = KNXControl.handler_prologue.
Proof.
  apply (knx_packet_handler_raises KNXControl.unpack_FLOAT32 KNXControl.unpack_UINT16
           Samples.docstring_listener HandlerSamples.rate_telegram_inf OverflowError).
  vm_compute. reflexivity.
Defined.

Lemma duration_then_rate_witness :
  exists self1,
    snd (KNXControl.knx_packet_handler KNXControl.unpack_FLOAT32
           KNXControl.unpack_UINT16 Samples.docstring_listener
           Samples.duration_telegram_120) = Returns self1 /\
    KNXControl.session_calls
      (fst (KNXControl.knx_packet_handler KNXControl.unpack_FLOAT32
              KNXControl.unpack_UINT16 Samples.docstring_listener
              Samples.duration_telegram_120)) = [] /\
    KNXControl.session_calls
      (fst (KNXControl.knx_packet_handler KNXControl.unpack_FLOAT32
              KNXControl.unpack_UINT16 self1 Samples.rate_telegram_7)) =
      [KNXControl.setChargeNowTimeEnd (PInt 120); KNXControl.setChargeNowAmps 7] /\
    snd (KNXControl.knx_packet_handler KNXControl.unpack_FLOAT32
           KNXControl.unpack_UINT16 self1 Samples.rate_telegram_7) = Returns self1.
Proof.
  eapply (duration_then_rate KNXControl.unpack_FLOAT32 KNXControl.unpack_UINT16
            Samples.docstring_listener Samples.duration_telegram_120
            Samples.rate_telegram_7);
    try reflexivity; try discriminate.
Defined.

Lemma rate_below_one_resets_witness :
  KNXControl.session_calls
    (fst (KNXControl.knx_packet_handler KNXControl.unpack_FLOAT32
            KNXControl.unpack_UINT16 Samples.docstring_listener
            HandlerSamples.rate_telegram_half)) = [KNXControl.resetChargeNowAmps].
Proof.
  apply (proj1 (rate_below_one_resets KNXControl.unpack_FLOAT32 KNXControl.unpack_UINT16
                  Samples.docstring_listener HandlerSamples.rate_telegram_half
                  _ (Qmake 8388608 16777216) eq_refl eq_refl eq_refl)).
  split; reflexivity.
Defined.

Lemma started_with_malformed_duration_address_witness :
  snd (KNXControl.knx_packet_handler KNXControl.unpack_FLOAT32
         KNXControl.unpack_UINT16 HandlerSamples.dotted_duration_listener
         Samples.duration_telegram_120) =
    Returns HandlerSamples.dotted_duration_listener
  \/
  exists e,
    snd (KNXControl.knx_packet_handler KNXControl.unpack_FLOAT32
           KNXControl.unpack_UINT16 HandlerSamples.dotted_duration_listener
           Samples.duration_telegram_120) = Raises e.
Proof.
  apply (started_with_malformed_duration_address
           KNXControl.unpack_FLOAT32 KNXControl.unpack_UINT16
           Samples.ipv4_address Samples.dotted_duration_config
           HandlerSamples.dotted_duration_listener).
  - vm_compute. reflexivity.
  - vm_compute. reflexivity.
Defined.

(** ** The reconnect loop, continued *)

Section ServerLoopFurther.

Import KNXControl.

Variable self : listener.

Lemma resume_expected pt r : Forall (expected_action self) (fst (resume self pt r)).
Proof.
  destruct pt as [| | |secs|e0]; destruct r as [[]|e1]; cbn [resume fst];
    unfold on_exception, next_iteration; try destruct (is_OSError e1); cbn [fst];
    repeat match goal with
           | |- Forall _ (_ :: _) => apply List.Forall_cons
           | |- Forall _ [] => apply List.Forall_nil
           end; cbn; auto.
Qed.

(** X17. In every run of the loop, each connect goes to the configured
    gateway address and port, and each sleep lasts 30 seconds or 1
    second. *)
Theorem knx_server_loop_actions (outcomes : list (result unit)) :
  Forall (expected_action self) (fst (knx_server_loop self outcomes)) /\
  forall pt, Forall (expected_action self) (fst (run_from self pt outcomes)).
Proof.
  assert (Hrun : forall outcomes pt,
            Forall (expected_action self) (fst (run_from self pt outcomes))).
  { clear outcomes. induction outcomes as [|r rest IH]; intros pt; cbn [run_from].
    - constructor.
    - pose proof (resume_expected pt r) as Hr.
      destruct (resume self pt r) as [acts pt']. specialize (IH pt').
      destruct (run_from self pt' rest) as [acts' pt'']. cbn [fst] in *.
      apply Forall_app. split; assumption. }
  split; [|apply Hrun].
  unfold knx_server_loop. cbn [next_iteration].
  specialize (Hrun outcomes AtConnect).
  destruct (run_from self AtConnect outcomes) as [acts pt]. cbn [fst] in *.
  apply Forall_app. split.
  { unfold loop_entry.
    repeat match goal with
           | |- Forall _ (_ :: _) => apply List.Forall_cons
           | |- Forall _ [] => apply List.Forall_nil
           end; cbn; auto. }
  apply Forall_app. split; [|exact Hrun].
  repeat match goal with
         | |- Forall _ (_ :: _) => apply List.Forall_cons
         | |- Forall _ [] => apply List.Forall_nil
         end; cbn; auto.
Qed.

Lemma count_sleeps_app a b : count_sleeps (a ++ b) = (count_sleeps a + count_sleeps b)%nat.
Proof. unfold count_sleeps. rewrite List.filter_app, length_app. reflexivity. Qed.

(** X18. In a run in which no sleep is interrupted, the loop sleeps as
    many times as awaited operations have raised: once after each
    exception and never otherwise (a receive task that returns is
    followed by the next connect at once). *)
Theorem knx_server_loop_sleeps_once_per_exception (outcomes : list (result unit)) :
  sleeps_return self AtConnect outcomes ->
  count_sleeps (fst (knx_server_loop self outcomes)) = count_raises outcomes.
Proof.
  assert (Hrun : forall outcomes pt,
            running pt -> sleeps_return self pt outcomes ->
            count_sleeps (fst (run_from self pt outcomes)) = count_raises outcomes).
  { clear outcomes. induction outcomes as [|r rest IH]; intros pt Hpt Hs;
      [reflexivity|].
    destruct Hs as [Hr Hrest].
    pose proof (resume_running self pt r Hpt Hr) as Hnext.
    cbn [run_from].
    assert (Hone : count_sleeps (fst (resume self pt r)) =
                   if raised r then 1%nat else 0%nat).
    { destruct pt as [| | |secs|e0]; destruct r as [[]|e1]; cbn [resume fst raised];
        unfold on_exception; try destruct (is_OSError e1); try reflexivity.
      all: try (specialize (Hr eq_refl); discriminate).
      all: exfalso; eapply Hpt; reflexivity. }
    destruct (resume self pt r) as [acts pt']. cbn [fst snd] in *.
    specialize (IH pt' Hnext Hrest).
    destruct (run_from self pt' rest) as [acts' pt'']. cbn [fst] in *.
    rewrite count_sleeps_app, Hone, IH. unfold count_raises. cbn [List.filter].
    destruct (raised r); reflexivity. }
  intros Hs. unfold knx_server_loop. cbn [next_iteration].
  specialize (Hrun outcomes AtConnect (fun e H => ltac:(discriminate H)) Hs).
  destruct (run_from self AtConnect outcomes) as [acts pt]. cbn [fst] in *.
  rewrite !count_sleeps_app, Hrun. reflexivity.
Qed.

Lemma run_from_exited outcomes : forall e,
  run_from self (Exited e) outcomes = ([], Exited e).
Proof.
  induction outcomes as [|r rest IH]; intros e; [reflexivity|].
  cbn [run_from resume]. rewrite IH. reflexivity.
Qed.

Lemma resume_exited pt r :
  running pt -> forall e, snd (resume self pt r) = Exited e -> exists e', e = Some e'.
Proof.
  intros Hpt e.
  destruct pt as [| | |secs|e0]; destruct r as [[]|e1]; cbn [resume snd];
    unfold on_exception, next_iteration; try destruct (is_OSError e1); cbn [snd];
    try discriminate.
  all: try (intros H; inversion H; eauto; fail).
  all: exfalso; eapply Hpt; reflexivity.
Qed.

(** X19. The loop is left only with an exception, raised by an
    interrupted sleep, and after that nothing more happens. *)
Theorem knx_server_loop_exit (outcomes : list (result unit)) e :
  snd (knx_server_loop self outcomes) = Exited e ->
  (exists e', e = Some e') /\
  ~ sleeps_return self AtConnect outcomes /\
  forall more,
    knx_server_loop self (outcomes ++ more) = knx_server_loop self outcomes.
Proof.
  assert (Hsome : forall outcomes pt e,
            running pt -> snd (run_from self pt outcomes) = Exited e ->
            exists e', e = Some e').
  { clear outcomes e. induction outcomes as [|r rest IH]; intros pt e Hpt Hex.
    - cbn in Hex. destruct (Hpt e Hex).
    - cbn [run_from] in Hex.
      pose proof (resume_exited pt r Hpt) as Hres.
      destruct (resume self pt r) as [acts pt'].
      destruct (run_from self pt' rest) as [acts' pt''] eqn:E.
      cbn [snd] in *. subst pt''.
      destruct pt' as [| | |secs|e2].
      1-4: eapply IH; [|rewrite E; reflexivity]; intros e' He'; discriminate.
      rewrite run_from_exited in E. inversion E; subst.
      apply (Hres e). reflexivity. }
  intros Hex. unfold knx_server_loop in *. cbn [next_iteration] in *.
  destruct (run_from self AtConnect outcomes) as [acts pt] eqn:E.
  cbn [snd] in Hex. subst pt.
  split; [|split].
  - apply (Hsome outcomes AtConnect e); [intros e' He'; discriminate|].
    rewrite E. reflexivity.
  - intros Hs.
    pose proof (run_from_running self outcomes AtConnect
                  (fun e' He' => ltac:(discriminate He')) Hs) as Hrun.
    rewrite E in Hrun. apply (Hrun e). reflexivity.
  - intros more. rewrite run_from_app, E. cbn [fst snd].
    rewrite run_from_exited. cbn [fst snd]. rewrite app_nil_r. reflexivity.
Qed.

End ServerLoopFurther.

Lemma knx_server_loop_sleeps_once_per_exception_witness :
  count_sleeps
    (fst (KNXControl.knx_server_loop Samples.docstring_listener
            [Returns tt; Returns tt; Returns tt; Returns tt; Raises OtherError;
             Returns tt])) = 1%nat.
Proof.
  apply (knx_server_loop_sleeps_once_per_exception Samples.docstring_listener
           [Returns tt; Returns tt; Returns tt; Returns tt; Raises OtherError;
            Returns tt]).
  cbn. repeat split; intros; try reflexivity; discriminate.
Defined.

Lemma knx_server_loop_exit_witness :
  ~ KNXControl.sleeps_return Samples.docstring_listener KNXControl.AtConnect
      [Raises OSError; Raises OtherError].
Proof.
  apply (proj1 (proj2 (knx_server_loop_exit Samples.docstring_listener
                         [Raises OSError; Raises OtherError] (Some OtherError)
                         eq_refl))).
Defined.

(** ** The status publisher, continued *)

Section PublisherFurther.

Import MQTTStatus.

Lemma client_calls_app a b : client_calls (a ++ b) = client_calls a ++ client_calls b.
Proof. unfold client_calls. apply flat_map_app. Qed.

Lemma debugLog_calls l msg tr w :
  exists o',
    debugLog l msg tr w = (Returns tt, {| self := self w; out := o' |}) /\
    client_calls o' = client_calls (out w).
Proof.
  unfold debugLog, mbind, get, emit, ret. cbn [fst snd].
  destruct (l <=? debugLevel (self w)).
  - eexists. split; [reflexivity|]. rewrite client_calls_app. cbn.
    apply app_nil_r.
  - exists (out w). destruct w; auto.
Qed.

(** A disabled publisher and one without a topic prefix. *)
Lemma setStatus_disabled twcid key value now now' tr w :
  truthy (status (self w)) = false ->
  setStatus twcid key value now now' tr w = (Returns PNone, w).
Proof.
  intros H. unfold setStatus, mbind, get, ret. cbn [fst snd]. rewrite H. reflexivity.
Qed.

Lemma act_disabled a tr w :
  truthy (status (self w)) = false -> is_status_update a = true -> act a tr w = w.
Proof.
  intros H Ha. destruct a; [|discriminate]. cbn [act].
  rewrite setStatus_disabled by exact H. reflexivity.
Qed.

(** X20. A publisher built from a configuration whose enabled entry is
    missing or false ignores status updates: each call returns None and
    any number of them leaves the object unchanged and makes no output. *)
Theorem disabled_publisher_ignores_updates debugLevel' config h :
  truthy (dict_get config "enabled" (PBool false)) = false ->
  Forall (fun step => is_status_update (fst step) = true) h ->
  run_history h {| self := init debugLevel' config; out := [] |} =
  {| self := init debugLevel' config; out := [] |}
  /\
  forall twcid key value now now' tr,
    fst (setStatus twcid key value now now' tr
           {| self := init debugLevel' config; out := [] |}) = Returns PNone.
Proof.
  intros Hdis Hh. split.
  - unfold run_history. induction Hh as [|[a tr] h Ha Hh IH]; [reflexivity|].
    cbn [fold_left fst snd]. rewrite act_disabled; [exact IH|exact Hdis|exact Ha].
  - intros. rewrite setStatus_disabled by exact Hdis. reflexivity.
Qed.

Lemma setStatus_without_prefix_run twcid key value now now' tr w :
  truthy (status (self w)) = true ->
  (forall prefix, topicPrefix (self w) <> PStr prefix) ->
  setStatus twcid key value now now' tr w = (Raises TypeError, w).
Proof.
  intros Hen Hp. unfold setStatus, mbind, get, str_add, raise. cbn [fst snd].
  rewrite Hen. destruct (topicPrefix (self w)) as [|b|z|prefix]; try reflexivity.
  destruct (Hp prefix eq_refl).
Qed.

End PublisherFurther.

Lemma disabled_publisher_ignores_updates_witness :
  run_history
    [(StatusUpdate "id" "power" (PInt 1) 0 0, PublisherSamples.quiet);
     (StatusUpdate "id" "volts" (PInt 2) 1 1, PublisherSamples.quiet)]
    PublisherSamples2.unconfigured = PublisherSamples2.unconfigured.
Proof.
  apply (disabled_publisher_ignores_updates 0 ∅).
  - reflexivity.
  - repeat constructor.
Defined.


Ltac log_calls :=
  match goal with
  | |- context [MQTTStatus.debugLog ?l ?m ?tr ?w] =>
      let o := fresh "o" in
      let E := fresh "E" in
      let Ec := fresh "Ec" in
      destruct (debugLog_calls l m tr w) as (o & E & Ec); rewrite E; clear E;
      cbn [MQTTStatus.self MQTTStatus.out] in *
  end.

Section RateTable.

Import MQTTStatus.

(** The callback changes the queue, the buffer and the connection
    state, and nothing else of the object. *)
Lemma mqttConnected_frame rc tr w :
  exists r w' q b c,
    mqttConnected rc tr w = (r, w') /\
    self w' = set_connectionState c (set_msgQueueBuffer b (set_msgQueue q (self w))).
Proof.
  destruct w as [s o]. destruct s.
  unfold mqttConnected.
  unfold mbind at 1. log_calls.
  unfold mbind at 1. log_calls.
  unfold mbind at 1. unfold modify at 1. cbn [self out].
  unfold mbind at 1. log_calls.
  unfold mbind at 1. unfold modify at 1. cbn [self out].
  unfold mbind at 1. unfold get at 1. cbn [self out msgQueueBuffer set_msgQueue
    set_msgQueueBuffer msgQueue].
  unfold mbind at 1.
  match goal with
  | |- context [for_each ?buf publish_message tr ?w'] =>
      pose proof (drain_self tr buf w') as Hd;
      destruct (for_each buf publish_message tr w') as [[[]|e] [s1 o3]]
  end; cbn [snd self out] in *; subst s1.
  - unfold mbind, call, modify. cbn [self out].
    destruct (tr loop_stop); cbn [snd self out].
    { eexists _, _, [], msgQueue0, connectionState0. split; reflexivity. }
    destruct (tr disconnect); cbn [snd self out];
      (eexists _, _, [], [], 0; split; reflexivity).
  - eexists _, _, [], msgQueue0, connectionState0. split; reflexivity.
Qed.

Lemma setStatus_msgRate twcid key value now now' tr w :
  msgRate (self (snd (setStatus twcid key value now now' tr w))) = msgRate (self w)
  \/ exists prefix t,
       topicPrefix (self w) = PStr prefix /\
       msgRate (self (snd (setStatus twcid key value now now' tr w))) =
         <[status_topic prefix twcid key := t]> (msgRate (self w)).
Proof.
  destruct (setStatus_cases twcid key value now now' tr w)
    as [->|[->|[->|(r & c & o' & t & prefix & Hp & -> & _)]]]; auto.
  right. exists prefix, t. split; [exact Hp|reflexivity].
Qed.

Lemma act_msgRate a tr w t :
  is_Some (msgRate (self w) !! t) -> is_Some (msgRate (self (act a tr w)) !! t).
Proof.
  intros Ht. destruct a as [twcid key value now now'|[rc|e]]; cbn [act on_event].
  - destruct (setStatus_msgRate twcid key value now now' tr w)
      as [->|(prefix & t' & _ & ->)]; [exact Ht|].
    destruct (decide (status_topic prefix twcid key = t)) as [->|Hne].
    + rewrite lookup_insert_eq. eauto.
    + rewrite lookup_insert_ne by exact Hne. exact Ht.
  - destruct (mqttConnected_frame rc tr w) as (r & w' & q & b & c & -> & Hs).
    cbn [snd]. rewrite Hs. exact Ht.
  - exact Ht.
Qed.

(** X21. A status update leaves the recorded time of every other topic
    as it was, and a topic with a recorded time keeps one through every
    history of status updates and transport events. *)
Theorem rate_table_only_grows :
  (forall twcid key value now now' tr w other,
     msgRate (self (snd (setStatus twcid key value now now' tr w))) !! other =
       msgRate (self w) !! other
     \/ exists prefix,
          topicPrefix (self w) = PStr prefix /\
          other = status_topic prefix twcid key)
  /\
  (forall h w t,
     is_Some (msgRate (self w) !! t) ->
     is_Some (msgRate (self (run_history h w)) !! t)).
Proof.
  split.
  - intros twcid key value now now' tr w other.
    destruct (setStatus_msgRate twcid key value now now' tr w)
      as [->|(prefix & t' & Hp & ->)]; [auto|].
    destruct (decide (status_topic prefix twcid key = other)) as [<-|Hne].
    + right. eauto.
    + left. apply lookup_insert_ne, Hne.
  - unfold run_history. induction h as [|[a tr] h IH]; intros w t Ht; [exact Ht|].
    cbn [fold_left fst snd]. apply IH, act_msgRate, Ht.
Qed.

Lemma setStatus_pending twcid key value now now' tr w :
  connectionState (self w) <> 0 ->
  out (snd (setStatus twcid key value now now' tr w)) = out w /\
  connectionState (self (snd (setStatus twcid key value now now' tr w))) =
    connectionState (self w) /\
  (fst (setStatus twcid key value now now' tr w) = Returns PNone \/
   fst (setStatus twcid key value now now' tr w) = Returns (PBool true) \/
   fst (setStatus twcid key value now now' tr w) = Raises TypeError).
Proof.
  intros Hc.
  destruct (truthy (status (self w))) eqn:Hen.
  2: { rewrite setStatus_disabled by exact Hen. auto. }
  destruct (topicPrefix (self w)) as [|b|z|prefix] eqn:Hp.
  1-3: rewrite setStatus_without_prefix_run by
         (try exact Hen; intros prefix; rewrite Hp; discriminate); auto.
  rewrite (setStatus_run _ _ _ _ _ _ _ prefix Hen Hp).
  destruct (msgRate (self w) !! status_topic prefix twcid key) as [last|];
    [destruct (Qltb _ _); [auto|]|];
    match goal with
    | |- context [push_and_connect ?t ?v tr ?w'] =>
        destruct (push_and_connect_run t v tr w') as (r & c & o' & -> & H1 & _);
        destruct (H1 Hc) as (-> & -> & ->)
    end; cbn [fst snd self out connectionState set_connectionState]; auto.
Qed.

(** X22. While the connection state is not 0, status updates make no
    call on a client, print nothing and leave the connection state as it
    is, however many there are. *)
Theorem pending_attempt_makes_no_calls h w :
  connectionState (self w) <> 0 ->
  Forall (fun step => is_status_update (fst step) = true) h ->
  out (run_history h w) = out w /\
  connectionState (self (run_history h w)) = connectionState (self w).
Proof.
  intros Hc Hh. revert w Hc. unfold run_history.
  induction Hh as [|[a tr] h Ha Hh IH]; intros w Hc; [auto|].
  cbn [fold_left fst snd]. destruct a as [twcid key value now now'|ev];
    [|discriminate]. cbn [act].
  destruct (setStatus_pending twcid key value now now' tr w Hc) as (Ho & Hs & _).
  destruct (IH (snd (setStatus twcid key value now now' tr w))) as [IHo IHs].
  - rewrite Hs. exact Hc.
  - rewrite IHo, IHs, Ho, Hs. auto.
Qed.

End RateTable.

Lemma pending_attempt_makes_no_calls_witness :
  MQTTStatus.out
    (run_history
       [(StatusUpdate "id" "volts" (PInt 2) 1 1, PublisherSamples.quiet);
        (StatusUpdate "id" "amps" (PInt 3) 2 2, PublisherSamples.quiet)]
       PublisherSamples.attempt_failed) =
  MQTTStatus.out PublisherSamples.attempt_failed.
Proof.
  apply (pending_attempt_makes_no_calls
           [(StatusUpdate "id" "volts" (PInt 2) 1 1, PublisherSamples.quiet);
            (StatusUpdate "id" "amps" (PInt 3) 2 2, PublisherSamples.quiet)]
           PublisherSamples.attempt_failed).
  - vm_compute. discriminate.
  - repeat constructor.
Defined.

Section ConnectionFurther.

Import MQTTStatus.

(** X23. An enabled publisher built from a configuration without a text
    as topic prefix raises TypeError on every status update and stays as
    it was constructed. *)
Theorem publisher_without_prefix_raises debugLevel' config h :
  truthy (dict_get config "enabled" (PBool false)) = true ->
  (forall prefix, dict_get config "topicPrefix" PNone <> PStr prefix) ->
  Forall (fun step => is_status_update (fst step) = true) h ->
  run_history h {| self := init debugLevel' config; out := [] |} =
  {| self := init debugLevel' config; out := [] |}
  /\
  forall twcid key value now now' tr,
    setStatus twcid key value now now' tr
      {| self := init debugLevel' config; out := [] |} =
    (Raises TypeError, {| self := init debugLevel' config; out := [] |}).
Proof.
  intros Hen Hp Hh.
  assert (Hcall : forall twcid key value now now' tr,
            setStatus twcid key value now now' tr
              {| self := init debugLevel' config; out := [] |} =
            (Raises TypeError, {| self := init debugLevel' config; out := [] |})).
  { intros. apply setStatus_without_prefix_run; [exact Hen|exact Hp]. }
  split; [|exact Hcall].
  unfold run_history. induction Hh as [|[a tr] h Ha Hh IH]; [reflexivity|].
  cbn [fold_left fst snd]. destruct a as [twcid key value now now'|ev];
    [|discriminate]. cbn [act]. rewrite Hcall. exact IH.
Qed.

Lemma setStatus_fresh_run twcid key value now now' tr w prefix :
  truthy (status (self w)) = true ->
  topicPrefix (self w) = PStr prefix ->
  msgRate (self w) !! status_topic prefix twcid key = None ->
  connectionState (self w) = 0 ->
  exists o,
    client_calls o = client_calls (out w) /\
    setStatus twcid key value now now' tr w =
      try_except
        (connect_body
           (pushed
              (set_msgRate (<[status_topic prefix twcid key := now]> (msgRate (self w)))
                 (self w))
              (status_topic prefix twcid key) value))
        connect_handlers tr
        {| self :=
             pushed
               (set_msgRate (<[status_topic prefix twcid key := now]> (msgRate (self w)))
                  (self w))
               (status_topic prefix twcid key) value;
           out := o |}.
Proof.
  intros Hen Hp Hfresh H0.
  rewrite (setStatus_run _ _ _ _ _ _ _ prefix Hen Hp), Hfresh.
  unfold push_and_connect, mbind at 1 2, modify. cbn [fst snd self out].
  rewrite trim_queue_run. cbn [self out].
  unfold establish_connection, mbind, get. cbn [fst snd self out
    connectionState set_msgQueue set_msgRate].
  rewrite H0. cbn [Z.eqb]. log_calls.
  exists o. split; [exact Ec|].
  destruct w as [s o0]; destruct s; reflexivity.
Qed.

Lemma connect_handlers_calls e tr w :
  is_OSError e = true ->
  exists o',
    match connect_handlers e with
    | Some handler => handler tr w
    | None => (Raises e, w)
    end = (Returns (PBool false), {| self := self w; out := o' |}) /\
    client_calls o' = client_calls (out w).
Proof.
  intros He. unfold connect_handlers. rewrite He.
  unfold mbind. log_calls. log_calls. unfold ret.
  eexists. split; [reflexivity|]. congruence.
Qed.






End ConnectionFurther.

Section DrainFurther.

Import MQTTStatus.

Lemma publish_message_returns_calls tr m w :
  tr (publish_of m) = None ->
  exists o',
    publish_message m tr w = (Returns tt, {| self := self w; out := o' |}) /\
    client_calls o' = client_calls (out w) ++ [publish_of m].
Proof.
  unfold publish_of. intros Hq. unfold publish_message, mbind. log_calls.
  unfold try_except, call. rewrite Hq. cbn [self out].
  eexists. split; [reflexivity|]. rewrite client_calls_app, Ec. reflexivity.
Qed.

Lemma publish_message_raises_calls tr m w e :
  tr (publish_of m) = Some e ->
  exists o',
    publish_message m tr w = (Raises NameError, {| self := self w; out := o' |}) /\
    client_calls o' = client_calls (out w).
Proof.
  unfold publish_of. intros Hq. unfold publish_message, mbind. log_calls.
  unfold try_except, call. rewrite Hq. cbn [except_e]. unfold raise. eauto.
Qed.

Lemma drain_calls tr (buf : list message) :
  (forall m, In m buf -> tr (publish_of m) = None) ->
  forall w, exists o',
    for_each buf publish_message tr w = (Returns tt, {| self := self w; out := o' |}) /\
    client_calls o' = client_calls (out w) ++ map publish_of buf.
Proof.
  induction buf as [|m buf IH]; intros Hq w.
  - exists (out w). cbn. rewrite app_nil_r. destruct w; auto.
  - cbn [for_each]. unfold mbind.
    destruct (publish_message_returns_calls tr m w (Hq m (or_introl eq_refl)))
      as (o & -> & Ho).
    destruct (IH (fun m' Hm' => Hq m' (or_intror Hm')) {| self := self w; out := o |})
      as (o' & -> & Ho').
    exists o'. split; [reflexivity|]. cbn [self out map] in *.
    rewrite Ho', Ho, <- app_assoc. reflexivity.
Qed.

Lemma drain_aborts tr (sent : list message) m (unsent : list message) e :
  (forall m', In m' sent -> tr (publish_of m') = None) ->
  tr (publish_of m) = Some e ->
  forall w, exists o',
    for_each (sent ++ m :: unsent) publish_message tr w =
      (Raises NameError, {| self := self w; out := o' |}) /\
    client_calls o' = client_calls (out w) ++ map publish_of sent.
Proof.
  induction sent as [|m0 sent IH]; intros Hq He w.
  - cbn [app for_each]. unfold mbind.
    destruct (publish_message_raises_calls tr m w e He) as (o' & -> & Ho').
    exists o'. split; [reflexivity|]. cbn. rewrite app_nil_r. exact Ho'.
  - cbn [app for_each]. unfold mbind.
    destruct (publish_message_returns_calls tr m0 w (Hq m0 (or_introl eq_refl)))
      as (o & -> & Ho).
    destruct (IH (fun m' Hm' => Hq m' (or_intror Hm')) He {| self := self w; out := o |})
      as (o' & -> & Ho').
    exists o'. split; [reflexivity|]. cbn [self out map] in *.
    rewrite Ho', Ho, <- app_assoc. reflexivity.
Qed.

(** The callback up to its loop: the queue is copied to the buffer and
    emptied; no call is made. *)
Lemma mqttConnected_prelude rc tr w :
  exists o,
    client_calls o = client_calls (out w) /\
    mqttConnected rc tr w =
      (exec for_each (msgQueue (self w)) publish_message;
       exec call loop_stop;
       exec modify (set_msgQueueBuffer []);
       exec modify (set_connectionState 0);
       call disconnect) tr
        {| self := set_msgQueue [] (set_msgQueueBuffer (msgQueue (self w)) (self w));
           out := o |}.
Proof.
  unfold mqttConnected.
  unfold mbind at 1. log_calls.
  unfold mbind at 1. log_calls.
  unfold mbind at 1. unfold modify at 1. cbn [self out].
  unfold mbind at 1. log_calls.
  unfold mbind at 1. unfold modify at 1. cbn [self out].
  unfold mbind at 1. unfold get at 1. cbn [self out msgQueueBuffer set_msgQueue
    set_msgQueueBuffer].
  exists o1. split; [congruence|reflexivity].
Qed.

(** X26. When no call raises, the callback publishes the queued messages
    once each in queue order, then stops the loop and disconnects, and
    leaves queue and buffer empty and the state at 0. *)
Theorem mqttConnected_publishes_queue_in_order rc tr w :
  (forall m, In m (msgQueue (self w)) -> tr (publish_of m) = None) ->
  tr loop_stop = None ->
  tr disconnect = None ->
  exists o',
    mqttConnected rc tr w =
      (Returns tt,
       {| self := set_connectionState 0
                    (set_msgQueueBuffer [] (set_msgQueue [] (self w)));
          out := o' |}) /\
    client_calls o' =
      client_calls (out w) ++ map publish_of (msgQueue (self w))
      ++ [loop_stop; disconnect].
Proof.
  intros Hq Hstop Hdis.
  destruct (mqttConnected_prelude rc tr w) as (o & Ho & ->).
  unfold mbind at 1.
  match goal with
  | |- context [for_each ?buf publish_message tr ?w'] =>
      destruct (drain_calls tr buf Hq w') as (o' & -> & Ho')
  end.
  unfold mbind, call, modify. rewrite Hstop. cbn [self out]. rewrite Hdis.
  eexists. split; [reflexivity|].
  cbn [out] in Ho'.
  rewrite !client_calls_app, Ho', Ho. cbn. rewrite <- !app_assoc. reflexivity.
Qed.

(** X27. When publishing a queued message raises, the callback ends
    with NameError after having published the messages before it: the
    queue is empty, the whole batch sits in the buffer, and the message
    and those after it have not been published. *)
Theorem mqttConnected_loses_batch rc tr w sent m unsent e :
  msgQueue (self w) = sent ++ m :: unsent ->
  (forall m', In m' sent -> tr (publish_of m') = None) ->
  tr (publish_of m) = Some e ->
  exists o',
    mqttConnected rc tr w =
      (Raises NameError,
       {| self := set_msgQueue [] (set_msgQueueBuffer (sent ++ m :: unsent) (self w));
          out := o' |}) /\
    client_calls o' = client_calls (out w) ++ map publish_of sent.
Proof.
  intros Hqueue Hq He.
  destruct (mqttConnected_prelude rc tr w) as (o & Ho & ->).
  unfold mbind at 1. rewrite Hqueue.
  match goal with
  | |- context [for_each _ publish_message tr ?w'] =>
      destruct (drain_aborts tr sent m unsent e Hq He w') as (o' & -> & Ho')
  end.
  eexists. split; [reflexivity|]. cbn [out] in Ho'. rewrite Ho', Ho. reflexivity.
Qed.

Lemma connect_body_quiet_calls s tr w :
  (forall c, tr c = None) ->
  exists o',
    connect_body s tr w =
      (Returns PNone, {| self := set_connectionState 1 (self w); out := o' |}) /\
    client_calls o' = client_calls (out w) ++ attempt_calls s.
Proof.
  intros Hq. rewrite (connect_body_quiet s tr w Hq).
  eexists. split; [reflexivity|]. unfold attempt_calls.
  rewrite !client_calls_app.
  destruct (truthy (username s) && truthy (password s)); reflexivity.
Qed.

Lemma mqttConnected_quiet_calls rc tr w :
  (forall c, tr c = None) ->
  exists o',
    mqttConnected rc tr w =
      (Returns tt,
       {| self := set_connectionState 0
                    (set_msgQueueBuffer [] (set_msgQueue [] (self w)));
          out := o' |}) /\
    client_calls o' =
      client_calls (out w) ++ map publish_of (msgQueue (self w))
      ++ [loop_stop; disconnect].
Proof.
  intros Hq.
  destruct (mqttConnected_prelude rc tr w) as (o & Ho & ->).
  unfold mbind at 1.
  match goal with
  | |- context [for_each ?buf publish_message tr ?w'] =>
      destruct (drain_calls tr buf (fun m _ => Hq _) w') as (o' & -> & Ho')
  end.
  unfold mbind, call, modify. rewrite !Hq. cbn [self out].
  eexists. split; [reflexivity|].
  cbn [out] in Ho'.
  rewrite !client_calls_app, Ho', Ho. cbn. rewrite <- !app_assoc. reflexivity.
Qed.

(** X28. From state 0 and with no call raising, a status update for a
    topic without a recorded time followed by the connect callback makes
    the calls of one connection attempt, publishes the trimmed queue
    with the new message last, stops the loop and disconnects; the state
    goes to 1 and back to 0, the queue is empty, the time is recorded. *)
Theorem update_then_drain twcid key value now now' rc tr w prefix :
  truthy (status (self w)) = true ->
  topicPrefix (self w) = PStr prefix ->
  msgRate (self w) !! status_topic prefix twcid key = None ->
  connectionState (self w) = 0 ->
  (forall c, tr c = None) ->
  let w1 := snd (setStatus twcid key value now now' tr w) in
  let w2 := snd (on_event (connack rc) tr w1) in
  client_calls (out w2) =
    client_calls (out w) ++ attempt_calls (self w)
    ++ map publish_of
         (trimmed (msgQueueMax (self w))
            (msgQueue (self w)
               ++ [{| topic := status_topic prefix twcid key; payload := value |}]))
    ++ [loop_stop; disconnect] /\
  connectionState (self w1) = 1 /\
  connectionState (self w2) = 0 /\
  msgQueue (self w2) = [] /\
  msgRate (self w2) = <[status_topic prefix twcid key := now]> (msgRate (self w)).
Proof.
  intros Hen Hp Hfresh H0 Hq w1 w2. subst w2 w1.
  destruct (setStatus_fresh_run twcid key value now now' tr w prefix Hen Hp Hfresh H0)
    as (o & Ho & ->).
  unfold try_except.
  match goal with
  | |- context [connect_body ?s tr ?w'] =>
      destruct (connect_body_quiet_calls s tr w' Hq) as (o1 & -> & Ho1)
  end.
  cbn [snd on_event].
  match goal with
  | |- context [mqttConnected rc tr ?w'] =>
      destruct (mqttConnected_quiet_calls rc tr w' Hq) as (o2 & -> & Ho2)
  end.
  cbn [snd out self msgQueue msgRate connectionState set_connectionState pushed
       set_msgQueue set_msgQueueBuffer set_msgRate msgQueueMax] in *.
  split; [|repeat split].
  rewrite Ho2, Ho1, Ho. rewrite <- !app_assoc. reflexivity.
Qed.

End DrainFurther.

Section ReturnValues.

Import MQTTStatus.

Lemma establish_connection_not_True tr w :
  fst (establish_connection tr w) <> Returns (PBool true).
Proof.
  unfold establish_connection, mbind, get. cbn [fst snd].
  destruct (connectionState (self w) =? 0); [|discriminate].
  log_calls. unfold try_except.
  destruct (connect_body_run (self w) tr {| self := self w; out := o |})
    as [o' [(_ & _ & ->)|[(e & c' & _ & ->)|(e & _ & _ & ->)]]]; cbn [fst self out];
    try discriminate.
  - destruct (is_OSError e) eqn:He.
    + destruct (connect_handlers_calls e tr {| self := self w; out := o' |} He)
        as (o'' & -> & _). discriminate.
    + unfold connect_handlers. rewrite He. discriminate.
  - destruct (is_OSError e) eqn:He.
    + destruct (connect_handlers_calls e tr
                  {| self := set_connectionState 1 (self w); out := o' |} He)
        as (o'' & -> & _). discriminate.
    + unfold connect_handlers. rewrite He. discriminate.
Qed.

Lemma push_and_connect_not_True topic' value tr w :
  fst (push_and_connect topic' value tr w) <> Returns (PBool true).
Proof.
  unfold push_and_connect, mbind, modify. cbn [fst snd self out].
  rewrite trim_queue_run. apply establish_connection_not_True.
Qed.

(** X29. [setStatus] returns True exactly when the publisher is enabled
    and the topic has a recorded time less than [msgRatePerTopic] ago,
    and the world is then unchanged: True means the message was
    dropped. *)
Theorem setStatus_True_means_dropped twcid key value now now' tr w :
  fst (setStatus twcid key value now now' tr w) = Returns (PBool true) <->
  truthy (status (self w)) = true /\
  exists prefix last,
    topicPrefix (self w) = PStr prefix /\
    msgRate (self w) !! status_topic prefix twcid key = Some last /\
    (now - last < msgRatePerTopic (self w))%Q /\
    snd (setStatus twcid key value now now' tr w) = w.
Proof.
  destruct (truthy (status (self w))) eqn:Hen.
  2: { rewrite setStatus_disabled by exact Hen. split; [discriminate|].
       intros [H _]. discriminate. }
  destruct (topicPrefix (self w)) as [|b|z|prefix] eqn:Hp.
  1-3: rewrite setStatus_without_prefix_run by
         (try exact Hen; intros prefix; rewrite Hp; discriminate);
       (split; [discriminate|]); intros (_ & prefix & last & H & _); discriminate.
  rewrite (setStatus_run _ _ _ _ _ _ _ prefix Hen Hp).
  destruct (msgRate (self w) !! status_topic prefix twcid key) as [last|] eqn:Hl.
  - destruct (Qltb (now - last) (msgRatePerTopic (self w))) eqn:Hlt.
    + cbn [fst snd]. split; [|reflexivity]. intros _. split; [reflexivity|].
      exists prefix, last. repeat split; auto. apply Qltb_lt, Hlt.
    + split.
      * intros H. destruct (push_and_connect_not_True _ _ _ _ H).
      * intros (_ & prefix' & last' & Hp' & Hl' & Hlt' & _).
        inversion Hp'; subst prefix'. rewrite Hl in Hl'. inversion Hl'; subst last'.
        apply Qltb_lt in Hlt'. congruence.
  - split.
    + intros H. destruct (push_and_connect_not_True _ _ _ _ H).
    + intros (_ & prefix' & last' & Hp' & Hl' & _).
      inversion Hp'; subst prefix'. rewrite Hl in Hl'. discriminate.
Qed.

End ReturnValues.

Lemma is_valid_port_cases v :
  (is_valid_port v = Returns true <->
   truthy v = true /\ exists n, py_int v = Returns n /\ 0 < n < 65536) /\
  (raised (is_valid_port v) = true <->
   exists s, v = PStr s /\ s <> "" /\ int_of_chars (list_ascii_of_string s) = None) /\
  (forall e, is_valid_port v = Raises e -> e = ValueError).
Proof.
  split; [|split; [apply is_valid_port_raises_iff|]].
  - destruct v as [|b|z|s].
    + cbn. split; [discriminate|]. intros [H _]. discriminate.
    + destruct b; cbn.
      * split; [|reflexivity]. intros _. split; [reflexivity|]. exists 1. split; [reflexivity|lia].
      * split; [discriminate|]. intros [H _]. discriminate.
    + rewrite is_valid_port_int. unfold in_port_range. cbn [truthy py_int].
      split.
      * intros H. injection H as H1. apply andb_true_iff in H1 as [Ha Hb].
        apply Z.ltb_lt in Ha, Hb. split.
        -- apply negb_true_iff, Z.eqb_neq. lia.
        -- exists z. split; [reflexivity|]. change (2 ^ 16) with 65536 in Hb. lia.
      * intros (_ & n & Hn & Hlo & Hhi). injection Hn as <-. f_equal.
        apply andb_true_iff. split; apply Z.ltb_lt; [lia|].
        change (2 ^ 16) with 65536. lia.
    + destruct (String.eqb_spec s "") as [->|Hs].
      * cbn. split; [discriminate|]. intros [H _]. discriminate.
      * rewrite (is_valid_port_str s Hs). cbn [truthy py_int].
        destruct (int_of_chars (list_ascii_of_string s)) as [n|].
        -- unfold in_port_range. split.
           ++ intros H. injection H as H1. apply andb_true_iff in H1 as [Ha Hb].
              apply Z.ltb_lt in Ha, Hb. split.
              ** apply negb_true_iff, String.eqb_neq, Hs.
              ** exists n. split; [reflexivity|].
                 change (2 ^ 16) with 65536 in Hb. lia.
           ++ intros (_ & n' & Hn & Hlo & Hhi). injection Hn as <-. f_equal.
              apply andb_true_iff. split; apply Z.ltb_lt; [lia|].
              change (2 ^ 16) with 65536. lia.
        -- split; [discriminate|]. intros (_ & n' & Hn & _). discriminate.
  - destruct v as [|b|z|s].
    + cbn. discriminate.
    + destruct b; cbn; discriminate.
    + rewrite is_valid_port_int. discriminate.
    + destruct (String.eqb_spec s "") as [->|Hs]; [cbn; discriminate|].
      rewrite (is_valid_port_str s Hs).
      destruct (int_of_chars (list_ascii_of_string s)); [discriminate|].
      intros e H. inversion H. reflexivity.
Qed.

(** X30. Over values whose text holds code points below 256,
    [is_valid_port] returns True exactly for a value that counts as
    true and converts with [int] to a number strictly between 0 and
    65536; it raises exactly on a non-empty text that is no integer
    literal, and then with ValueError.  An integer literal is what
    [int] converts: 80 behind the file separator 0x1C is none, 80 behind
    a no-break space is one, and so is a port written with 4300 digits,
    but not one written with 4301. *)
Theorem is_valid_port_outcome :
  (forall v,
     (is_valid_port v = Returns true <->
      truthy v = true /\ exists n, py_int v = Returns n /\ 0 < n < 65536) /\
     (raised (is_valid_port v) = true <->
      exists s, v = PStr s /\ s <> "" /\
                int_of_chars (list_ascii_of_string s) = None) /\
     (forall e, is_valid_port v = Raises e -> e = ValueError))
  /\
  is_valid_port (PStr TextSamples.separator_then_80) = Raises ValueError
  /\
  is_valid_port (PStr TextSamples.nbsp_then_80) = Returns true
  /\
  is_valid_port (PStr (TextSamples.zeros_then_8080 4296)) = Returns true
  /\
  is_valid_port (PStr (TextSamples.zeros_then_8080 4297)) = Raises ValueError.
Proof.
  split; [exact is_valid_port_cases|].
  repeat split; vm_compute; reflexivity.
Qed.

(** Witnesses for the publisher properties. *)

Lemma publisher_without_prefix_raises_witness :
  MQTTStatus.setStatus "id" "power" (PInt 1) 0 0 PublisherSamples.quiet
    PublisherSamples2.no_prefix = (Raises TypeError, PublisherSamples2.no_prefix).
Proof.
  apply (publisher_without_prefix_raises 0 (<["enabled" := PBool true]> ∅) []).
  - vm_compute. reflexivity.
  - intros prefix. vm_compute. discriminate.
  - constructor.
Defined.



Lemma mqttConnected_publishes_queue_in_order_witness :
  exists o',
    MQTTStatus.mqttConnected 0 PublisherSamples.quiet PublisherSamples.two_queued =
      (Returns tt,
       {| MQTTStatus.self :=
            MQTTStatus.set_connectionState 0
              (MQTTStatus.set_msgQueueBuffer []
                 (MQTTStatus.set_msgQueue []
                    (MQTTStatus.self PublisherSamples.two_queued)));
          MQTTStatus.out := o' |}) /\
    client_calls o' =
      client_calls (MQTTStatus.out PublisherSamples.two_queued)
      ++ map publish_of
           (MQTTStatus.msgQueue (MQTTStatus.self PublisherSamples.two_queued))
      ++ [MQTTStatus.loop_stop; MQTTStatus.disconnect].
Proof.
  apply (mqttConnected_publishes_queue_in_order 0 PublisherSamples.quiet
           PublisherSamples.two_queued); reflexivity.
Defined.

Lemma mqttConnected_loses_batch_witness :
  exists o',
    MQTTStatus.mqttConnected 0 PublisherSamples.refuses_wildcards
      PublisherSamples2.three_queued =
      (Raises NameError,
       {| MQTTStatus.self :=
            MQTTStatus.set_msgQueue []
              (MQTTStatus.set_msgQueueBuffer
                 ([{| MQTTStatus.topic := "TWC/AB/power"; MQTTStatus.payload := PInt 1 |}]
                  ++ {| MQTTStatus.topic := "TWC/#A/power"; MQTTStatus.payload := PInt 2 |}
                  :: [{| MQTTStatus.topic := "TWC/BC/power";
                         MQTTStatus.payload := PInt 3 |}])
                 (MQTTStatus.self PublisherSamples2.three_queued));
          MQTTStatus.out := o' |}) /\
    client_calls o' =
      client_calls (MQTTStatus.out PublisherSamples2.three_queued)
      ++ map publish_of
           [{| MQTTStatus.topic := "TWC/AB/power"; MQTTStatus.payload := PInt 1 |}].
Proof.
  apply (mqttConnected_loses_batch 0 PublisherSamples.refuses_wildcards
           PublisherSamples2.three_queued _ _ _ ValueError).
  - reflexivity.
  - intros m' [<-|[]]. reflexivity.
  - reflexivity.
Defined.

Lemma update_then_drain_witness :
  MQTTStatus.connectionState
    (MQTTStatus.self
       (snd (MQTTStatus.on_event (MQTTStatus.connack 0) PublisherSamples.quiet
               (snd (MQTTStatus.setStatus "id" "power" (PInt 1) 0 0
                       PublisherSamples.quiet PublisherSamples.fresh))))) = 0.
Proof.
  apply (proj1 (proj2 (proj2 (update_then_drain "id" "power" (PInt 1) 0%Q 0%Q 0
                                PublisherSamples.quiet PublisherSamples.fresh "TWC"
                                eq_refl eq_refl eq_refl eq_refl (fun c => eq_refl))))).
Defined.
